(** * autoexcel: material resolver, price selector and import orchestrator

    A shallow embedding of [database_manager.py] and [price_importer.py]:
    the catalogue store with the queries the importer runs against it, the
    name normalisation and the column detection with the regular
    expressions they use, the price selection, and the import loop with its
    exception handling.  The properties of the specification are stated and
    settled against these definitions. *)

From Stdlib Require Import Ascii String DecimalString.
From Stdlib Require Import List Bool Arith ZArith NArith Lia.
Import ListNotations.

Set Implicit Arguments.

(* ===================================================================== *)
(** * Python text                                                          *)
(* ===================================================================== *)

(** A Python [str] is a sequence of Unicode code points.  Literals are
    written as UTF-8 text and decoded by [u]. *)
Module PyStr.

Definition cp := N.
Definition str := list cp.

(** ** UTF-8 decoding of the literals of this file *)

(** [need] continuation bytes are still expected for the code point whose
    high bits are in [acc]. *)
Fixpoint utf8_go (need : nat) (acc : N) (s : String.string) : str :=
  match s with
  | String.EmptyString => []
  | String.String a rest =>
      let b := N_of_ascii a in
      match need with
      | O =>
          if (b <? 128)%N then b :: utf8_go 0 0%N rest
          else if (b <? 224)%N then utf8_go 1 (b - 192)%N rest
          else if (b <? 240)%N then utf8_go 2 (b - 224)%N rest
          else utf8_go 3 (b - 240)%N rest
      | S O => (acc * 64 + (b - 128))%N :: utf8_go 0 0%N rest
      | S k => utf8_go k (acc * 64 + (b - 128))%N rest
      end
  end.

Definition u (s : String.string) : str := utf8_go 0 0%N s.

Arguments u s%_string.

(** ** Comparison *)

Fixpoint eqb (a b : str) : bool :=
  match a, b with
  | [], [] => true
  | x :: a', y :: b' => (x =? y)%N && eqb a' b'
  | _, _ => false
  end.

(** [a <= b] in code point order, which is also the order of the UTF-8
    encodings that SQLite compares with [memcmp]. *)
Fixpoint leb (a b : str) : bool :=
  match a, b with
  | [], _ => true
  | _ :: _, [] => false
  | x :: a', y :: b' =>
      if (x <? y)%N then true
      else if (x =? y)%N then leb a' b'
      else false
  end.

(** Truth value of a string: the empty string is false. *)
Definition truthy (s : str) : bool :=
  match s with [] => false | _ :: _ => true end.

(** Truth value of an optional string: [None] and [""] are false. *)
Definition otruthy (o : option str) : bool :=
  match o with Some s => truthy s | None => false end.

(** ** Character classes *)

(** Unicode white space as [str.isspace], [str.strip] and the [\s] of
    [re] on [str] patterns see it. *)
Definition isspace (c : cp) : bool :=
  ((9 <=? c) && (c <=? 13) || (28 <=? c) && (c <=? 32)
   || (c =? 133) || (c =? 160) || (c =? 5760)
   || (8192 <=? c) && (c <=? 8202)
   || (c =? 8232) || (c =? 8233) || (c =? 8239) || (c =? 8287)
   || (c =? 12288))%N.

(** ** Lowercasing *)

(** [str.lower] of Python 3.11, whose tables are those of Unicode 14.0.
    A row [(lo, hi, to, stride)] of [lower_ranges] says that the code
    points [lo], [lo + stride], ... up to [hi] have the lowercase letters
    [to], [to + stride], ...; every code point that no row names is its own
    lowercase.  The rows are in ascending order. *)
Definition lower_ranges : list (N * N * N * N) :=
  [(65, 90, 97, 1); (192, 214, 224, 1); (216, 222, 248, 1);
   (256, 302, 257, 2); (306, 310, 307, 2); (313, 327, 314, 2);
   (330, 374, 331, 2); (376, 376, 255, 1); (377, 381, 378, 2);
   (385, 385, 595, 1); (386, 388, 387, 2); (390, 390, 596, 1);
   (391, 391, 392, 1); (393, 394, 598, 1); (395, 395, 396, 1);
   (398, 398, 477, 1); (399, 399, 601, 1); (400, 400, 603, 1);
   (401, 401, 402, 1); (403, 403, 608, 1); (404, 404, 611, 1);
   (406, 406, 617, 1); (407, 407, 616, 1); (408, 408, 409, 1);
   (412, 412, 623, 1); (413, 413, 626, 1); (415, 415, 629, 1);
   (416, 420, 417, 2); (422, 422, 640, 1); (423, 423, 424, 1);
   (425, 425, 643, 1); (428, 428, 429, 1); (430, 430, 648, 1);
   (431, 431, 432, 1); (433, 434, 650, 1); (435, 437, 436, 2);
   (439, 439, 658, 1); (440, 440, 441, 1); (444, 444, 445, 1);
   (452, 452, 454, 1); (453, 453, 454, 1); (455, 455, 457, 1);
   (456, 456, 457, 1); (458, 458, 460, 1); (459, 475, 460, 2);
   (478, 494, 479, 2); (497, 497, 499, 1); (498, 500, 499, 2);
   (502, 502, 405, 1); (503, 503, 447, 1); (504, 542, 505, 2);
   (544, 544, 414, 1); (546, 562, 547, 2); (570, 570, 11365, 1);
   (571, 571, 572, 1); (573, 573, 410, 1); (574, 574, 11366, 1);
   (577, 577, 578, 1); (579, 579, 384, 1); (580, 580, 649, 1);
   (581, 581, 652, 1); (582, 590, 583, 2); (880, 882, 881, 2);
   (886, 886, 887, 1); (895, 895, 1011, 1); (902, 902, 940, 1);
   (904, 906, 941, 1); (908, 908, 972, 1); (910, 911, 973, 1);
   (913, 929, 945, 1); (931, 939, 963, 1); (975, 975, 983, 1);
   (984, 1006, 985, 2); (1012, 1012, 952, 1); (1015, 1015, 1016, 1);
   (1017, 1017, 1010, 1); (1018, 1018, 1019, 1); (1021, 1023, 891, 1);
   (1024, 1039, 1104, 1); (1040, 1071, 1072, 1); (1120, 1152, 1121, 2);
   (1162, 1214, 1163, 2); (1216, 1216, 1231, 1); (1217, 1229, 1218, 2);
   (1232, 1326, 1233, 2); (1329, 1366, 1377, 1); (4256, 4293, 11520, 1);
   (4295, 4295, 11559, 1); (4301, 4301, 11565, 1); (5024, 5103, 43888, 1);
   (5104, 5109, 5112, 1); (7312, 7354, 4304, 1); (7357, 7359, 4349, 1);
   (7680, 7828, 7681, 2); (7838, 7838, 223, 1); (7840, 7934, 7841, 2);
   (7944, 7951, 7936, 1); (7960, 7965, 7952, 1); (7976, 7983, 7968, 1);
   (7992, 7999, 7984, 1); (8008, 8013, 8000, 1); (8025, 8025, 8017, 1);
   (8027, 8027, 8019, 1); (8029, 8029, 8021, 1); (8031, 8031, 8023, 1);
   (8040, 8047, 8032, 1); (8072, 8079, 8064, 1); (8088, 8095, 8080, 1);
   (8104, 8111, 8096, 1); (8120, 8121, 8112, 1); (8122, 8123, 8048, 1);
   (8124, 8124, 8115, 1); (8136, 8139, 8050, 1); (8140, 8140, 8131, 1);
   (8152, 8153, 8144, 1); (8154, 8155, 8054, 1); (8168, 8169, 8160, 1);
   (8170, 8171, 8058, 1); (8172, 8172, 8165, 1); (8184, 8185, 8056, 1);
   (8186, 8187, 8060, 1); (8188, 8188, 8179, 1); (8486, 8486, 969, 1);
   (8490, 8490, 107, 1); (8491, 8491, 229, 1); (8498, 8498, 8526, 1);
   (8544, 8559, 8560, 1); (8579, 8579, 8580, 1); (9398, 9423, 9424, 1);
   (11264, 11311, 11312, 1); (11360, 11360, 11361, 1);
   (11362, 11362, 619, 1); (11363, 11363, 7549, 1);
   (11364, 11364, 637, 1); (11367, 11371, 11368, 2);
   (11373, 11373, 593, 1); (11374, 11374, 625, 1); (11375, 11375, 592, 1);
   (11376, 11376, 594, 1); (11378, 11378, 11379, 1);
   (11381, 11381, 11382, 1); (11390, 11391, 575, 1);
   (11392, 11490, 11393, 2); (11499, 11501, 11500, 2);
   (11506, 11506, 11507, 1); (42560, 42604, 42561, 2);
   (42624, 42650, 42625, 2); (42786, 42798, 42787, 2);
   (42802, 42862, 42803, 2); (42873, 42875, 42874, 2);
   (42877, 42877, 7545, 1); (42878, 42886, 42879, 2);
   (42891, 42891, 42892, 1); (42893, 42893, 613, 1);
   (42896, 42898, 42897, 2); (42902, 42920, 42903, 2);
   (42922, 42922, 614, 1); (42923, 42923, 604, 1); (42924, 42924, 609, 1);
   (42925, 42925, 620, 1); (42926, 42926, 618, 1); (42928, 42928, 670, 1);
   (42929, 42929, 647, 1); (42930, 42930, 669, 1);
   (42931, 42931, 43859, 1); (42932, 42946, 42933, 2);
   (42948, 42948, 42900, 1); (42949, 42949, 642, 1);
   (42950, 42950, 7566, 1); (42951, 42953, 42952, 2);
   (42960, 42960, 42961, 1); (42966, 42968, 42967, 2);
   (42997, 42997, 42998, 1); (65313, 65338, 65345, 1);
   (66560, 66599, 66600, 1); (66736, 66771, 66776, 1);
   (66928, 66938, 66967, 1); (66940, 66954, 66979, 1);
   (66956, 66962, 66995, 1); (66964, 66965, 67003, 1);
   (68736, 68786, 68800, 1); (71840, 71871, 71872, 1);
   (93760, 93791, 93792, 1); (125184, 125217, 125218, 1)]%N.

Fixpoint lower_in (t : list (N * N * N * N)) (c : cp) : cp :=
  match t with
  | [] => c
  | (lo, hi, to, stride) :: rest =>
      if (c <? lo)%N then c
      else if (c <=? hi)%N then
        (if ((c - lo) mod stride =? 0)%N then (to + (c - lo))%N else c)
      else lower_in rest c
  end.

(** The lowercase of one code point where it is one code point. *)
Definition lower_cp (c : cp) : cp := lower_in lower_ranges c.

(** The lowercase of one code point in full: the capital I with a dot
    above, U+0130, becomes a small i and a combining dot. *)
Definition lower_full (c : cp) : str :=
  if (c =? 304)%N then [105; 775]%N else [lower_cp c].

(** Is [c] in one of the ranges [(lo, hi)], which are in ascending
    order? *)
Fixpoint in_ranges (t : list (N * N)) (c : cp) : bool :=
  match t with
  | [] => false
  | (lo, hi) :: rest =>
      if (c <? lo)%N then false
      else if (c <=? hi)%N then true
      else in_ranges rest c
  end.

(** The code points with the property Case_Ignorable, which the rule for
    the capital sigma passes over. *)
Definition case_ignorable_ranges : list (N * N) :=
  [(39, 39); (46, 46); (58, 58); (94, 94); (96, 96); (168, 168);
   (173, 173); (175, 175); (180, 180); (183, 184); (688, 879); (884, 885);
   (890, 890); (900, 901); (903, 903); (1155, 1161); (1369, 1369);
   (1375, 1375); (1425, 1469); (1471, 1471); (1473, 1474); (1476, 1477);
   (1479, 1479); (1524, 1524); (1536, 1541); (1552, 1562); (1564, 1564);
   (1600, 1600); (1611, 1631); (1648, 1648); (1750, 1757); (1759, 1768);
   (1770, 1773); (1807, 1807); (1809, 1809); (1840, 1866); (1958, 1968);
   (2027, 2037); (2042, 2042); (2045, 2045); (2070, 2093); (2137, 2139);
   (2184, 2184); (2192, 2193); (2200, 2207); (2249, 2306); (2362, 2362);
   (2364, 2364); (2369, 2376); (2381, 2381); (2385, 2391); (2402, 2403);
   (2417, 2417); (2433, 2433); (2492, 2492); (2497, 2500); (2509, 2509);
   (2530, 2531); (2558, 2558); (2561, 2562); (2620, 2620); (2625, 2626);
   (2631, 2632); (2635, 2637); (2641, 2641); (2672, 2673); (2677, 2677);
   (2689, 2690); (2748, 2748); (2753, 2757); (2759, 2760); (2765, 2765);
   (2786, 2787); (2810, 2815); (2817, 2817); (2876, 2876); (2879, 2879);
   (2881, 2884); (2893, 2893); (2901, 2902); (2914, 2915); (2946, 2946);
   (3008, 3008); (3021, 3021); (3072, 3072); (3076, 3076); (3132, 3132);
   (3134, 3136); (3142, 3144); (3146, 3149); (3157, 3158); (3170, 3171);
   (3201, 3201); (3260, 3260); (3263, 3263); (3270, 3270); (3276, 3277);
   (3298, 3299); (3328, 3329); (3387, 3388); (3393, 3396); (3405, 3405);
   (3426, 3427); (3457, 3457); (3530, 3530); (3538, 3540); (3542, 3542);
   (3633, 3633); (3636, 3642); (3654, 3662); (3761, 3761); (3764, 3772);
   (3782, 3782); (3784, 3789); (3864, 3865); (3893, 3893); (3895, 3895);
   (3897, 3897); (3953, 3966); (3968, 3972); (3974, 3975); (3981, 3991);
   (3993, 4028); (4038, 4038); (4141, 4144); (4146, 4151); (4153, 4154);
   (4157, 4158); (4184, 4185); (4190, 4192); (4209, 4212); (4226, 4226);
   (4229, 4230); (4237, 4237); (4253, 4253); (4348, 4348); (4957, 4959);
   (5906, 5908); (5938, 5939); (5970, 5971); (6002, 6003); (6068, 6069);
   (6071, 6077); (6086, 6086); (6089, 6099); (6103, 6103); (6109, 6109);
   (6155, 6159); (6211, 6211); (6277, 6278); (6313, 6313); (6432, 6434);
   (6439, 6440); (6450, 6450); (6457, 6459); (6679, 6680); (6683, 6683);
   (6742, 6742); (6744, 6750); (6752, 6752); (6754, 6754); (6757, 6764);
   (6771, 6780); (6783, 6783); (6823, 6823); (6832, 6862); (6912, 6915);
   (6964, 6964); (6966, 6970); (6972, 6972); (6978, 6978); (7019, 7027);
   (7040, 7041); (7074, 7077); (7080, 7081); (7083, 7085); (7142, 7142);
   (7144, 7145); (7149, 7149); (7151, 7153); (7212, 7219); (7222, 7223);
   (7288, 7293); (7376, 7378); (7380, 7392); (7394, 7400); (7405, 7405);
   (7412, 7412); (7416, 7417); (7468, 7530); (7544, 7544); (7579, 7679);
   (8125, 8125); (8127, 8129); (8141, 8143); (8157, 8159); (8173, 8175);
   (8189, 8190); (8203, 8207); (8216, 8217); (8228, 8228); (8231, 8231);
   (8234, 8238); (8288, 8292); (8294, 8303); (8305, 8305); (8319, 8319);
   (8336, 8348); (8400, 8432); (11388, 11389); (11503, 11505);
   (11631, 11631); (11647, 11647); (11744, 11775); (11823, 11823);
   (12293, 12293); (12330, 12333); (12337, 12341); (12347, 12347);
   (12441, 12446); (12540, 12542); (40981, 40981); (42232, 42237);
   (42508, 42508); (42607, 42610); (42612, 42621); (42623, 42623);
   (42652, 42655); (42736, 42737); (42752, 42785); (42864, 42864);
   (42888, 42890); (42994, 42996); (43000, 43001); (43010, 43010);
   (43014, 43014); (43019, 43019); (43045, 43046); (43052, 43052);
   (43204, 43205); (43232, 43249); (43263, 43263); (43302, 43309);
   (43335, 43345); (43392, 43394); (43443, 43443); (43446, 43449);
   (43452, 43453); (43471, 43471); (43493, 43494); (43561, 43566);
   (43569, 43570); (43573, 43574); (43587, 43587); (43596, 43596);
   (43632, 43632); (43644, 43644); (43696, 43696); (43698, 43700);
   (43703, 43704); (43710, 43711); (43713, 43713); (43741, 43741);
   (43756, 43757); (43763, 43764); (43766, 43766); (43867, 43871);
   (43881, 43883); (44005, 44005); (44008, 44008); (44013, 44013);
   (64286, 64286); (64434, 64450); (65024, 65039); (65043, 65043);
   (65056, 65071); (65106, 65106); (65109, 65109); (65279, 65279);
   (65287, 65287); (65294, 65294); (65306, 65306); (65342, 65342);
   (65344, 65344); (65392, 65392); (65438, 65439); (65507, 65507);
   (65529, 65531); (66045, 66045); (66272, 66272); (66422, 66426);
   (67456, 67461); (67463, 67504); (67506, 67514); (68097, 68099);
   (68101, 68102); (68108, 68111); (68152, 68154); (68159, 68159);
   (68325, 68326); (68900, 68903); (69291, 69292); (69446, 69456);
   (69506, 69509); (69633, 69633); (69688, 69702); (69744, 69744);
   (69747, 69748); (69759, 69761); (69811, 69814); (69817, 69818);
   (69821, 69821); (69826, 69826); (69837, 69837); (69888, 69890);
   (69927, 69931); (69933, 69940); (70003, 70003); (70016, 70017);
   (70070, 70078); (70089, 70092); (70095, 70095); (70191, 70193);
   (70196, 70196); (70198, 70199); (70206, 70206); (70367, 70367);
   (70371, 70378); (70400, 70401); (70459, 70460); (70464, 70464);
   (70502, 70508); (70512, 70516); (70712, 70719); (70722, 70724);
   (70726, 70726); (70750, 70750); (70835, 70840); (70842, 70842);
   (70847, 70848); (70850, 70851); (71090, 71093); (71100, 71101);
   (71103, 71104); (71132, 71133); (71219, 71226); (71229, 71229);
   (71231, 71232); (71339, 71339); (71341, 71341); (71344, 71349);
   (71351, 71351); (71453, 71455); (71458, 71461); (71463, 71467);
   (71727, 71735); (71737, 71738); (71995, 71996); (71998, 71998);
   (72003, 72003); (72148, 72151); (72154, 72155); (72160, 72160);
   (72193, 72202); (72243, 72248); (72251, 72254); (72263, 72263);
   (72273, 72278); (72281, 72283); (72330, 72342); (72344, 72345);
   (72752, 72758); (72760, 72765); (72767, 72767); (72850, 72871);
   (72874, 72880); (72882, 72883); (72885, 72886); (73009, 73014);
   (73018, 73018); (73020, 73021); (73023, 73029); (73031, 73031);
   (73104, 73105); (73109, 73109); (73111, 73111); (73459, 73460);
   (78896, 78904); (92912, 92916); (92976, 92982); (92992, 92995);
   (94031, 94031); (94095, 94111); (94176, 94177); (94179, 94180);
   (110576, 110579); (110581, 110587); (110589, 110590); (113821, 113822);
   (113824, 113827); (118528, 118573); (118576, 118598); (119143, 119145);
   (119155, 119170); (119173, 119179); (119210, 119213); (119362, 119364);
   (121344, 121398); (121403, 121452); (121461, 121461); (121476, 121476);
   (121499, 121503); (121505, 121519); (122880, 122886); (122888, 122904);
   (122907, 122913); (122915, 122916); (122918, 122922); (123184, 123197);
   (123566, 123566); (123628, 123631); (125136, 125142); (125252, 125259);
   (127995, 127999); (917505, 917505); (917536, 917631); (917760, 917999)]%N.

Definition case_ignorable (c : cp) : bool :=
  in_ranges case_ignorable_ranges c.

(** The cased code points among those that are not case-ignorable, the
    only ones for which the rule for the capital sigma asks. *)
Definition cased_ranges : list (N * N) :=
  [(65, 90); (97, 122); (170, 170); (181, 181); (186, 186); (192, 214);
   (216, 246); (248, 442); (444, 447); (452, 659); (661, 687); (880, 883);
   (886, 887); (891, 893); (895, 895); (902, 902); (904, 906); (908, 908);
   (910, 929); (931, 1013); (1015, 1153); (1162, 1327); (1329, 1366);
   (1376, 1416); (4256, 4293); (4295, 4295); (4301, 4301); (4304, 4346);
   (4349, 4351); (5024, 5109); (5112, 5117); (7296, 7304); (7312, 7354);
   (7357, 7359); (7424, 7467); (7531, 7543); (7545, 7578); (7680, 7957);
   (7960, 7965); (7968, 8005); (8008, 8013); (8016, 8023); (8025, 8025);
   (8027, 8027); (8029, 8029); (8031, 8061); (8064, 8116); (8118, 8124);
   (8126, 8126); (8130, 8132); (8134, 8140); (8144, 8147); (8150, 8155);
   (8160, 8172); (8178, 8180); (8182, 8188); (8450, 8450); (8455, 8455);
   (8458, 8467); (8469, 8469); (8473, 8477); (8484, 8484); (8486, 8486);
   (8488, 8488); (8490, 8493); (8495, 8500); (8505, 8505); (8508, 8511);
   (8517, 8521); (8526, 8526); (8544, 8575); (8579, 8580); (9398, 9449);
   (11264, 11387); (11390, 11492); (11499, 11502); (11506, 11507);
   (11520, 11557); (11559, 11559); (11565, 11565); (42560, 42605);
   (42624, 42651); (42786, 42863); (42865, 42887); (42891, 42894);
   (42896, 42954); (42960, 42961); (42963, 42963); (42965, 42969);
   (42997, 42998); (43002, 43002); (43824, 43866); (43872, 43880);
   (43888, 43967); (64256, 64262); (64275, 64279); (65313, 65338);
   (65345, 65370); (66560, 66639); (66736, 66771); (66776, 66811);
   (66928, 66938); (66940, 66954); (66956, 66962); (66964, 66965);
   (66967, 66977); (66979, 66993); (66995, 67001); (67003, 67004);
   (68736, 68786); (68800, 68850); (71840, 71903); (93760, 93823);
   (119808, 119892); (119894, 119964); (119966, 119967); (119970, 119970);
   (119973, 119974); (119977, 119980); (119982, 119993); (119995, 119995);
   (119997, 120003); (120005, 120069); (120071, 120074); (120077, 120084);
   (120086, 120092); (120094, 120121); (120123, 120126); (120128, 120132);
   (120134, 120134); (120138, 120144); (120146, 120485); (120488, 120512);
   (120514, 120538); (120540, 120570); (120572, 120596); (120598, 120628);
   (120630, 120654); (120656, 120686); (120688, 120712); (120714, 120744);
   (120746, 120770); (120772, 120779); (122624, 122633); (122635, 122654);
   (125184, 125251); (127280, 127305); (127312, 127337); (127344, 127369)]%N.

Definition cased (c : cp) : bool := in_ranges cased_ranges c.

(** After a capital sigma: does no cased letter follow, the
    case-ignorable code points apart? *)
Fixpoint final_after (s : str) : bool :=
  match s with
  | [] => true
  | c :: t => if case_ignorable c then final_after t else negb (cased c)
  end.

(** [before] says that the nearest code point before [s] that is not
    case-ignorable is cased.  The capital sigma, U+03A3, becomes the final
    small sigma when a cased letter precedes it and none follows, and the
    small sigma otherwise. *)
Fixpoint lower_go (before : bool) (s : str) : str :=
  match s with
  | [] => []
  | c :: t =>
      (if (c =? 931)%N
       then [if before && final_after t then 962%N else 963%N]
       else lower_full c)
      ++ lower_go (if case_ignorable c then before else cased c) t
  end.

Definition lower (s : str) : str := lower_go false s.

(** The code points from [lo] to [hi], and those that [lower_ranges]
    names. *)
Fixpoint span_from (lo : N) (n : nat) : list cp :=
  match n with
  | O => []
  | S k => lo :: span_from (N.succ lo) k
  end.

Definition span (lo hi : N) : list cp := span_from lo (S (N.to_nat (hi - lo))).

Definition lower_points : list cp :=
  flat_map (fun r : N * N * N * N =>
              match r with (lo, hi, _, _) => span lo hi end)
           lower_ranges.

(** The code points of white space. *)
Definition space_points : list cp :=
  [9; 10; 11; 12; 13; 28; 29; 30; 31; 32; 133; 160; 5760; 8192; 8193; 8194;
   8195; 8196; 8197; 8198; 8199; 8200; 8201; 8202; 8232; 8233; 8239; 8287;
   12288]%N.

(** ** Slicing *)

Fixpoint lstrip (s : str) : str :=
  match s with
  | c :: t => if isspace c then lstrip t else s
  | [] => []
  end.

Definition rstrip (s : str) : str := rev (lstrip (rev s)).

Definition strip (s : str) : str := rstrip (lstrip s).

Fixpoint startswith (s w : str) : bool :=
  match w, s with
  | [], _ => true
  | x :: w', y :: s' => (x =? y)%N && startswith s' w'
  | _ :: _, [] => false
  end.

Definition endswith (s w : str) : bool := startswith (rev s) (rev w).

(** ** Tidy text *)

Definition head_space (s : str) : bool :=
  match s with c :: _ => isspace c | [] => false end.

Definition last_space (s : str) : bool := head_space (rev s).

(** Every white-space character is a single blank between two other
    characters. *)
Fixpoint spaced (s : str) : bool :=
  match s with
  | [] => true
  | c :: t =>
      (if isspace c
       then (c =? 32)%N && negb (head_space t)
            && match t with [] => false | _ :: _ => true end
       else true)
      && spaced t
  end.

(** No character of [s] is changed by lowercasing. *)
Definition lowered (s : str) : Prop :=
  Forall (fun c => lower_full c = [c]) s.

(** Lowercased, trimmed, with single blanks only. *)
Definition tidy (s : str) : Prop :=
  lowered s /\ spaced s = true /\ head_space s = false.

(** [os.path.basename]: what follows the last slash. *)
Fixpoint basename_go (acc s : str) : str :=
  match s with
  | [] => acc
  | c :: t => if (c =? 47)%N then basename_go [] t else basename_go (acc ++ [c]) t
  end.

Definition basename (s : str) : str := basename_go [] s.

End PyStr.

Export PyStr.

(* ===================================================================== *)
(** * Regular expressions                                                  *)
(* ===================================================================== *)

(** The fragment of Python's [re] the importer uses, with the semantics of
    its backtracking matcher: [match_at] lists the text left over after
    every way of matching at the current position, in the order in which
    the matcher tries them, so that the match Python reports is the head
    of the list. *)
Module Re.

Inductive regex : Type :=
| Lit (w : str)            (* literal text *)
| Opt (r : regex)          (* r?  *)
| Spaces                   (* \s* *)
| Spaces1                  (* \s+ *)
| Cat (r1 r2 : regex)      (* r1 r2 *)
| Alt (r1 r2 : regex)      (* r1|r2 *)
| Bol                      (* ^ *)
| Eol.                     (* $ *)

(** What is left after [\s*], the longest run first. *)
Fixpoint spaces_star (s : str) : list str :=
  match s with
  | c :: t => if isspace c then spaces_star t ++ [s] else [s]
  | [] => [[]]
  end.

(** [len0] is the length of the whole subject, by which [^] recognises the
    beginning; [$] matches at the end and before a final newline. *)
Fixpoint match_at (len0 : nat) (r : regex) (s : str) : list str :=
  match r with
  | Lit w => if startswith s w then [skipn (length w) s] else []
  | Opt r1 => match_at len0 r1 s ++ [s]
  | Spaces => spaces_star s
  | Spaces1 =>
      match s with
      | c :: t => if isspace c then spaces_star t else []
      | [] => []
      end
  | Cat r1 r2 => flat_map (match_at len0 r2) (match_at len0 r1 s)
  | Alt r1 r2 => match_at len0 r1 s ++ match_at len0 r2 s
  | Bol => if length s =? len0 then [s] else []
  | Eol =>
      match s with
      | [] => [s]
      | [c] => if (c =? 10)%N then [s] else []
      | _ => []
      end
  end.

(** [re.search]: is there a match at some position, scanning from the
    left. *)
Fixpoint search_from (len0 : nat) (r : regex) (s : str) : bool :=
  match match_at len0 r s with
  | _ :: _ => true
  | [] =>
      match s with
      | [] => false
      | _ :: t => search_from len0 r t
      end
  end.

Definition search (r : regex) (s : str) : bool := search_from (length s) r s.

(** [re.sub]: every non-overlapping match, leftmost first, is replaced by
    [repl].  [skip] counts the characters of the current match that are
    still to be passed over. *)
Fixpoint sub_go (len0 : nat) (r : regex) (repl : str) (skip : nat) (s : str)
  {struct s} : str :=
  match skip with
  | S k =>
      match s with
      | [] => []
      | _ :: t => sub_go len0 r repl k t
      end
  | O =>
      match match_at len0 r s with
      | rem :: _ =>
          match s with
          | [] => repl
          | c :: t =>
              match length s - length rem with
              | O => repl ++ c :: sub_go len0 r repl 0 t
              | S k => repl ++ sub_go len0 r repl k t
              end
          end
      | [] =>
          match s with
          | [] => []
          | c :: t => c :: sub_go len0 r repl 0 t
          end
      end
  end.

Definition sub (r : regex) (repl s : str) : str := sub_go (length s) r repl 0 s.

(** Alternation of literal words, [(w1|w2|...)]. *)
Fixpoint words (w : str) (rest : list str) : regex :=
  match rest with
  | [] => Lit w
  | w' :: rest' => Alt (Lit w) (words w' rest')
  end.

End Re.

(* ===================================================================== *)
(** * The catalogue store                                                  *)
(* ===================================================================== *)

(** The tables of [materials.db] as lists of rows in row order, with the
    columns the statements of [database_manager.py] name.  A nullable column
    is an [option]; integers are Python's; [float] stands for Python's
    floating-point numbers, which the importer only stores. *)
Module Catalog.

Section Tables.

Variable float : Type.

Record Material : Type := mkMaterial {
  m_id : str;
  name_canonical : str;
  m_unit : str;
  work_rate : float;
  category : option str;
  active : Z;
  default_vendor_id : option Z }.

Record Alias : Type := mkAlias {
  a_material_id : str;
  alias_name : str;
  a_customer_id : option Z;
  a_source : option str }.

Record Customer : Type := mkCustomer {
  c_id : Z;
  c_name : str;
  preferred_price_source_type : option str }.

Record PriceSource : Type := mkPriceSource {
  ps_id : Z;
  ps_type : option str;
  ps_name : str;
  ps_customer_id : option Z;
  ps_vendor_id : option Z;
  doc_date : option str;
  meta : option str }.

Record MaterialPrice : Type := mkMaterialPrice {
  mp_id : Z;
  mp_material_id : str;
  price : option float;
  currency : str;
  price_date : str;
  source_id : Z;
  is_active : Z }.

Record ImportSession : Type := mkImportSession {
  s_id : Z;
  source_file : str;
  s_customer_id : option Z;
  s_vendor_id : option Z;
  status : str;
  processed_rows : option Z;
  error_rows : option Z }.

Record UnmatchedImport : Type := mkUnmatchedImport {
  u_id : Z;
  import_session_id : Z;
  raw_name : str;
  raw_price : option float;
  raw_unit : option str;
  raw_article : option str;
  suggested_material_id : option str;
  resolution_status : str }.

Record Store : Type := mkStore {
  materials : list Material;
  material_aliases : list Alias;
  customers : list Customer;
  price_sources : list PriceSource;
  material_prices : list MaterialPrice;
  import_sessions : list ImportSession;
  unmatched_imports : list UnmatchedImport }.

(** What the resolver reads of the store. *)
Definition catalogue (st : Store) : list Material * list Alias :=
  (materials st, material_aliases st).

(** A row offered to an [INSERT]. *)
Inductive Insert : Type :=
| InsSession (r : ImportSession)
| InsSource (r : PriceSource)
| InsPrice (r : MaterialPrice)
| InsUnmatched (r : UnmatchedImport).

(** The order in which the join of [find_material_by_alias], which has no
    [ORDER BY], yields its rows: the query planner scans one table and
    probes the other. *)
Inductive JoinPlan : Type := AliasesOuter | MaterialsOuter.

(** What [database_schema.sql], the script that [initialize_database]
    runs, decides: which rows the constraints of a table let in, the column
    defaults of a new import session and of a new unmatched row, and through
    its indexes the plan of the alias join.  The Python code depends on it
    only through these. *)
Record Schema : Type := mkSchema {
  accepts : Store -> Insert -> bool;
  default_session_status : str;
  default_session_rows : option Z;
  default_resolution_status : str;
  alias_join : JoinPlan }.

(** Truth value of an optional integer: [None] and [0] are false. *)
Definition ztruthy (o : option Z) : bool :=
  match o with Some z => negb (z =? 0)%Z | None => false end.

Definition oZ_eqb (o : option Z) (z : Z) : bool :=
  match o with Some y => (y =? z)%Z | None => false end.

Definition ostr_eqb (o : option str) (s : str) : bool :=
  match o with Some y => PyStr.eqb y s | None => false end.

Definition is_null (A : Type) (o : option A) : bool :=
  match o with Some _ => false | None => true end.

(** [cursor.lastrowid] of an insert: one more than the largest id in use. *)
Definition next_id (ids : list Z) : Z := (fold_right Z.max 0 ids + 1)%Z.

(** ** Material queries *)

(** [SELECT * FROM materials WHERE name_canonical = ? AND unit = ? AND
    active = 1], [fetchone]. *)
Definition get_material_by_name (st : Store) (name unit_ : str)
  : option Material :=
  find (fun m => PyStr.eqb (name_canonical m) name
                 && PyStr.eqb (m_unit m) unit_
                 && (active m =? 1)%Z)
       (materials st).

(** What the exact lookup asks of a material. *)
Definition exact_match (name unit_ : str) (m : Material) : Prop :=
  name_canonical m = name /\ m_unit m = unit_ /\ active m = 1%Z.

(** The [WHERE] clause on the alias side: with a customer the alias is
    that customer's or global, without one any alias will do. *)
Definition alias_visible (alias : str) (customer_id : option Z) (a : Alias)
  : bool :=
  if ztruthy customer_id then
    PyStr.eqb (alias_name a) alias
    && (match customer_id with
        | Some c => oZ_eqb (a_customer_id a) c
        | None => false
        end
        || is_null (a_customer_id a))
  else PyStr.eqb (alias_name a) alias.

Definition joins (a : Alias) (m : Material) : bool :=
  PyStr.eqb (m_id m) (a_material_id a) && (active m =? 1)%Z.

(** [SELECT m.*, ma.alias_name FROM materials m JOIN material_aliases ma
    ON m.id = ma.material_id WHERE ...], [fetchall]: the materials with
    the alias text that selected them. *)
Definition find_material_by_alias (sch : Schema) (st : Store) (alias : str)
  (customer_id : option Z) : list (Material * str) :=
  match alias_join sch with
  | AliasesOuter =>
      flat_map (fun a =>
                  map (fun m => (m, alias_name a))
                      (filter (joins a) (materials st)))
               (filter (alias_visible alias customer_id) (material_aliases st))
  | MaterialsOuter =>
      flat_map (fun m =>
                  map (fun a => (m, alias_name a))
                      (filter (fun a => alias_visible alias customer_id a
                                        && joins a m)
                              (material_aliases st)))
               (materials st)
  end.

(** ** Price selection *)

(** A row of the price query: [mp.*], [ps.type] and [ps.customer_id as
    source_customer_id]. *)
Record PriceRow : Type := mkPriceRow {
  pr_price : MaterialPrice;
  pr_type : option str;
  source_customer_id : option Z }.

(** The [CASE ps.type ... END] of the [ORDER BY]; a [NULL] on either side
    of a [WHEN] comparison does not match. *)
Definition type_rank (preferred_type : option str) (ty : option str) : Z :=
  match ty with
  | None => 5
  | Some t =>
      if ostr_eqb preferred_type t then 1
      else if PyStr.eqb t (u "invoice") then 2
      else if PyStr.eqb t (u "website") then 3
      else if PyStr.eqb t (u "manual") then 4
      else 5
  end%Z.

(** [r1] does not come after [r2] under [ORDER BY rank, price_date DESC]. *)
Definition price_order (preferred_type : option str) (r1 r2 : PriceRow)
  : bool :=
  let k1 := type_rank preferred_type (pr_type r1) in
  let k2 := type_rank preferred_type (pr_type r2) in
  (k1 <? k2)%Z
  || (k1 =? k2)%Z && PyStr.leb (price_date (pr_price r2)) (price_date (pr_price r1)).

Section OrderBy.
Variable A : Type.
Variable le : A -> A -> bool.

Fixpoint insert_row (x : A) (l : list A) : list A :=
  match l with
  | [] => [x]
  | y :: t => if le x y then x :: l else y :: insert_row x t
  end.

(** [ORDER BY] as a stable sort of the rows in the order they are
    produced. *)
Definition order_by (l : list A) : list A := fold_right insert_row [] l.
End OrderBy.

(** [SELECT preferred_price_source_type FROM customers WHERE id = ?]. *)
Definition preferred_type_of (st : Store) (customer_id : option Z)
  : option str :=
  if ztruthy customer_id then
    match customer_id with
    | Some c =>
        match find (fun k => (c_id k =? c)%Z) (customers st) with
        | Some k => preferred_price_source_type k
        | None => Some (u "invoice")
        end
    | None => Some (u "invoice")
    end
  else Some (u "invoice").

(** The rows of [material_prices mp JOIN price_sources ps ON mp.source_id
    = ps.id] that pass the [WHERE] clause. *)
Definition price_candidates (st : Store) (material_id calculation_date : str)
  : list PriceRow :=
  flat_map (fun mp =>
              if PyStr.eqb (mp_material_id mp) material_id
                 && PyStr.leb (price_date mp) calculation_date
                 && (is_active mp =? 1)%Z
              then map (fun ps => mkPriceRow mp (ps_type ps) (ps_customer_id ps))
                       (filter (fun ps => (source_id mp =? ps_id ps)%Z)
                               (price_sources st))
              else [])
           (material_prices st).

(** The date the selection is made for: [today], which is
    [date.today().isoformat()], when none is given. *)
Definition as_of (today : str) (calculation_date : option str) : str :=
  match calculation_date with
  | Some d => if truthy d then d else today
  | None => today
  end.

Definition get_current_price (today : str) (st : Store) (material_id : str)
  (calculation_date : option str) (customer_id : option Z)
  : option PriceRow :=
  let calculation_date := as_of today calculation_date in
  let preferred_type := preferred_type_of st customer_id in
  hd_error (order_by (price_order preferred_type)
                     (price_candidates st material_id calculation_date)).

End Tables.

End Catalog.

(* ===================================================================== *)
(** * Exceptions and state                                                 *)
(* ===================================================================== *)

(** A computation over a state [S] that returns or raises; the state it
    leaves behind is kept in both cases, as Python keeps the assignments
    and the committed inserts made before an exception. *)
Module Py.

Inductive exn : Type :=
| FileNotFoundError (path : str)
| IntegrityError          (* sqlite3: the schema rejected a row *)
| ReadError               (* pandas could not read the file *)
| AttributeError          (* [.lower()] on a value that is no text *)
| OverflowError.          (* [float] on an integer it cannot hold *)

Inductive result (A : Type) : Type :=
| Ok (a : A)
| Raise (e : exn).

Arguments Raise {A} e.

Definition M (S A : Type) : Type := S -> result A * S.

Definition ret {S A : Type} (a : A) : M S A := fun s => (Ok a, s).

Definition raise {S A : Type} (e : exn) : M S A := fun s => (Raise e, s).

Definition bind {S A B : Type} (c : M S A) (k : A -> M S B) : M S B :=
  fun s =>
    match c s with
    | (Ok a, s') => k a s'
    | (Raise e, s') => (Raise e, s')
    end.

(** [try: c except Exception as e: h e]. *)
Definition try_except {S A : Type} (c : M S A) (h : exn -> M S A) : M S A :=
  fun s =>
    match c s with
    | (Ok a, s') => (Ok a, s')
    | (Raise e, s') => h e s'
    end.

Definition gets {S A : Type} (f : S -> A) : M S A := fun s => (Ok (f s), s).

Definition modify {S : Type} (f : S -> S) : M S unit := fun s => (Ok tt, f s).

(** Run a computation on the first component of a pair of states. *)
Definition on_fst {S T A : Type} (c : M S A) : M (S * T) A :=
  fun st =>
    match c (fst st) with
    | (r, s') => (r, (s', snd st))
    end.

Definition on_snd {S T A : Type} (c : M T A) : M (S * T) A :=
  fun st =>
    match c (snd st) with
    | (r, t') => (r, (fst st, t'))
    end.

(** [c] leaves what [view] shows of the state as it was, whether it
    returns or raises. *)
Definition keeps {S A X : Type} (view : S -> X) (c : M S A) : Prop :=
  forall s, view (snd (c s)) = view s.

Module Notations.
  Notation "x <- c ;; k" := (bind c (fun x => k))
    (at level 61, c at next level, right associativity).
  Notation "c ;;; k" := (bind c (fun _ => k))
    (at level 61, right associativity).
End Notations.

End Py.

(* ===================================================================== *)
(** * Writes to the store                                                  *)
(* ===================================================================== *)

(** Every method opens its own connection and commits when its block ends:
    an insert that the schema lets in is in the store at once, one that it
    rejects raises and leaves the store as it was. *)
Module Db.
Import Catalog Py.

Section Writes.

Variable float : Type.
Variable sch : Schema float.

Definition set_import_sessions (st : Store float) (l : list ImportSession) : Store float :=
  mkStore (materials st) (material_aliases st) (customers st)
          (price_sources st) (material_prices st) l (unmatched_imports st).

Definition set_price_sources (st : Store float) (l : list PriceSource) : Store float :=
  mkStore (materials st) (material_aliases st) (customers st)
          l (material_prices st) (import_sessions st) (unmatched_imports st).

Definition set_material_prices (st : Store float) (l : list (MaterialPrice float))
  : Store float :=
  mkStore (materials st) (material_aliases st) (customers st)
          (price_sources st) l (import_sessions st) (unmatched_imports st).

Definition set_unmatched_imports (st : Store float)
  (l : list (UnmatchedImport float)) : Store float :=
  mkStore (materials st) (material_aliases st) (customers st)
          (price_sources st) (material_prices st) (import_sessions st) l.

(** An [INSERT] followed by [cursor.lastrowid]. *)
Definition insert (row : Insert float) (id : Z) (put : Store float -> Store float)
  : M (Store float) Z :=
  fun st =>
    if accepts sch st row then (Ok id, put st) else (Raise IntegrityError, st).

Definition create_import_session (source_file : str)
  (customer_id vendor_id : option Z) : M (Store float) Z :=
  fun st =>
    let id := next_id (map s_id (import_sessions st)) in
    let row := mkImportSession id source_file customer_id vendor_id
                 (default_session_status sch) (default_session_rows sch)
                 (default_session_rows sch) in
    insert (InsSession float row) id
           (fun st => set_import_sessions st (import_sessions st ++ [row])) st.

(** [UPDATE import_sessions SET ... WHERE id = ?]: the counters are set
    only when they are given. *)
Definition update_import_session (session_id : Z) (status_ : str)
  (processed_rows_ error_rows_ : option Z) : M (Store float) unit :=
  modify (fun st =>
    set_import_sessions st
      (map (fun s =>
              if (s_id s =? session_id)%Z then
                mkImportSession (s_id s) (source_file s) (s_customer_id s)
                  (s_vendor_id s) status_
                  (match processed_rows_ with
                   | Some n => Some n
                   | None => processed_rows s
                   end)
                  (match error_rows_ with
                   | Some n => Some n
                   | None => error_rows s
                   end)
              else s)
           (import_sessions st))).

Definition add_price_source (type_ : str) (name : str)
  (customer_id vendor_id : option Z) (doc_date_ meta_ : option str)
  : M (Store float) Z :=
  fun st =>
    let id := next_id (map ps_id (price_sources st)) in
    let row := mkPriceSource id (Some type_) name customer_id vendor_id
                 doc_date_ meta_ in
    insert (InsSource float row) id
           (fun st => set_price_sources st (price_sources st ++ [row])) st.

(** The new price is active; the currency defaults to roubles. *)
Definition add_material_price (material_id : str) (price_ : option float)
  (price_date_ : str) (source_id_ : Z) : M (Store float) Z :=
  fun st =>
    let id := next_id (map (@mp_id float) (material_prices st)) in
    let row := mkMaterialPrice id material_id price_ (u "RUB") price_date_
                 source_id_ 1 in
    insert (InsPrice row) id
           (fun st => set_material_prices st (material_prices st ++ [row])) st.

Definition add_unmatched_import (session_id : Z) (raw_name_ : str)
  (raw_price_ : option float) (raw_unit_ raw_article_ : option str)
  : M (Store float) Z :=
  fun st =>
    let id := next_id (map (@u_id float) (unmatched_imports st)) in
    let row := mkUnmatchedImport id session_id raw_name_ raw_price_
                 raw_unit_ raw_article_ None
                 (default_resolution_status sch) in
    insert (InsUnmatched row) id
           (fun st => set_unmatched_imports st (unmatched_imports st ++ [row]))
           st.

End Writes.

End Db.

(* ===================================================================== *)
(** * The price importer                                                   *)
(* ===================================================================== *)

Module Importer.
Import Catalog Py Py.Notations Db Re.

(** ** Name normalisation *)

(** [^(товар|материал|продукт)\s*] *)
Definition prefix_re : regex :=
  Cat Bol (Cat (words (u "товар") [u "материал"; u "продукт"]) Spaces).

(** [\s*(упаковка|штука|кг|м|м²|м³)$] *)
Definition suffix_re : regex :=
  Cat Spaces
      (Cat (words (u "упаковка") [u "штука"; u "кг"; u "м"; u "м²"; u "м³"])
           Eol).

Definition _clean_material_name (name : str) : str :=
  if negb (truthy name) then []
  else
    let cleaned := sub Spaces1 (u " ") (lower (strip name)) in
    let cleaned := sub prefix_re [] cleaned in
    let cleaned := sub suffix_re [] cleaned in
    cleaned.

(** ** Column detection *)

Definition name_patterns : list regex :=
  [Lit (u "наименован"); Lit (u "материал"); Lit (u "товар");
   Lit (u "продукт"); Lit (u "name"); Lit (u "material"); Lit (u "product");
   Lit (u "item")].

Definition price_patterns : list regex :=
  [Lit (u "цена"); Lit (u "стоимость"); Lit (u "price"); Lit (u "cost")].

(** The first pattern is [ед\.?\s*изм]. *)
Definition unit_patterns : list regex :=
  [Cat (Lit (u "ед")) (Cat (Opt (Lit (u "."))) (Cat Spaces (Lit (u "изм"))));
   Lit (u "единица"); Lit (u "unit")].

Definition article_patterns : list regex :=
  [Lit (u "артикул"); Lit (u "код"); Lit (u "article"); Lit (u "code");
   Lit (u "sku")].

(** The dictionary [mapping], whose keys can only be the four logical
    fields: an absent key is [None]. *)
Record ColumnMapping : Type := mkColumnMapping {
  col_name : option str;
  col_price : option str;
  col_unit : option str;
  col_article : option str }.

Definition any_search (patterns : list regex) (s : str) : bool :=
  existsb (fun pattern => search pattern s) patterns.

(** The body of the loop over the column headers. *)
Definition detect_column (mapping : ColumnMapping) (col : str)
  : ColumnMapping :=
  let col_lower := strip (lower col) in
  if any_search name_patterns col_lower then
    mkColumnMapping (Some col) (col_price mapping) (col_unit mapping)
                    (col_article mapping)
  else if any_search price_patterns col_lower then
    mkColumnMapping (col_name mapping) (Some col) (col_unit mapping)
                    (col_article mapping)
  else if any_search unit_patterns col_lower then
    mkColumnMapping (col_name mapping) (col_price mapping) (Some col)
                    (col_article mapping)
  else if any_search article_patterns col_lower then
    mkColumnMapping (col_name mapping) (col_price mapping) (col_unit mapping)
                    (Some col)
  else mapping.

(** A header label as pandas hands it over: a text, or a value of another
    type, such as the number or the date that [read_excel] keeps for a
    header cell that holds one. *)
Inductive label : Type :=
| LText (s : str)
| LOther.

(** One turn of the loop over the headers: [col.lower()] raises
    [AttributeError] on a label that is no text. *)
Definition detect_label (mapping : result ColumnMapping) (col : label)
  : result ColumnMapping :=
  match mapping with
  | Ok m =>
      match col with
      | LText s => Ok (detect_column m s)
      | LOther => Raise AttributeError
      end
  | Raise e => Raise e
  end.

Definition _detect_columns (columns : list label) : result ColumnMapping :=
  fold_left detect_label columns (Ok (mkColumnMapping None None None None)).

(** *** Column detection as the specification words it *)

(** The logical fields in their priority order. *)
Inductive Field : Type := FName | FPrice | FUnit | FArticle.

Definition Field_eqb (f g : Field) : bool :=
  match f, g with
  | FName, FName | FPrice, FPrice | FUnit, FUnit | FArticle, FArticle => true
  | _, _ => false
  end.

Definition patterns_of (f : Field) : list regex :=
  match f with
  | FName => name_patterns
  | FPrice => price_patterns
  | FUnit => unit_patterns
  | FArticle => article_patterns
  end.

(** The first logical field, in the order name, price, unit, article, whose
    pattern set matches the lowercased, trimmed header. *)
Definition field_of (col : str) : option Field :=
  find (fun f => any_search (patterns_of f) (strip (lower col)))
       [FName; FPrice; FUnit; FArticle].

Definition detects (f : Field) (col : str) : bool :=
  match field_of col with
  | Some g => Field_eqb g f
  | None => false
  end.

Definition column_of (mapping : ColumnMapping) (f : Field) : option str :=
  match f with
  | FName => col_name mapping
  | FPrice => col_price mapping
  | FUnit => col_unit mapping
  | FArticle => col_article mapping
  end.

Section Run.

Variable float : Type.

(** ** Data frames *)

(** A cell as pandas hands it over: missing ([NaN], [None]), text, or a
    number. *)
Inductive cell : Type :=
| CNull
| CText (s : str)
| CNum (x : float).

(** The header labels, which pandas keeps distinct, and the rows in file
    order, each with one cell per label. *)
Record DataFrame : Type := mkDataFrame {
  columns : list label;
  rows : list (list cell) }.

(** [row[label]] for a label that is a text. *)
Fixpoint row_get (cols : list label) (row : list cell) (label : str) : cell :=
  match cols, row with
  | LText c :: cs, v :: vs =>
      if PyStr.eqb c label then v else row_get cs vs label
  | LOther :: cs, _ :: vs => row_get cs vs label
  | _, _ => CNull
  end.

(** What the importer takes from outside the program: the clock, the file
    system, the readers of pandas, and the conversions [float(text)]
    ([None] where Python raises [ValueError]), [float(number)] for the
    number of a cell ([None] where Python raises [OverflowError], for an
    integer beyond the range of floating point) and [str(number)]. *)
Record World : Type := mkWorld {
  today : str;
  path_exists : str -> bool;
  read_csv : str -> result DataFrame;
  read_excel : str -> result DataFrame;
  float_of_str : str -> option float;
  float_of_number : float -> option float;
  str_of_float : float -> str }.

Variable w : World.
Variable sch : Schema float.

(** ** Extraction of a row *)

Record MaterialData : Type := mkMaterialData {
  md_name : option str;
  md_price : option float;
  md_unit : option str;
  md_article : option str }.

Definition safe_get (cols : list label) (row : list cell) (column : option str)
  : option str :=
  match column with
  | Some label =>
      match row_get cols row label with
      | CNull => None
      | CText s => Some (strip s)
      | CNum x => Some (strip (str_of_float w x))
      end
  | None => None
  end.

(** A text that [float] cannot read gives [None], as the [except] clause
    catches [ValueError] and [TypeError]; a number that [float] cannot
    hold raises [OverflowError], which the clause does not catch. *)
Definition safe_get_numeric (cols : list label) (row : list cell)
  (column : option str) : result (option float) :=
  match column with
  | Some label =>
      match row_get cols row label with
      | CNull => Ok None
      | CText s => Ok (float_of_str w s)
      | CNum x =>
          match float_of_number w x with
          | Some y => Ok (Some y)
          | None => Raise OverflowError
          end
      end
  | None => Ok None
  end.

(** The dictionary is built key by key; only the price can raise. *)
Definition _extract_material_data (cols : list label) (row : list cell)
  (column_mapping : ColumnMapping) : result MaterialData :=
  let name := safe_get cols row (col_name column_mapping) in
  match safe_get_numeric cols row (col_price column_mapping) with
  | Ok price_ =>
      Ok (mkMaterialData name price_
            (safe_get cols row (col_unit column_mapping))
            (safe_get cols row (col_article column_mapping)))
  | Raise e => Raise e
  end.

(** ** The resolver *)

(** A matched material: the row of [materials], with the [alias_name]
    column when it comes from the alias join. *)
Definition Matched : Type := (Material float * option str)%type.

Definition _match_material (st : Store float) (name unit_ article : option str)
  (customer_id : option Z) : option Matched :=
  match name with
  | None => None
  | Some name =>
      if negb (truthy name) then None
      else
        let clean_name := _clean_material_name name in
        let exact :=
          match unit_ with
          | Some un =>
              if truthy un then get_material_by_name st clean_name un
              else None
          | None => None
          end in
        match exact with
        | Some material => Some (material, None)
        | None =>
            match find_material_by_alias sch st clean_name customer_id with
            | (m, a) :: _ => Some (m, Some a)
            | [] => None
            end
        end
  end.

(** The body after the lookup is [pass]: nothing is written. *)
Definition _add_alias_if_not_exists (material_id alias : str)
  (customer_id : option Z) (source : str) : M (Store float) unit :=
  existing <- gets (fun st => find_material_by_alias sch st alias customer_id) ;;
  match existing with
  | [] => ret tt
  | _ :: _ => ret tt
  end.

(** ** The loop over the rows *)

(** The local variables of [_process_dataframe]. *)
Record Tally : Type := mkTally {
  processed : Z;
  errors : Z;
  unmatched : list MaterialData }.

Definition incr_processed : M Tally unit :=
  modify (fun t => mkTally (processed t + 1) (errors t) (unmatched t)).

Definition incr_errors : M Tally unit :=
  modify (fun t => mkTally (processed t) (errors t + 1) (unmatched t)).

Definition append_unmatched (md : MaterialData) : M Tally unit :=
  modify (fun t => mkTally (processed t) (errors t) (unmatched t ++ [md])).

(** The tally after [errors += 1] alone. *)
Definition error_counted (t : Tally) : Tally :=
  mkTally (processed t) (errors t + 1) (unmatched t).

(** The body of the [try] for one row. *)
Definition row_body (cols : list label) (column_mapping : ColumnMapping)
  (source_id session_id : Z) (customer_id : option Z) (row : list cell)
  : M (Store float * Tally) unit :=
  match _extract_material_data cols row column_mapping with
  | Raise e => raise e
  | Ok material_data =>
      match md_name material_data with
      | None => on_snd incr_errors
      | Some name =>
          if negb (truthy name) then on_snd incr_errors
          else
            matched_material <-
              on_fst (gets (fun st =>
                              _match_material st (md_name material_data)
                                (md_unit material_data)
                                (md_article material_data) customer_id)) ;;
            match matched_material with
            | Some (m, _) =>
                on_fst (add_material_price sch (m_id m)
                          (md_price material_data) (today w) source_id) ;;;
                on_snd incr_processed ;;;
                if negb (PyStr.eqb name (name_canonical m)) then
                  on_fst (_add_alias_if_not_exists (m_id m) name customer_id
                                                    (u "import"))
                else ret tt
            | None =>
                on_fst (add_unmatched_import sch session_id name
                          (md_price material_data) (md_unit material_data)
                          (md_article material_data)) ;;;
                on_snd (append_unmatched material_data) ;;;
                on_snd incr_errors
            end
      end
  end.

(** One turn of the loop, [try: ... except Exception: errors += 1]; the
    message the handler prints is left out. *)
Definition row_step (cols : list label) (column_mapping : ColumnMapping)
  (source_id session_id : Z) (customer_id : option Z) (row : list cell)
  : M (Store float * Tally) unit :=
  try_except
    (row_body cols column_mapping source_id session_id customer_id row)
    (fun _ => on_snd incr_errors).

(** [for idx, row in df.iterrows(): ...] *)
Fixpoint rows_loop (cols : list label) (column_mapping : ColumnMapping)
  (source_id session_id : Z) (customer_id : option Z)
  (rs : list (list cell)) : M (Store float * Tally) unit :=
  match rs with
  | [] => ret tt
  | row :: rest =>
      row_step cols column_mapping source_id session_id customer_id row ;;;
      rows_loop cols column_mapping source_id session_id customer_id rest
  end.

(** The columns are detected before the loop and outside its [try]. *)
Definition _process_dataframe (df : DataFrame) (source_id session_id : Z)
  (customer_id : option Z) : M (Store float) Tally :=
  fun st =>
    match _detect_columns (columns df) with
    | Raise e => (Raise e, st)
    | Ok column_mapping =>
        match rows_loop (columns df) column_mapping source_id session_id
                        customer_id (rows df) (st, mkTally 0 0 []) with
        | (Ok _, (st', t)) => (Ok t, st')
        | (Raise e, (st', _)) => (Raise e, st')
        end
    end.

(** From one state of the loop to a later one: the catalogue is the same,
    the unmatched lines and their records are kept and added to, and the
    error count does not go down. *)
Definition grows (s s' : Store float * Tally) : Prop :=
  catalogue (fst s') = catalogue (fst s)
  /\ (exists l, unmatched_imports (fst s') = unmatched_imports (fst s) ++ l)
  /\ (exists l, unmatched (snd s') = unmatched (snd s) ++ l)
  /\ (errors (snd s) <= errors (snd s'))%Z.

(** What a row of the frame holds under the detected columns. *)
Definition row_data (df : DataFrame) (row : list cell) : result MaterialData :=
  match _detect_columns (columns df) with
  | Ok column_mapping =>
      _extract_material_data (columns df) row column_mapping
  | Raise e => Raise e
  end.

(** The row that an unmatched line leaves in [unmatched_imports]. *)
Definition unmatched_row (st : Store float) (session_id : Z) (name : str)
  (md : MaterialData) : UnmatchedImport float :=
  mkUnmatchedImport (next_id (map (@u_id float) (unmatched_imports st)))
    session_id name (md_price md) (md_unit md) (md_article md) None
    (default_resolution_status sch).

(** The price that a matched line leaves in [material_prices]. *)
Definition imported_price (st : Store float) (source_id : Z)
  (m : Material float) (md : MaterialData) : MaterialPrice float :=
  mkMaterialPrice (next_id (map (@mp_id float) (material_prices st)))
    (m_id m) (md_price md) (u "RUB") (today w) source_id 1.


(** The ways in which a turn of the loop ends: always by returning, with
    the line counted once. *)
Inductive turn (cols : list label) (column_mapping : ColumnMapping)
  (source_id session_id : Z) (customer_id : option Z) (row : list cell)
  (st : Store float) (t : Tally) : Store float * Tally -> Prop :=
| turn_error :
    turn cols column_mapping source_id session_id customer_id row st t
      (st, error_counted t)
| turn_priced (md : MaterialData) (name : str) (m : Material float)
    (a : option str) :
    _extract_material_data cols row column_mapping = Ok md ->
    md_name md = Some name -> truthy name = true ->
    _match_material st (md_name md) (md_unit md) (md_article md)
      customer_id = Some (m, a) ->
    accepts sch st (InsPrice (imported_price st source_id m md)) = true ->
    turn cols column_mapping source_id session_id customer_id row st t
      (set_material_prices st
         (material_prices st ++ [imported_price st source_id m md]),
       mkTally (processed t + 1) (errors t) (unmatched t))
| turn_unmatched (md : MaterialData) (name : str) :
    _extract_material_data cols row column_mapping = Ok md ->
    md_name md = Some name -> truthy name = true ->
    _match_material st (md_name md) (md_unit md) (md_article md)
      customer_id = None ->
    accepts sch st (InsUnmatched (unmatched_row st session_id name md))
    = true ->
    turn cols column_mapping source_id session_id customer_id row st t
      (set_unmatched_imports st
         (unmatched_imports st ++ [unmatched_row st session_id name md]),
       mkTally (processed t) (errors t + 1) (unmatched t ++ [md])).

(** ** The entry point *)

Record ImportResult : Type := mkImportResult {
  r_session_id : Z;
  total_rows : Z;
  r_processed : Z;
  r_errors : Z;
  r_unmatched : list MaterialData;
  price_source_id : Z }.

Definition import_from_file (file_path : str) (customer_id vendor_id : option Z)
  (doc_date_ : option str) : M (Store float) ImportResult :=
  if negb (path_exists w file_path) then raise (FileNotFoundError file_path)
  else
    session_id <- create_import_session sch file_path customer_id vendor_id ;;
    try_except
      (df <- (fun st =>
                (if endswith file_path (u ".csv") then read_csv w file_path
                 else read_excel w file_path, st)) ;;
       let source_name :=
         u "Import from " ++ basename file_path ++
         (match doc_date_ with
          | Some d => if truthy d then u " (" ++ d ++ u ")" else []
          | None => []
          end) in
       source_id <-
         add_price_source sch (u "invoice") source_name customer_id vendor_id
           (Some (match doc_date_ with
                  | Some d => if truthy d then d else today w
                  | None => today w
                  end))
           None ;;
       results <- _process_dataframe df source_id session_id customer_id ;;
       update_import_session session_id (u "completed")
         (Some (processed results)) (Some (errors results)) ;;;
       ret (mkImportResult session_id (Z.of_nat (length (rows df)))
              (processed results) (errors results) (unmatched results)
              source_id))
      (fun e =>
         update_import_session session_id (u "failed") None None ;;;
         raise e).

End Run.

End Importer.

(* ===================================================================== *)
(** * The rest of the store interface                                      *)
(* ===================================================================== *)

(** The other methods of [DatabaseManager] that the catalogue tools call,
    and the report of [PriceImporter.get_import_results]. *)
Module Registry.
Import Catalog Py Py.Notations Db.

Section Entities.

Variable float : Type.

(** What the schema script decides for the tables of customers and
    materials: the rows an insert lets in, and the default of the column
    [active], which [add_material] does not set. *)
Record EntitySchema : Type := mkEntitySchema {
  accepts_customer : Store float -> Customer -> bool;
  accepts_material : Store float -> Material float -> bool;
  default_active : Z }.

Variable es : EntitySchema.
Variable sch : Schema float.

Definition set_customers (st : Store float) (l : list Customer) : Store float :=
  mkStore (materials st) (material_aliases st) l (price_sources st)
          (material_prices st) (import_sessions st) (unmatched_imports st).

Definition set_materials (st : Store float) (l : list (Material float))
  : Store float :=
  mkStore l (material_aliases st) (customers st) (price_sources st)
          (material_prices st) (import_sessions st) (unmatched_imports st).

(** [INSERT INTO customers (name, preferred_price_source_type)], returning
    [cursor.lastrowid]. *)
Definition add_customer (name preferred_price_source_type_ : str)
  : M (Store float) Z :=
  fun st =>
    let id := next_id (map c_id (customers st)) in
    let row := mkCustomer id name (Some preferred_price_source_type_) in
    if accepts_customer es st row
    then (Ok id, set_customers st (customers st ++ [row]))
    else (Raise IntegrityError, st).

(** [material_id] is the [str(uuid.uuid4())] drawn for the new material,
    which is returned. *)
Definition add_material (material_id name unit_ : str) (work_rate_ : float)
  (category_ : option str) (default_vendor_id_ : option Z)
  : M (Store float) str :=
  fun st =>
    let row := mkMaterial material_id name unit_ work_rate_ category_
                 (default_active es) default_vendor_id_ in
    if accepts_material es st row
    then (Ok material_id, set_materials st (materials st ++ [row]))
    else (Raise IntegrityError, st).




(** [SELECT * FROM unmatched_imports WHERE import_session_id = ? AND
    resolution_status = 'pending' ORDER BY created_at]; the rows of the
    table are in the order of their creation. *)
Definition get_unmatched_imports (st : Store float) (session_id : Z)
  : list (UnmatchedImport float) :=
  filter (fun r => (import_session_id r =? session_id)%Z
                   && PyStr.eqb (resolution_status r) (u "pending"))
         (unmatched_imports st).

(** The report of [PriceImporter.get_import_results]. *)
Record ImportReport : Type := mkImportReport {
  rep_session_id : Z;
  unmatched_count : Z;
  unmatched_items : list (UnmatchedImport float) }.

Definition get_import_results (st : Store float) (session_id : Z)
  : ImportReport :=
  let unmatched := get_unmatched_imports st session_id in
  mkImportReport session_id (Z.of_nat (length unmatched)) unmatched.

End Entities.

End Registry.

(* ===================================================================== *)
(** * What a batch leaves in the store                                     *)
(* ===================================================================== *)

Module Bookkeeping.
Import Catalog Py Db PyStr Importer.

Section Batch.

Variable float : Type.
Variable w : World float.
Variable sch : Schema float.

(** A price as a matched line records it: against the source of the
    batch, active, dated today, in roubles, for an active material of the
    catalogue. *)
Definition batch_price (ms : list (Material float)) (src : Z)
  (p : MaterialPrice float) : Prop :=
  source_id p = src /\ is_active p = 1%Z /\ price_date p = today w
  /\ currency p = u "RUB"
  /\ exists m, In m ms /\ active m = 1%Z /\ m_id m = mp_material_id p.

(** The record [r] is the one filed for the unmatched line [md]. *)
Definition files (session : Z) (r : UnmatchedImport float)
  (md : MaterialData float) : Prop :=
  import_session_id r = session
  /\ md_name md = Some (raw_name r)
  /\ raw_price r = md_price md
  /\ raw_unit r = md_unit md
  /\ raw_article r = md_article md
  /\ suggested_material_id r = None
  /\ resolution_status r = default_resolution_status sch.

(** From a state of the loop to a later one: prices and unmatched records
    are only appended, one price for each line counted as processed and
    one record for each line put on the unmatched list, which are all
    counted as errors; the rest of the store is the same. *)
Definition ledger (src session : Z) (s s' : Store float * Tally float)
  : Prop :=
  exists lp lu lm,
    material_prices (fst s') = material_prices (fst s) ++ lp
    /\ Forall (batch_price (materials (fst s)) src) lp
    /\ processed (snd s') = (processed (snd s) + Z.of_nat (length lp))%Z
    /\ unmatched_imports (fst s') = unmatched_imports (fst s) ++ lu
    /\ unmatched (snd s') = unmatched (snd s) ++ lm
    /\ Forall2 (files session) lu lm
    /\ (errors (snd s) + Z.of_nat (length lm) <= errors (snd s'))%Z
    /\ materials (fst s') = materials (fst s)
    /\ material_aliases (fst s') = material_aliases (fst s)
    /\ customers (fst s') = customers (fst s)
    /\ price_sources (fst s') = price_sources (fst s)
    /\ import_sessions (fst s') = import_sessions (fst s).

(** The row of [import_sessions] for the file of an import into [st], with
    a given status and counters. *)
Definition session_row (st : Store float) (file_path : str)
  (customer_id vendor_id : option Z) (status_ : str)
  (processed_rows_ error_rows_ : option Z) : ImportSession :=
  mkImportSession (next_id (map s_id (import_sessions st))) file_path
    customer_id vendor_id status_ processed_rows_ error_rows_.

(** The row as [create_import_session] inserts it. *)
Definition opened_row (st : Store float) (file_path : str)
  (customer_id vendor_id : option Z) : ImportSession :=
  session_row st file_path customer_id vendor_id (default_session_status sch)
    (default_session_rows sch) (default_session_rows sch).

(** The store [st] with the sessions of [st0] and one more. *)
Definition with_session (st0 st : Store float) (row : ImportSession)
  : Store float :=
  set_import_sessions st (import_sessions st0 ++ [row]).

(** The row of [price_sources] that [import_from_file] inserts. *)
Definition batch_source (st : Store float) (file_path : str)
  (customer_id vendor_id : option Z) (doc_date_ : option str) : PriceSource :=
  mkPriceSource (next_id (map ps_id (price_sources st)))
    (Some (u "invoice"))
    (u "Import from " ++ basename file_path ++
     (match doc_date_ with
      | Some d => if truthy d then u " (" ++ d ++ u ")" else []
      | None => []
      end))
    customer_id vendor_id
    (Some (match doc_date_ with
           | Some d => if truthy d then d else today w
           | None => today w
           end))
    None.

(** The file that [import_from_file] reads. *)
Definition read_file (file_path : str) : result (DataFrame float) :=
  if endswith file_path (u ".csv") then read_csv w file_path
  else read_excel w file_path.

(** Every unmatched record refers to a session of the store. *)
Definition sessions_known (st : Store float) : Prop :=
  forall r, In r (unmatched_imports st) ->
            In (import_session_id r) (map s_id (import_sessions st)).

End Batch.

End Bookkeeping.

(* ===================================================================== *)
(** * Price texts of web pages                                             *)
(* ===================================================================== *)

(** [WebPriceScraper._parse_price] of [web_price_scraper.py]. *)
Module Scraper.
Import Importer.

Section Parse.

Variable float : Type.
Variable w : World float.

(** The characters that the class [\d] of [re] matches. *)
Variable is_digit : cp -> bool.

(** [re.sub(r'[^\d.,]', '', price_text)]: every character that is not a
    digit, a dot or a comma is removed. *)
Definition price_chars (price_text : str) : str :=
  filter (fun c => is_digit c || (c =? 46)%N || (c =? 44)%N) price_text.

(** [a in s], [s.replace(a, '')] and [s.replace(a, b)] for texts [a] and
    [b] of one character. *)
Definition contains (a : cp) (s : str) : bool := existsb (N.eqb a) s.

Definition remove (a : cp) (s : str) : str :=
  filter (fun c => negb (c =? a)%N) s.

Definition replace (a b : cp) (s : str) : str :=
  map (fun c => if (c =? a)%N then b else c) s.

(** [s.split(sep)] for a separator of one character; [acc] is the part
    being read. *)
Fixpoint split_go (sep : cp) (acc s : str) : list str :=
  match s with
  | [] => [acc]
  | c :: t =>
      if (c =? sep)%N then acc :: split_go sep [] t
      else split_go sep (acc ++ [c]) t
  end.

Definition split (sep : cp) (s : str) : list str := split_go sep [] s.

(** The text that [_parse_price] hands to [float]. *)
Definition decimal_text (price_text : str) : str :=
  let cleaned := price_chars price_text in
  if contains 44%N cleaned && contains 46%N cleaned then
    replace 44%N 46%N (remove 46%N cleaned)
  else if contains 44%N cleaned then
    match split 44%N cleaned with
    | [p0; p1] =>
        if (length p1 <=? 2)%nat then p0 ++ [46%N] ++ p1
        else remove 44%N cleaned
    | _ => remove 44%N cleaned
    end
  else cleaned.

(** [None] where [float] raises [ValueError]. *)
Definition _parse_price (price_text : str) : option float :=
  float_of_str w (decimal_text price_text).

End Parse.

End Scraper.

(* ===================================================================== *)
(** * The JSON catalogue                                                   *)
(* ===================================================================== *)

(** The catalogue file [materials_catalog.json] as [add_material.py]
    writes it and [fill_prices.py] reads it: a list of entries whose names
    and units are texts. *)
Module JsonCatalog.

Section Entries.

Variables num other : Type.

(** An entry, with the keys the two scripts read and whatever other keys
    it holds. *)
Record Entry : Type := mkEntry {
  e_id : str;
  e_name : str;
  e_unit : str;
  e_price : num;
  e_labor_cost : num;
  e_other : list (str * other) }.

(** [m['name'] == name and m['unit'] == unit] *)
Definition same_key (name unit_ : str) (m : Entry) : bool :=
  PyStr.eqb (e_name m) name && PyStr.eqb (e_unit m) unit_.

(** The entry after the assignments to its keys [price] and
    [labor_cost]. *)
Definition priced (price_ labor_cost_ : num) (m : Entry) : Entry :=
  mkEntry (e_id m) (e_name m) (e_unit m) price_ labor_cost_ (e_other m).

(** The catalogue after the assignments to [existing[0]], which is the
    first entry of the catalogue with that name and unit itself, not a
    copy of it. *)
Fixpoint update_first (name unit_ : str) (price_ labor_cost_ : num)
  (catalog : list Entry) : list Entry :=
  match catalog with
  | [] => []
  | m :: rest =>
      if same_key name unit_ m then priced price_ labor_cost_ m :: rest
      else m :: update_first name unit_ price_ labor_cost_ rest
  end.

(** The script of [add_material.py] between [load_catalog] and
    [save_catalog]; [new_id] is the [str(uuid.uuid4())] it draws for a new
    entry. *)
Definition add_material_script (catalog : list Entry) (name unit_ : str)
  (price_ labor_cost_ : num) (new_id : str) : list Entry :=
  match filter (same_key name unit_) catalog with
  | _ :: _ => update_first name unit_ price_ labor_cost_ catalog
  | [] => catalog ++ [mkEntry new_id name unit_ price_ labor_cost_ []]
  end.

(** What [process_excel] of [fill_prices.py] takes from the catalogue for
    a row whose material and unit are not in the local catalogue: the
    price and labour cost of the only match, or the status it writes. *)
Inductive Found : Type :=
| Unique (price_ labor_cost_ : num)     (* one match: [справочник] *)
| Ambiguous                             (* several: [Неоднозначно] *)
| NotFound.                             (* none: [Не найдено] *)

Definition catalog_lookup (catalog : list Entry) (material unit_ : str)
  : Found :=
  match filter (same_key material unit_) catalog with
  | [] => NotFound
  | [m] => Unique (e_price m) (e_labor_cost m)
  | _ :: _ :: _ => Ambiguous
  end.

(** No two entries have the same name and unit. *)
Definition key (m : Entry) : str * str := (e_name m, e_unit m).

Definition unique_keys (catalog : list Entry) : Prop :=
  NoDup (map key catalog).

End Entries.

End JsonCatalog.

(* ===================================================================== *)
(** * Sample data                                                          *)
(* ===================================================================== *)

(** A small catalogue, whose numbers are whole, for the worked cases of the
    specification. *)
Module Samples.
Import Catalog Py Db Re Importer.

(** Decimal digits of a text, if it has nothing else. *)
Fixpoint digits_value (acc : Z) (s : str) : option Z :=
  match s with
  | [] => Some acc
  | c :: t =>
      if ((48 <=? c) && (c <=? 57))%N
      then digits_value (acc * 10 + Z.of_N (c - 48)) t
      else None
  end.

(** [float] on the texts of the samples: a text of digits is a number, any
    other text is a [ValueError]. *)
Definition sample_float_of_str (s : str) : option Z :=
  match s with
  | [] => None
  | _ :: _ => digits_value 0 s
  end.

(** [float] on the whole numbers of the samples: those beyond the range
    of floating point are an [OverflowError]. *)
Definition sample_float_of_int (z : Z) : option Z :=
  if (Z.abs z <? 2 ^ 1024)%Z then Some z else None.

Definition sample_str_of_float (z : Z) : str :=
  (if (z <? 0)%Z then u "-" else [])
  ++ u (NilEmpty.string_of_uint (N.to_uint (Z.abs_N z))) ++ u ".0".

(** A schema whose only constraint is that a price is not null. *)
Definition sample_accepts (st : Store Z) (row : Insert Z) : bool :=
  match row with
  | InsPrice r => negb (is_null (price r))
  | _ => true
  end.

(** A schema that lets every row in. *)
Definition lenient_schema (plan : JoinPlan) : Schema Z :=
  mkSchema (fun _ _ => true) (u "pending") (Some 0%Z) (u "pending") plan.

Definition sample_schema (plan : JoinPlan) : Schema Z :=
  mkSchema sample_accepts (u "pending") (Some 0%Z) (u "pending") plan.

(** ** Prices of one material from two sources *)

Definition invoices : PriceSource :=
  mkPriceSource 1 (Some (u "invoice")) (u "Invoices") None None None None.

Definition by_hand : PriceSource :=
  mkPriceSource 2 (Some (u "manual")) (u "By hand") None None None None.

Definition price_jan : MaterialPrice Z :=
  mkMaterialPrice 1 (u "cement") (Some 100%Z) (u "RUB") (u "2024-01-01") 1 1.

Definition price_mar : MaterialPrice Z :=
  mkMaterialPrice 2 (u "cement") (Some 110%Z) (u "RUB") (u "2024-03-01") 1 1.

Definition price_feb : MaterialPrice Z :=
  mkMaterialPrice 3 (u "cement") (Some 90%Z) (u "RUB") (u "2024-02-01") 2 1.

Definition price_store : Store Z :=
  mkStore [] [] [] [invoices; by_hand] [price_jan; price_mar; price_feb] [] [].

(** ** Materials and aliases *)

Definition cement : Material Z :=
  mkMaterial (u "cement") (u "цемент") (u "кг") 0%Z None 1 None.

Definition cement_white : Material Z :=
  mkMaterial (u "cement-white") (u "цемент белый") (u "кг") 0%Z None 1 None.

Definition sand : Material Z :=
  mkMaterial (u "sand") (u "песок") (u "т") 0%Z None 1 None.

(** The alias [цемент] held globally for white cement and, for customer 7,
    for sand. *)
Definition alias_global : Alias :=
  mkAlias (u "cement-white") (u "цемент") None (Some (u "manual")).

Definition alias_of_7 : Alias :=
  mkAlias (u "sand") (u "цемент") (Some 7%Z) (Some (u "manual")).

Definition alias_store : Store Z :=
  mkStore [cement; cement_white; sand] [alias_global; alias_of_7]
          [] [] [] [] [].

(** The same catalogue without the alias of customer 7. *)
Definition alias_store_without_7 : Store Z :=
  mkStore [cement; cement_white; sand] [alias_global] [] [] [] [] [].

(** The files, clock and conversions of the samples; no file exists unless
    a reader is given for it. *)
Definition sample_world (file : str) (df : option (DataFrame Z)) : World Z :=
  mkWorld (u "2024-06-01")
          (fun p => match df with Some _ => PyStr.eqb p file | None => false end)
          (fun _ => match df with Some d => Ok d | None => Raise ReadError end)
          (fun _ => match df with Some d => Ok d | None => Raise ReadError end)
          sample_float_of_str sample_float_of_int sample_str_of_float.

(** ** Price lists *)

Definition headers : list str := [u "Наименование"; u "Ед. изм"; u "Цена"].

Definition line (name unit_ : str) (price_ : cell Z) : list (cell Z) :=
  [CText Z name; CText Z unit_; price_].

(** One line for a material the catalogue does not know. *)
Definition df_unknown : DataFrame Z :=
  mkDataFrame (map LText headers) [line (u "Гвозди") (u "кг") (CNum 50%Z)].

(** One line whose name differs from the canonical name only in its
    capital letter. *)
Definition df_capital : DataFrame Z :=
  mkDataFrame (map LText headers) [line (u "Цемент") (u "кг") (CNum 480%Z)].

Definition first_four : list (list (cell Z)) :=
  [line (u "цемент") (u "кг") (CNum 480%Z);
   line (u "Цемент белый") (u "кг") (CNum 900%Z);
   line (u "песок") (u "т") (CText Z (u "650"));
   line (u "Материал цемент") (u "кг") (CNum 490%Z)].


Definition last_five : list (list (cell Z)) :=
  [line (u "Песок") (u "т") (CNum 640%Z);
   line (u "цемент   белый") (u "кг") (CNum 910%Z);
   line (u "цемент") (u "кг") (CNum 470%Z);
   line (u "товар песок") (u "т") (CNum 630%Z);
   line (u "цемент") (u "кг") (CText Z (u "500"))].


(** The same ten lines with a fifth price that is a number beyond the
    range of floating point. *)
Definition fifth_huge : list (cell Z) :=
  line (u "цемент") (u "кг") (CNum (2 ^ 1024)%Z).

Definition df_ten_huge : DataFrame Z :=
  mkDataFrame (map LText headers) (first_four ++ fifth_huge :: last_five).

End Samples.

(** Further sample data. *)
Module Samples2.
Import PyStr Catalog Py Db Re Importer Registry Samples.

(** Customer 5 prefers prices entered by hand. *)
Definition customer_5 : Customer := mkCustomer 5 (u "Stroy") (Some (u "manual")).

Definition price_store_5 : Store Z :=
  mkStore [] [] [customer_5] [invoices; by_hand]
          [price_jan; price_mar; price_feb] [] [].

(** A schema for customers and materials that lets every row in, with
    materials active unless said otherwise. *)
Definition sample_entity_schema : EntitySchema Z :=
  mkEntitySchema (fun _ _ => true) (fun _ _ => true) 1.

(** A material entered with capital letters in its name. *)
Definition cement_m500 : Material Z :=
  mkMaterial (u "m500") (u "Цемент М500") (u "кг") 0%Z None 1 None.

Definition capital_store : Store Z :=
  mkStore [cement; cement_m500] [alias_global] [] [] [] [] [].

(** A material entered in Ukrainian, with its capital letter. *)
Definition soil : Material Z :=
  mkMaterial (u "g-1") (u "Ґрунт") (u "м3") 0%Z None 1 None.

Definition soil_store : Store Z := mkStore [soil] [] [] [] [] [] [].

(** A list whose headers name no material column. *)
Definition df_no_name : DataFrame Z :=
  mkDataFrame [LText (u "Цена"); LText (u "Кол-во")]
              [[CNum 480%Z; CNum 2%Z]; [CNum 900%Z; CNum 1%Z]].

(** A line whose name is blank. *)
Definition blank_line : list (cell Z) :=
  [CText Z (u "   "); CText Z (u "кг"); CNum 480%Z].

(** A list with one line of a known material and one of an unknown
    one, and the world in which it is the file [prices.csv]. *)
Definition df_mixed : DataFrame Z :=
  mkDataFrame (map LText headers) [line (u "цемент") (u "кг") (CNum 480%Z);
                       line (u "Гвозди") (u "кг") (CNum 50%Z)].

Definition mixed_world : World Z := sample_world (u "prices.csv") (Some df_mixed).

(** A list one of whose columns is headed by a number, as a sheet that
    has a year for a header is read, and the world in which it is the
    file [prices.csv]. *)
Definition df_numbered : DataFrame Z :=
  mkDataFrame [LText (u "Наименование"); LText (u "Ед. изм"); LOther]
              [line (u "цемент") (u "кг") (CNum 480%Z)].

Definition numbered_world : World Z :=
  sample_world (u "prices.csv") (Some df_numbered).

(** The digits of Basic Latin. *)
Definition ascii_digit (c : cp) : bool := ((48 <=? c) && (c <=? 57))%N.

(** A JSON catalogue of two entries, with whole numbers. *)
Definition json_cement : JsonCatalog.Entry Z Z :=
  JsonCatalog.mkEntry (u "c-1") (u "Цемент М500") (u "кг") 6%Z 2%Z [].

Definition json_sand : JsonCatalog.Entry Z Z :=
  JsonCatalog.mkEntry (u "s-1") (u "Песок") (u "т") 650%Z 100%Z
    [(u "category", 1%Z)].

Definition json_catalog : list (JsonCatalog.Entry Z Z) :=
  [json_cement; json_sand].

End Samples2.

(* ===================================================================== *)
(** * Properties                                                           *)
(* ===================================================================== *)

(** ** Trimming and tidy text *)
Module TextFacts.

Lemma lstrip_split (s : str) :
  exists pre, s = pre ++ lstrip s /\ Forall (fun c => isspace c = true) pre.
Proof.
  induction s as [|c t (pre & E & F)]; simpl.
  - exists []. split; [reflexivity | constructor].
  - destruct (isspace c) eqn:Ec.
    + exists (c :: pre). split; [simpl; congruence | constructor; assumption].
    + exists []. split; [reflexivity | constructor].
Qed.

Lemma lstrip_head (s : str) : head_space (lstrip s) = false.
Proof.
  induction s as [|c t IH]; simpl; [reflexivity|].
  destruct (isspace c) eqn:Ec; [exact IH | simpl; exact Ec].
Qed.

Lemma lstrip_id (s : str) : head_space s = false -> lstrip s = s.
Proof. destruct s as [|c t]; simpl; [reflexivity|]. intros ->. reflexivity. Qed.

Lemma lstrip_length (s : str) : length (lstrip s) <= length s.
Proof.
  destruct (lstrip_split s) as (pre & E & _). rewrite E at 2.
  rewrite length_app. lia.
Qed.

Lemma head_space_app (a b : str) :
  a <> [] -> head_space (a ++ b) = head_space a.
Proof. destruct a; [congruence | reflexivity]. Qed.

Lemma last_space_app (a b : str) :
  b <> [] -> last_space (a ++ b) = last_space b.
Proof.
  intros Hb. unfold last_space. rewrite rev_app_distr. apply head_space_app.
  intros E. apply Hb. rewrite <- (rev_involutive b), E. reflexivity.
Qed.

Lemma last_space_cons (c : cp) (t : str) :
  t <> [] -> last_space (c :: t) = last_space t.
Proof. intros Ht. apply (last_space_app [c] Ht). Qed.

Lemma last_space_all (s : str) :
  s <> [] -> Forall (fun c => isspace c = true) s -> last_space s = true.
Proof.
  intros Hs F. unfold last_space.
  assert (F' : Forall (fun c => isspace c = true) (rev s)).
  { apply Forall_forall. intros x Hx. apply in_rev in Hx.
    revert x Hx. apply Forall_forall, F. }
  destruct (rev s) as [|x l] eqn:E.
  - exfalso. apply Hs. rewrite <- (rev_involutive s), E. reflexivity.
  - simpl. inversion F'; assumption.
Qed.

(** ** Lowercasing *)

Lemma span_from_in (n : nat) (lo c : N) :
  (lo <= c < lo + N.of_nat n)%N -> In c (span_from lo n).
Proof.
  revert lo; induction n as [|k IH]; intros lo H; [lia|].
  cbn [span_from]. destruct (N.eq_dec lo c) as [E|Hne]; [left; exact E|].
  right. apply IH. lia.
Qed.

Lemma span_in (lo hi c : N) : (lo <= c <= hi)%N -> In c (span lo hi).
Proof. intros H. apply span_from_in. lia. Qed.

(** A code point is its own lowercase unless a row of the table names
    it. *)
Lemma lower_in_cases (t : list (N * N * N * N)) (c : cp) :
  lower_in t c = c
  \/ In c (flat_map (fun r : N * N * N * N =>
                       match r with (lo, hi, _, _) => span lo hi end) t).
Proof.
  induction t as [|[[[lo hi] to] stride] rest IH]; [left; reflexivity|].
  cbn [lower_in flat_map].
  destruct (N.ltb_spec c lo); [left; reflexivity|].
  destruct (N.leb_spec c hi).
  - right. apply in_or_app. left. apply span_in. lia.
  - destruct IH as [IH|IH]; [left; exact IH|].
    right. apply in_or_app. right. exact IH.
Qed.

Lemma lower_cp_cases (c : cp) : lower_cp c = c \/ In c lower_points.
Proof. apply lower_in_cases. Qed.

Lemma isspace_points (c : cp) : isspace c = true -> In c space_points.
Proof.
  unfold isspace. intros H.
  repeat match type of H with
    | (_ || _)%bool = true => apply orb_true_iff in H as [H|H]
    end;
    repeat match goal with
      | H : (_ && _)%bool = true |- _ => apply andb_true_iff in H as [? ?]
      | H : (_ <=? _)%N = true |- _ => apply N.leb_le in H
      | H : (_ =? _)%N = true |- _ => apply N.eqb_eq in H
      end;
    unfold space_points; simpl; lia.
Qed.

(** What the table says of the code points it names: their lowercase is
    neither white space nor changed by a second lowercasing. *)
Lemma lower_points_checked :
  forallb (fun c => negb (isspace c) && negb (isspace (lower_cp c))
                    && negb (lower_cp c =? 304)%N
                    && (lower_cp (lower_cp c) =? lower_cp c)%N)
          lower_points = true.
Proof. vm_compute. reflexivity. Qed.

(** White space is its own lowercase, and is neither cased nor
    case-ignorable. *)
Lemma space_points_checked :
  forallb (fun c => (lower_cp c =? c)%N && negb (c =? 304)%N
                    && negb (c =? 931)%N && negb (case_ignorable c)
                    && negb (cased c))
          space_points = true.
Proof. vm_compute. reflexivity. Qed.

Lemma lower_cp_point (c : cp) :
  In c lower_points ->
  isspace c = false /\ isspace (lower_cp c) = false /\ lower_cp c <> 304%N
  /\ lower_cp (lower_cp c) = lower_cp c.
Proof.
  intros H.
  pose proof (proj1 (forallb_forall _ _) lower_points_checked c H) as E.
  cbv beta in E.
  apply andb_true_iff in E as [E E4]. apply andb_true_iff in E as [E E3].
  apply andb_true_iff in E as [E1 E2].
  apply negb_true_iff in E1, E2, E3. apply N.eqb_neq in E3.
  apply N.eqb_eq in E4. auto.
Qed.

Lemma lower_space (c : cp) :
  isspace c = true ->
  lower_cp c = c /\ c <> 304%N /\ c <> 931%N
  /\ case_ignorable c = false /\ cased c = false.
Proof.
  intros H. apply isspace_points in H.
  pose proof (proj1 (forallb_forall _ _) space_points_checked c H) as E.
  cbv beta in E.
  apply andb_true_iff in E as [E E5]. apply andb_true_iff in E as [E E4].
  apply andb_true_iff in E as [E E3]. apply andb_true_iff in E as [E1 E2].
  apply negb_true_iff in E2, E3, E4, E5.
  apply N.eqb_eq in E1. apply N.eqb_neq in E2, E3. auto.
Qed.

(** White space keeps its class under [lower_cp], and so does the rest. *)
Lemma isspace_lower_cp (c : cp) : isspace (lower_cp c) = isspace c.
Proof.
  destruct (lower_cp_cases c) as [E|H]; [rewrite E; reflexivity|].
  apply lower_cp_point in H as (H1 & H2 & _). congruence.
Qed.

Lemma lower_cp_idem (c : cp) : lower_cp (lower_cp c) = lower_cp c.
Proof.
  destruct (lower_cp_cases c) as [E|H]; [rewrite E; exact E|].
  apply lower_cp_point in H as (_ & _ & _ & H). exact H.
Qed.

Lemma lower_cp_not_dotted (c : cp) : c <> 304%N -> lower_cp c <> 304%N.
Proof.
  intros Hc. destruct (lower_cp_cases c) as [E|H]; [rewrite E; exact Hc|].
  apply lower_cp_point in H as (_ & _ & H & _). exact H.
Qed.

(** Every code point that lowercasing puts out is left as it is by
    lowercasing. *)
Lemma lower_full_fixed (c d : cp) :
  In d (lower_full c) -> lower_full d = [d].
Proof.
  unfold lower_full at 1. destruct (N.eqb_spec c 304) as [->|Hc].
  - intros [<-|[<-|[]]]; reflexivity.
  - intros [<-|[]]. unfold lower_full.
    destruct (N.eqb_spec (lower_cp c) 304) as [E|_].
    + exfalso. exact (lower_cp_not_dotted Hc E).
    + rewrite lower_cp_idem. reflexivity.
Qed.

Lemma lower_full_space (c d : cp) :
  In d (lower_full c) -> isspace d = isspace c.
Proof.
  unfold lower_full. destruct (N.eqb_spec c 304) as [->|Hc].
  - intros [<-|[<-|[]]]; reflexivity.
  - intros [<-|[]]. apply isspace_lower_cp.
Qed.

Lemma lower_full_head (c : cp) :
  exists x l, lower_full c = x :: l /\ isspace x = isspace c.
Proof.
  destruct (lower_full c) as [|x l] eqn:E.
  - unfold lower_full in E. destruct (c =? 304)%N; discriminate.
  - exists x, l. split; [reflexivity|]. apply lower_full_space.
    rewrite E. left. reflexivity.
Qed.

Lemma lower_full_last (c : cp) :
  last_space (lower_full c) = isspace c.
Proof.
  unfold lower_full. destruct (N.eqb_spec c 304) as [->|Hc]; [reflexivity|].
  apply isspace_lower_cp.
Qed.

(** What one code point becomes in a text: its lowercase, or a small
    sigma. *)
Lemma lower_go_cons (before : bool) (c : cp) (t : str) :
  exists k,
    lower_go before (c :: t)
    = k ++ lower_go (if case_ignorable c then before else cased c) t
    /\ (k = lower_full c \/ c = 931%N /\ (k = [962%N] \/ k = [963%N])).
Proof.
  cbn [lower_go]. destruct (N.eqb_spec c 931) as [->|Hc].
  - eexists. split; [reflexivity|]. right. split; [reflexivity|].
    destruct (before && final_after t); auto.
  - eexists. split; [reflexivity|]. left. reflexivity.
Qed.

Lemma lowered_lower_go (before : bool) (s : str) :
  lowered (lower_go before s).
Proof.
  revert before; induction s as [|c t IH]; intros before; [constructor|].
  destruct (lower_go_cons before c t) as (k & -> & Hk).
  apply Forall_app. split; [|apply IH].
  destruct Hk as [->|[_ [->| ->]]].
  - apply Forall_forall. intros d Hd. exact (lower_full_fixed c d Hd).
  - repeat constructor.
  - repeat constructor.
Qed.

Lemma lowered_lower (s : str) : lowered (lower s).
Proof. apply lowered_lower_go. Qed.

Lemma lower_go_id (before : bool) (s : str) :
  lowered s -> lower_go before s = s.
Proof.
  intros H. revert before. induction H as [|c t Hc _ IH]; intros before;
    [reflexivity|].
  cbn [lower_go]. destruct (N.eqb_spec c 931) as [->|_]; [discriminate|].
  rewrite Hc, IH. reflexivity.
Qed.

Lemma lower_id (s : str) : lowered s -> lower s = s.
Proof. apply lower_go_id. Qed.

Lemma lower_go_fixed (before : bool) (s : str) :
  lower_go before s = s -> lowered s.
Proof.
  revert before. induction s as [|c t IH]; intros before E; [constructor|].
  cbn [lower_go] in E. destruct (N.eqb_spec c 931) as [->|Hc].
  - exfalso. destruct (before && final_after t); cbn [app] in E;
      injection E as E _; discriminate.
  - unfold lower_full in E. destruct (N.eqb_spec c 304) as [->|Hd].
    + cbn [app] in E. injection E as E _. discriminate.
    + cbn [app] in E. injection E as Ec Et. constructor.
      * unfold lower_full. destruct (N.eqb_spec c 304) as [|_];
          [contradiction|]. rewrite Ec. reflexivity.
      * exact (IH _ Et).
Qed.

(** The texts in which no character is changed by lowercasing are the
    texts that [str.lower] returns as they are. *)
Lemma lowered_iff (s : str) : lowered s <-> lower s = s.
Proof. split; [apply lower_id | apply lower_go_fixed]. Qed.

Lemma lower_go_nil (before : bool) (s : str) :
  lower_go before s = [] -> s = [].
Proof.
  destruct s as [|c t]; [reflexivity|].
  destruct (lower_go_cons before c t) as (k & -> & Hk). intros E.
  apply app_eq_nil in E as [E _]. subst k.
  destruct Hk as [Hk|[_ [Hk|Hk]]]; try discriminate.
  destruct (lower_full_head c) as (x & l & E & _). congruence.
Qed.

Lemma head_space_lower_go (before : bool) (s : str) :
  head_space (lower_go before s) = head_space s.
Proof.
  destruct s as [|c t]; [reflexivity|].
  destruct (lower_go_cons before c t) as (k & -> & Hk).
  destruct Hk as [->|[-> [->| ->]]]; try reflexivity.
  destruct (lower_full_head c) as (x & l & -> & Hx). exact Hx.
Qed.

Lemma head_space_lower (s : str) : head_space (lower s) = head_space s.
Proof. apply head_space_lower_go. Qed.

Lemma last_space_lower_go (before : bool) (s : str) :
  last_space (lower_go before s) = last_space s.
Proof.
  revert before; induction s as [|c t IH]; intros before; [reflexivity|].
  destruct (lower_go_cons before c t) as (k & -> & Hk).
  destruct t as [|c' t'].
  - cbn [lower_go]. rewrite app_nil_r.
    destruct Hk as [->|[-> [->| ->]]]; try reflexivity.
    apply lower_full_last.
  - rewrite last_space_app.
    + rewrite IH. symmetry. apply last_space_cons. discriminate.
    + intros E. apply lower_go_nil in E. discriminate.
Qed.

Lemma last_space_lower (s : str) : last_space (lower s) = last_space s.
Proof. apply last_space_lower_go. Qed.

(** ** What [strip] leaves *)

Lemma head_space_rstrip (s : str) :
  head_space s = false -> head_space (rstrip s) = false.
Proof.
  intros H. unfold rstrip.
  destruct (lstrip_split (rev s)) as (pre & E & _).
  destruct (rev (lstrip (rev s))) as [|x l] eqn:El; [reflexivity|].
  assert (Es : s = (x :: l) ++ rev pre).
  { rewrite <- El, <- rev_app_distr, <- E, rev_involutive. reflexivity. }
  rewrite Es in H. exact H.
Qed.

Lemma last_space_rstrip (s : str) : last_space (rstrip s) = false.
Proof.
  unfold last_space, rstrip. rewrite rev_involutive. apply lstrip_head.
Qed.

Lemma head_space_strip (s : str) : head_space (strip s) = false.
Proof. apply head_space_rstrip, lstrip_head. Qed.

Lemma last_space_strip (s : str) : last_space (strip s) = false.
Proof. apply last_space_rstrip. Qed.

(** ** Single blanks *)

Lemma spaced_tail (c : cp) (t : str) : spaced (c :: t) = true -> spaced t = true.
Proof. simpl. intros H. apply andb_true_iff in H as [_ H]. exact H. Qed.

Lemma spaced_suffix (pre s : str) : spaced (pre ++ s) = true -> spaced s = true.
Proof.
  induction pre as [|c t IH]; simpl; [auto|]. intros H.
  apply andb_true_iff in H as [_ H]. auto.
Qed.

Lemma spaced_space (c : cp) (t : str) :
  spaced (c :: t) = true -> isspace c = true ->
  c = 32%N /\ head_space t = false /\ t <> [].
Proof.
  simpl. intros H Hc. rewrite Hc in H.
  apply andb_true_iff in H as [H _]. apply andb_true_iff in H as [H Hn].
  apply andb_true_iff in H as [H32 Hh]. apply N.eqb_eq in H32.
  apply negb_true_iff in Hh. repeat split; try assumption.
  intros ->. discriminate.
Qed.

Lemma spaced_last (s : str) : spaced s = true -> last_space s = false.
Proof.
  induction s as [|c t IH]; [reflexivity|]. intros H.
  destruct t as [|c' t'].
  - unfold last_space. simpl. destruct (isspace c) eqn:Ec; [|reflexivity].
    destruct (@spaced_space _ _ H Ec) as (_ & _ & Hne). congruence.
  - rewrite last_space_cons by discriminate. apply IH, (@spaced_tail _ _ H).
Qed.

Lemma spaced_no_newline (s : str) : spaced s = true -> ~ In 10%N s.
Proof.
  induction s as [|c t IH]; simpl; [tauto|]. intros H [E|Hin].
  - subst c. simpl in H. discriminate.
  - apply andb_true_iff in H as [_ H]. exact (IH H Hin).
Qed.

Lemma strip_id (s : str) :
  spaced s = true -> head_space s = false -> strip s = s.
Proof.
  intros Hs Hh. unfold strip. rewrite (@lstrip_id _ Hh). unfold rstrip.
  rewrite lstrip_id; [apply rev_involutive|]. apply (@spaced_last _ Hs).
Qed.

End TextFacts.

(** ** Matching and substitution *)
Module ReFacts.
Import Re TextFacts.

Lemma spaces_star_head (s : str) : exists l, spaces_star s = lstrip s :: l.
Proof.
  induction s as [|c t [l IH]]; simpl; [eauto|].
  destruct (isspace c); [|eauto]. rewrite IH. simpl. eauto.
Qed.

Lemma spaces_star_suffix (s z : str) :
  In z (spaces_star s) -> exists pre, s = pre ++ z.
Proof.
  revert z; induction s as [|c t IH]; simpl; intros z H.
  - destruct H as [<-|[]]. exists []. reflexivity.
  - destruct (isspace c).
    + apply in_app_or in H as [H|[<-|[]]].
      * destruct (IH z H) as [pre ->]. exists (c :: pre). reflexivity.
      * exists []. reflexivity.
    + destruct H as [<-|[]]. exists []. reflexivity.
Qed.

Lemma startswith_split (s w : str) :
  startswith s w = true -> s = w ++ skipn (length w) s.
Proof.
  revert s; induction w as [|x w IH]; intros [|y s]; simpl; try congruence.
  intros H. apply andb_true_iff in H as [E H]. apply N.eqb_eq in E.
  subst y. f_equal. apply IH, H.
Qed.

(** What a match leaves is an end of the text it started on. *)
Lemma match_at_suffix (len0 : nat) (r : regex) (s rem : str) :
  In rem (match_at len0 r s) -> exists pre, s = pre ++ rem.
Proof.
  revert s rem; induction r as [w|r IH| | |r1 IH1 r2 IH2|r1 IH1 r2 IH2| |];
    intros s rem H; simpl in H.
  - destruct (startswith s w) eqn:E; [|destruct H].
    destruct H as [<-|[]]. exists w. apply startswith_split, E.
  - apply in_app_or in H as [H|[<-|[]]]; [eauto | exists []; reflexivity].
  - apply spaces_star_suffix, H.
  - destruct s as [|c t]; [destruct H|]. destruct (isspace c); [|destruct H].
    destruct (spaces_star_suffix _ _ H) as [pre ->]. exists (c :: pre).
    reflexivity.
  - apply in_flat_map in H as (z & Hz & H).
    destruct (IH1 _ _ Hz) as [p1 ->]. destruct (IH2 _ _ H) as [p2 ->].
    exists (p1 ++ p2). rewrite app_assoc. reflexivity.
  - apply in_app_or in H as [H|H]; eauto.
  - destruct (length s =? len0); [|destruct H]. destruct H as [<-|[]].
    exists []. reflexivity.
  - destruct s as [|c [|c' t]]; try destruct H as [<-|[]]; try destruct H.
    + exists []. reflexivity.
    + destruct (c =? 10)%N; [|destruct H]. destruct H as [<-|[]].
      exists []. reflexivity.
Qed.

Lemma sub_go_cons (len0 : nat) (r : regex) (repl : str) (c : cp) (t : str) :
  sub_go len0 r repl 0 (c :: t)
  = match match_at len0 r (c :: t) with
    | rem :: _ =>
        match length (c :: t) - length rem with
        | O => repl ++ c :: sub_go len0 r repl 0 t
        | S k => repl ++ sub_go len0 r repl k t
        end
    | [] => c :: sub_go len0 r repl 0 t
    end.
Proof. reflexivity. Qed.

Lemma sub_go_skip (len0 : nat) (r : regex) (repl : str) (k : nat) (s : str) :
  k <= length s ->
  sub_go len0 r repl k s = sub_go len0 r repl 0 (skipn k s).
Proof.
  revert k; induction s as [|c t IH]; intros [|k] H; simpl in H;
    try reflexivity; [lia|].
  change (sub_go len0 r repl (S k) (c :: t)) with (sub_go len0 r repl k t).
  rewrite IH by lia. reflexivity.
Qed.

(** A match that takes at least one character is replaced, and the scan
    goes on with what the match left. *)
Lemma sub_go_match (len0 : nat) (r : regex) (repl : str) (s rem : str)
  (l : list str) :
  match_at len0 r s = rem :: l ->
  length rem < length s ->
  sub_go len0 r repl 0 s = repl ++ sub_go len0 r repl 0 rem.
Proof.
  intros Hm Hlen.
  destruct (match_at_suffix len0 r s rem) as [pre E];
    [rewrite Hm; left; reflexivity|].
  destruct s as [|c t]; [simpl in Hlen; lia|].
  rewrite sub_go_cons, Hm.
  destruct pre as [|c' pre]; [simpl in E; subst rem; lia|].
  simpl in E. injection E as <- Et.
  assert (Hk : length (c :: t) - length rem = S (length pre)).
  { rewrite Et. cbn [length]. rewrite length_app. lia. }
  rewrite Hk. f_equal. rewrite sub_go_skip by (rewrite Et, length_app; lia).
  rewrite Et, skipn_app, skipn_all, Nat.sub_diag. reflexivity.
Qed.

(** Where nothing matches, nothing is replaced. *)
Lemma sub_go_copy (len0 : nat) (r : regex) (repl : str) (s : str) :
  search_from len0 r s = false -> sub_go len0 r repl 0 s = s.
Proof.
  induction s as [|c t IH]; simpl; intros H.
  - destruct (match_at len0 r []); [reflexivity | discriminate].
  - destruct (match_at len0 r (c :: t)); [|discriminate].
    rewrite IH by exact H. reflexivity.
Qed.

(** The result is made of characters of the text and of the replacement. *)
Lemma sub_go_forall (P : cp -> Prop) (len0 : nat) (r : regex) (repl : str)
  (k : nat) (s : str) :
  Forall P s -> Forall P repl -> Forall P (sub_go len0 r repl k s).
Proof.
  intros Hs Hr. revert k; induction Hs as [|c t Hc Ht IH]; intros k.
  - destruct k; simpl; [|constructor].
    destruct (match_at len0 r []); [constructor | exact Hr].
  - destruct k as [|k]; [|apply IH].
    rewrite sub_go_cons. destruct (match_at len0 r (c :: t)).
    + constructor; [exact Hc | apply IH].
    + destruct (length (c :: t) - length s);
        apply Forall_app; split; auto.
Qed.

(** *** [\s+] replaced by a blank *)

Lemma collapse_cons (len0 : nat) (repl : str) (c : cp) (t : str) :
  sub_go len0 Spaces1 repl 0 (c :: t)
  = if isspace c then repl ++ sub_go len0 Spaces1 repl 0 (lstrip t)
    else c :: sub_go len0 Spaces1 repl 0 t.
Proof.
  destruct (isspace c) eqn:Ec.
  - destruct (spaces_star_head t) as [l Hl].
    apply sub_go_match with l.
    + simpl. rewrite Ec. exact Hl.
    + pose proof (lstrip_length t). simpl. lia.
  - rewrite sub_go_cons. simpl match_at. rewrite Ec. reflexivity.
Qed.

Lemma collapse_spaced (len0 : nat) (n : nat) (s : str) :
  length s <= n ->
  last_space s = false ->
  spaced (sub_go len0 Spaces1 [32%N] 0 s) = true
  /\ head_space (sub_go len0 Spaces1 [32%N] 0 s) = head_space s
  /\ (s <> [] -> sub_go len0 Spaces1 [32%N] 0 s <> []).
Proof.
  revert s; induction n as [|n IH]; intros s Hn Hl.
  - destruct s; [|simpl in Hn; lia]. repeat split. congruence.
  - destruct s as [|c t]; [repeat split; congruence|].
    rewrite collapse_cons. destruct (isspace c) eqn:Ec.
    + destruct (lstrip_split t) as (pre & Et & Fpre).
      destruct (lstrip t) as [|c' t'] eqn:El.
      * exfalso. rewrite app_nil_r in Et. subst pre.
        rewrite last_space_all in Hl; [discriminate | discriminate|].
        constructor; assumption.
      * pose proof (lstrip_head t) as Hh. rewrite El in Hh. simpl in Hh.
        assert (Hlen : length (c' :: t') <= n).
        { pose proof (lstrip_length t). rewrite El in H. simpl in Hn. lia. }
        assert (Hl' : last_space (c' :: t') = false).
        { rewrite <- Hl. rewrite Et. symmetry.
          apply (last_space_app (c :: pre)). discriminate. }
        destruct (IH _ Hlen Hl') as (Hs & Hhd & Hne).
        rewrite collapse_cons, Hh in *. simpl in Hs. rewrite Hh in Hs.
        simpl in Hs. simpl.
        rewrite Hh. simpl. split; [exact Hs|].
        split; [rewrite ?Ec; reflexivity | discriminate].
    + assert (Hlen : length t <= n) by (simpl in Hn; lia).
      assert (Hl' : last_space t = false).
      { destruct t as [|c' t']; [reflexivity|].
        rewrite <- Hl. symmetry. apply last_space_cons. discriminate. }
      destruct (IH _ Hlen Hl') as (Hs & _ & _).
      simpl. rewrite Ec. simpl. split; [exact Hs|]. split; [reflexivity|discriminate].
Qed.

Lemma collapse_id (len0 : nat) (s : str) :
  spaced s = true -> sub_go len0 Spaces1 [32%N] 0 s = s.
Proof.
  induction s as [|c t IH]; intros H; [reflexivity|].
  rewrite collapse_cons. specialize (IH (@spaced_tail _ _ H)).
  destruct (isspace c) eqn:Ec; [|congruence].
  destruct (@spaced_space _ _ H Ec) as (-> & Hh & _).
  rewrite (@lstrip_id _ Hh), IH. reflexivity.
Qed.

End ReFacts.


(** ** Text *)
Module PyStrFacts.

Lemma eqb_eq (a b : str) : PyStr.eqb a b = true <-> a = b.
Proof.
  revert b; induction a as [|x a IH]; intros [|y b]; simpl;
    try (split; [discriminate | congruence]); try tauto.
  rewrite andb_true_iff, N.eqb_eq, IH. split.
  - intros [-> ->]; reflexivity.
  - intros E; injection E; auto.
Qed.

Lemma eqb_refl (a : str) : PyStr.eqb a a = true.
Proof. apply eqb_eq; reflexivity. Qed.

Lemma eqb_neq (a b : str) : PyStr.eqb a b = false <-> a <> b.
Proof.
  split.
  - intros E H. apply eqb_eq in H. congruence.
  - intros H. destruct (PyStr.eqb a b) eqn:E; [|reflexivity].
    apply eqb_eq in E. contradiction.
Qed.

Lemma leb_refl (a : str) : PyStr.leb a a = true.
Proof.
  induction a as [|x a IH]; simpl; [reflexivity|].
  rewrite N.ltb_irrefl, N.eqb_refl. exact IH.
Qed.

Lemma leb_total (a b : str) : PyStr.leb a b = false -> PyStr.leb b a = true.
Proof.
  revert b; induction a as [|x a IH]; intros [|y b]; simpl; try congruence.
  destruct (N.ltb_spec x y); [discriminate|].
  destruct (N.eqb_spec x y) as [->|Hne].
  - rewrite N.ltb_irrefl, N.eqb_refl. apply IH.
  - intros _. destruct (N.ltb_spec y x); [reflexivity | lia].
Qed.

Lemma leb_trans (a b c : str) :
  PyStr.leb a b = true -> PyStr.leb b c = true -> PyStr.leb a c = true.
Proof.
  revert b c; induction a as [|x a IH]; intros [|y b] [|z c]; simpl;
    try congruence.
  destruct (N.ltb_spec x y), (N.ltb_spec y z), (N.ltb_spec x z);
    try reflexivity; try lia;
    destruct (N.eqb_spec x y), (N.eqb_spec y z), (N.eqb_spec x z);
    try congruence; try lia.
  apply IH.
Qed.

End PyStrFacts.

(** ** The price selector *)
Module SelectorFacts.
Import Catalog PyStrFacts.

Section Order.
Variable A : Type.
Variable le : A -> A -> bool.
Hypothesis le_total : forall x y, le x y = false -> le y x = true.
Hypothesis le_trans :
  forall x y z, le x y = true -> le y z = true -> le x z = true.

Lemma le_refl x : le x x = true.
Proof. generalize (@le_total x x). destruct (le x x); auto. Qed.

Lemma insert_row_hd x l :
  hd_error (insert_row le x l) =
  match hd_error l with
  | None => Some x
  | Some y => if le x y then Some x else Some y
  end.
Proof. destruct l as [|y t]; simpl; [reflexivity|]. destruct (le x y); reflexivity. Qed.

Lemma insert_row_in x l z : In z (insert_row le x l) <-> z = x \/ In z l.
Proof.
  induction l as [|y t IH]; simpl.
  - intuition.
  - destruct (le x y); simpl; [intuition | rewrite IH; intuition].
Qed.

Lemma order_by_in l z : In z (order_by le l) <-> In z l.
Proof.
  induction l as [|x t IH]; simpl; [tauto|].
  rewrite insert_row_in, IH. intuition.
Qed.

Lemma order_by_nil l : order_by le l = [] <-> l = [].
Proof.
  split; [|intros ->; reflexivity].
  destruct l as [|x t]; [reflexivity|]. intros E.
  assert (H : In x (order_by le (x :: t))) by (apply order_by_in; left; reflexivity).
  rewrite E in H. destruct H.
Qed.

(** The first row of the sorted list comes before every row. *)
Lemma order_by_hd_least l r :
  hd_error (order_by le l) = Some r -> forall c, In c l -> le r c = true.
Proof.
  revert r; induction l as [|x t IH]; intros r; simpl; [discriminate|].
  rewrite insert_row_hd.
  destruct (hd_error (order_by le t)) as [h|] eqn:Eh.
  - specialize (IH h eq_refl).
    destruct (le x h) eqn:Exh; intros E; injection E as <-; intros c [<-|Hc].
    + apply le_refl.
    + apply le_trans with h; auto.
    + apply le_total, Exh.
    + apply IH, Hc.
  - intros E; injection E as <-.
    assert (Et : t = []).
    { apply order_by_nil. destruct (order_by le t); [reflexivity|discriminate]. }
    subst t. intros c [<-|[]]. apply le_refl.
Qed.
End Order.

Section Prices.
Variable float : Type.
Variable preferred_type : option str.

Lemma price_order_total (x y : PriceRow float) :
  price_order preferred_type x y = false ->
  price_order preferred_type y x = true.
Proof.
  unfold price_order.
  set (kx := type_rank preferred_type (pr_type x)).
  set (ky := type_rank preferred_type (pr_type y)).
  rewrite orb_false_iff, andb_false_iff. intros [H1 H2].
  apply Z.ltb_ge in H1.
  destruct (Z.ltb_spec ky kx) as [|H3]; [reflexivity|]. simpl.
  assert (E : kx = ky) by lia. rewrite E, Z.eqb_refl in *. simpl.
  destruct H2 as [H2|H2]; [discriminate|]. apply leb_total, H2.
Qed.

Lemma price_order_trans (x y z : PriceRow float) :
  price_order preferred_type x y = true ->
  price_order preferred_type y z = true ->
  price_order preferred_type x z = true.
Proof.
  unfold price_order.
  set (kx := type_rank preferred_type (pr_type x)).
  set (ky := type_rank preferred_type (pr_type y)).
  set (kz := type_rank preferred_type (pr_type z)).
  rewrite !orb_true_iff, !andb_true_iff, !Z.ltb_lt, !Z.eqb_eq.
  intros [H1|[H1 L1]] [H2|[H2 L2]]; try (left; lia).
  right. split; [lia|]. eapply leb_trans; eauto.
Qed.

Lemma price_candidates_in (st : Store float) (material_id as_of : str)
  (r : PriceRow float) :
  In r (price_candidates st material_id as_of) <->
  exists mp ps,
    In mp (material_prices st) /\ In ps (price_sources st)
    /\ source_id mp = ps_id ps
    /\ mp_material_id mp = material_id
    /\ PyStr.leb (price_date mp) as_of = true
    /\ is_active mp = 1%Z
    /\ r = mkPriceRow mp (ps_type ps) (ps_customer_id ps).
Proof.
  unfold price_candidates. rewrite in_flat_map. split.
  - intros (mp & Hmp & Hr).
    destruct (PyStr.eqb (mp_material_id mp) material_id
              && PyStr.leb (price_date mp) as_of
              && (is_active mp =? 1)%Z) eqn:E; [|destruct Hr].
    apply andb_true_iff in E as [E Ea]. apply andb_true_iff in E as [Em Ed].
    apply in_map_iff in Hr as (ps & <- & Hps).
    apply filter_In in Hps as [Hps Hid].
    exists mp, ps. apply eqb_eq in Em. apply Z.eqb_eq in Ea, Hid. auto 10.
  - intros (mp & ps & Hmp & Hps & Hid & Hm & Hd & Ha & ->).
    exists mp. split; [assumption|].
    rewrite Hm, eqb_refl, Hd, Ha. simpl.
    apply in_map_iff. exists ps. split; [reflexivity|].
    apply filter_In. split; [assumption|]. apply Z.eqb_eq, Hid.
Qed.
End Prices.

End SelectorFacts.

Module SelectorSpec.
Import Catalog PyStrFacts SelectorFacts Samples.

Lemma ostr_eqb_eq (p : option str) (t : str) :
  ostr_eqb p t = true <-> p = Some t.
Proof.
  destruct p as [s|]; simpl; [|split; discriminate].
  rewrite eqb_eq. split; [intros ->; reflexivity | intros E; injection E; auto].
Qed.

Lemma ostr_eqb_neq (p : option str) (t : str) :
  p <> Some t -> ostr_eqb p t = false.
Proof.
  intros H. destruct (ostr_eqb p t) eqn:E; [|reflexivity].
  apply ostr_eqb_eq in E. contradiction.
Qed.

Lemma find_first (A : Type) (p : A -> bool) (before after : list A) (k : A) :
  (forall x, In x before -> p x = false) -> p k = true ->
  find p (before ++ k :: after) = Some k.
Proof.
  intros Hb Hk. induction before as [|x t IH]; simpl; [rewrite Hk; reflexivity|].
  rewrite (Hb x (or_introl eq_refl)). apply IH. intros y Hy. apply Hb.
  right. exact Hy.
Qed.

Lemma find_absent (A : Type) (p : A -> bool) (l : list A) :
  (forall x, In x l -> p x = false) -> find p l = None.
Proof.
  induction l as [|x t IH]; simpl; intros H; [reflexivity|].
  rewrite (H x (or_introl eq_refl)). apply IH. intros y Hy. apply H.
  right. exact Hy.
Qed.

(** C1.  For the as-of date [day] of a call, which is the date given to
    it, or today when none or an empty one is given, [get_current_price]
    considers exactly the rows of the active prices of the material dated
    on or before [day], each joined with its price source.  It returns none
    when there is no such row (where every price has its source: when the
    material has no active price dated on or before [day]) and otherwise
    one of them that no other precedes under the key (source-type rank,
    then the later date first), so that a price dated after [day] is never
    returned.  The rank is 1 for the preferred type, else 2 for invoice, 3
    for website, 4 for manual and 5 for the rest; the preferred type is
    the one in the row of the customer, and invoice without a customer,
    for the customer id 0 and for a customer without a row.  For the sample
    prices, as of 2024-03-15 the invoice price of 2024-03-01 (110) is
    returned, as of 2024-02-15 the invoice price of 2024-01-01 (100), and
    for the customer who prefers manual prices the manual price of
    2024-02-01 (90). *)
Theorem get_current_price_selects :
  (forall (float : Type) (today : str) (st : Store float) (material_id : str)
          (calculation_date : option str) (customer_id : option Z)
          (day : str),
      calculation_date = Some day /\ truthy day = true
      \/ (calculation_date = None \/ calculation_date = Some [])
         /\ day = today ->
      let preferred := preferred_type_of st customer_id in
      let candidates := price_candidates st material_id day in
      let rank := fun r : PriceRow float => type_rank preferred (pr_type r) in
      let selected :=
        get_current_price today st material_id calculation_date customer_id in
      (forall r, In r candidates <->
         exists mp ps,
           In mp (material_prices st) /\ In ps (price_sources st)
           /\ source_id mp = ps_id ps
           /\ mp_material_id mp = material_id
           /\ PyStr.leb (price_date mp) day = true
           /\ is_active mp = 1%Z
           /\ r = mkPriceRow mp (ps_type ps) (ps_customer_id ps))
      /\ (selected = None <-> candidates = [])
      /\ ((forall mp, In mp (material_prices st) ->
             exists ps, In ps (price_sources st) /\ source_id mp = ps_id ps) ->
          (selected = None <->
           forall mp, In mp (material_prices st) ->
             ~ (mp_material_id mp = material_id
                /\ PyStr.leb (price_date mp) day = true
                /\ is_active mp = 1%Z)))
      /\ (forall r, selected = Some r ->
            In r candidates
            /\ (forall c, In c candidates ->
                  (rank r < rank c)%Z
                  \/ (rank r = rank c
                      /\ PyStr.leb (price_date (pr_price c))
                                   (price_date (pr_price r)) = true))
            /\ PyStr.leb (price_date (pr_price r)) day = true))
  /\ (forall (float : Type) (today : str) (st : Store float)
             (material_id : str) (customer_id : option Z),
        get_current_price today st material_id None customer_id
        = get_current_price today st material_id (Some today) customer_id)
  /\ (forall (float : Type) (st : Store float),
        preferred_type_of st None = Some (u "invoice")
        /\ preferred_type_of st (Some 0%Z) = Some (u "invoice")
        /\ (forall c, (forall k, In k (customers st) -> c_id k <> c) ->
              preferred_type_of st (Some c) = Some (u "invoice"))
        /\ (forall c before k after,
              c <> 0%Z -> customers st = before ++ k :: after ->
              c_id k = c -> (forall k', In k' before -> c_id k' <> c) ->
              preferred_type_of st (Some c) = preferred_price_source_type k))
  /\ (forall t, type_rank (Some t) (Some t) = 1%Z)
  /\ (forall p, p <> Some (u "invoice") ->
        type_rank p (Some (u "invoice")) = 2%Z)
  /\ (forall p, p <> Some (u "website") ->
        type_rank p (Some (u "website")) = 3%Z)
  /\ (forall p, p <> Some (u "manual") ->
        type_rank p (Some (u "manual")) = 4%Z)
  /\ (forall p t, p <> Some t -> t <> u "invoice" -> t <> u "website" ->
        t <> u "manual" -> type_rank p (Some t) = 5%Z)
  /\ get_current_price (u "2024-06-01") price_store (u "cement")
       (Some (u "2024-03-15")) None
     = Some (mkPriceRow price_mar (Some (u "invoice")) None)
  /\ get_current_price (u "2024-06-01") price_store (u "cement")
       (Some (u "2024-02-15")) None
     = Some (mkPriceRow price_jan (Some (u "invoice")) None)
  /\ get_current_price (u "2024-06-01") Samples2.price_store_5 (u "cement")
       (Some (u "2024-03-15")) (Some 5%Z)
     = Some (mkPriceRow price_feb (Some (u "manual")) None).
Proof.
  split; [|split; [|split; [|split; [|split; [|split; [|split; [|split;
    [|split; [|split]]]]]]]]].
  - intros float today st material_id calculation_date customer_id day Hday
           preferred candidates rank selected.
    assert (Eday : as_of today calculation_date = day).
    { unfold as_of. destruct Hday as [[-> Ht]|[[->| ->] ->]];
        [rewrite Ht|..]; reflexivity. }
    assert (Hsel : selected = hd_error (order_by (price_order preferred) candidates)).
    { subst selected candidates preferred. unfold get_current_price.
      rewrite Eday. reflexivity. }
    split; [intros r; apply price_candidates_in|].
    assert (Hnone : selected = None <-> candidates = []).
    { rewrite Hsel.
      rewrite <- (order_by_nil (price_order preferred) candidates).
      destruct (order_by (price_order preferred) candidates); simpl;
        split; congruence. }
    split; [exact Hnone|]. split; [|].
    + intros Hfk. rewrite Hnone. split.
      * intros E mp Hmp (Hm & Hd & Ha).
        destruct (Hfk mp Hmp) as (ps & Hps & Hid).
        assert (Hin : In (mkPriceRow mp (ps_type ps) (ps_customer_id ps))
                         candidates).
        { apply price_candidates_in. exists mp, ps. auto 10. }
        rewrite E in Hin. destruct Hin.
      * intros Hno. destruct candidates as [|r l] eqn:E; [reflexivity|].
        assert (Hin : In r candidates) by (rewrite E; left; reflexivity).
        apply price_candidates_in in Hin
          as (mp & ps & Hmp & _ & _ & Hm & Hd & Ha & _).
        exfalso. apply (Hno mp Hmp). auto.
    + intros r Hr. rewrite Hsel in Hr.
      assert (Hin : In r candidates).
      { apply (order_by_in (price_order preferred)).
        destruct (order_by (price_order preferred) candidates); simpl in Hr;
          [discriminate|]. injection Hr as ->. left; reflexivity. }
      split; [exact Hin|]. split.
      * intros c Hc.
        pose proof (@order_by_hd_least _ (price_order preferred)
                      (@price_order_total float preferred)
                      (@price_order_trans float preferred)
                      candidates r Hr c Hc) as Hle.
        unfold price_order in Hle. fold (rank r) (rank c) in Hle.
        apply orb_true_iff in Hle as [Hle|Hle].
        -- left. apply Z.ltb_lt, Hle.
        -- right. apply andb_true_iff in Hle as [He Hd].
           apply Z.eqb_eq in He. auto.
      * apply price_candidates_in in Hin
          as (mp & ps & _ & _ & _ & _ & Hd & _ & ->). exact Hd.
  - intros float today st material_id customer_id.
    unfold get_current_price, as_of. destruct (truthy today); reflexivity.
  - intros float st. split; [reflexivity|]. split; [reflexivity|]. split.
    + intros c Hno. unfold preferred_type_of.
      destruct (ztruthy (Some c)); [|reflexivity].
      rewrite find_absent; [reflexivity|].
      intros k Hk. apply Z.eqb_neq. exact (Hno k Hk).
    + intros c before k after Hc Hst Hk Hb. unfold preferred_type_of.
      cbn [ztruthy]. apply Z.eqb_neq in Hc. rewrite Hc. cbn [negb].
      rewrite Hst, (@find_first _ (fun k0 => (c_id k0 =? c)%Z) before after k);
        [reflexivity| |apply Z.eqb_eq; exact Hk].
      intros x Hx. apply Z.eqb_neq. exact (Hb x Hx).
  - intros t. simpl. rewrite eqb_refl. reflexivity.
  - intros p Hp. simpl. rewrite (ostr_eqb_neq Hp). reflexivity.
  - intros p Hp. simpl. rewrite (ostr_eqb_neq Hp). reflexivity.
  - intros p Hp. simpl. rewrite (ostr_eqb_neq Hp). reflexivity.
  - intros p t Hp H1 H2 H3. simpl. rewrite (ostr_eqb_neq Hp).
    apply eqb_neq in H1, H2, H3.
    rewrite H1, H2, H3. reflexivity.
  - vm_compute. reflexivity.
  - vm_compute. reflexivity.
  - vm_compute. reflexivity.
Qed.

(** The sample prices as of 2024-02-15: the price of March is no
    candidate, and what is selected is dated on or before that day. *)
Lemma get_current_price_sample :
  PyStr.leb (price_date price_jan) (u "2024-02-15") = true
  /\ ~ In (mkPriceRow price_mar (Some (u "invoice")) None)
          (price_candidates price_store (u "cement") (u "2024-02-15")).
Proof.
  destruct (proj1 get_current_price_selects Z (u "2024-06-01") price_store
              (u "cement") (Some (u "2024-02-15")) None (u "2024-02-15")
              (or_introl (conj eq_refl eq_refl)))
    as (Hcand & _ & _ & Hsel).
  split.
  - apply (Hsel (mkPriceRow price_jan (Some (u "invoice")) None)).
    vm_compute. reflexivity.
  - intros Hin. apply Hcand in Hin
      as (mp & ps & _ & _ & _ & _ & Hd & _ & E).
    injection E as <- _ _. vm_compute in Hd. discriminate.
Defined.

End SelectorSpec.

(** ** The resolver *)
Module ResolverFacts.
Import Catalog PyStrFacts Importer Samples.

Lemma filter_narrow (A : Type) (p q : A -> bool) (l : list A) :
  (forall x, p x = true -> q x = true) ->
  filter p (filter q l) = filter p l.
Proof.
  intros Hpq. induction l as [|x t IH]; simpl; [reflexivity|].
  destruct (q x) eqn:Eq; simpl.
  - rewrite IH. reflexivity.
  - destruct (p x) eqn:Ep; [|exact IH].
    apply Hpq in Ep. congruence.
Qed.

Lemma get_material_by_name_some (float : Type) (st : Store float)
  (name unit_ : str) (m : Material float) :
  get_material_by_name st name unit_ = Some m ->
  In m (materials st) /\ exact_match name unit_ m.
Proof.
  unfold get_material_by_name. intros H. apply find_some in H as [Hin H].
  apply andb_true_iff in H as [H Ha]. apply andb_true_iff in H as [Hn Hu].
  apply eqb_eq in Hn, Hu. apply Z.eqb_eq in Ha. split; [assumption|].
  repeat split; assumption.
Qed.

Lemma get_material_by_name_found (float : Type) (st : Store float)
  (name unit_ : str) (m : Material float) :
  In m (materials st) -> exact_match name unit_ m ->
  exists m', get_material_by_name st name unit_ = Some m'.
Proof.
  intros Hin (Hn & Hu & Ha). unfold get_material_by_name.
  match goal with |- context [find ?p ?l] => destruct (find p l) eqn:E end;
    [eauto|].
  apply (find_none _ _ E) in Hin.
  rewrite Hn, Hu, Ha, !eqb_refl in Hin. discriminate.
Qed.

(** The rows of the alias join, whatever the plan. *)
Lemma find_material_by_alias_in (float : Type) (sch : Schema float)
  (st : Store float) (alias : str) (customer_id : option Z)
  (m : Material float) (t : str) :
  In (m, t) (find_material_by_alias sch st alias customer_id) <->
  exists a, In a (material_aliases st) /\ In m (materials st)
            /\ alias_visible alias customer_id a = true
            /\ joins a m = true /\ t = alias_name a.
Proof.
  unfold find_material_by_alias. destruct (alias_join sch);
    rewrite in_flat_map; split.
  - intros (a & Ha & Hm). apply filter_In in Ha as [Ha Hv].
    apply in_map_iff in Hm as (m' & E & Hm). injection E as -> <-.
    apply filter_In in Hm as [Hm Hj]. exists a. auto.
  - intros (a & Ha & Hm & Hv & Hj & ->). exists a. split.
    + apply filter_In; auto.
    + apply in_map_iff. exists m. split; [reflexivity|]. apply filter_In; auto.
  - intros (m' & Hm & Ha). apply in_map_iff in Ha as (a & E & Ha).
    injection E as -> <-. apply filter_In in Ha as [Ha Hv].
    apply andb_true_iff in Hv as [Hv Hj]. exists a. auto.
  - intros (a & Ha & Hm & Hv & Hj & ->). exists m. split; [assumption|].
    apply in_map_iff. exists a. split; [reflexivity|].
    apply filter_In. split; [assumption|]. rewrite Hv, Hj. reflexivity.
Qed.

Lemma alias_visible_scoped (alias : str) (c : Z) (a : Alias) :
  c <> 0%Z ->
  (alias_visible alias (Some c) a = true <->
   alias_name a = alias
   /\ (a_customer_id a = Some c \/ a_customer_id a = None)).
Proof.
  intros Hc. unfold alias_visible, ztruthy.
  destruct (Z.eqb_spec c 0) as [|_]; [contradiction|]. simpl.
  rewrite andb_true_iff, orb_true_iff, eqb_eq.
  destruct (a_customer_id a) as [k|]; simpl.
  - rewrite Z.eqb_eq. split.
    + intros [-> [->|H]]; [auto | discriminate].
    + intros [-> [E|E]]; [injection E as ->; auto | discriminate].
  - split; intros [-> _]; auto.
Qed.

End ResolverFacts.

Module ResolverSpec.
Import Catalog PyStrFacts Importer Samples ResolverFacts.

(** C2.  For a raw name and a unit that are both given (not empty): if an
    active material has the normalised raw name as its canonical name and
    the raw unit, verbatim, as its unit, [_match_material] returns such a
    material, as the row of [materials] itself, and the alias table plays
    no part: any store with the same materials, under any schema, gives the
    same answer. *)
Theorem exact_match_wins (float : Type) (sch : Schema float)
  (st : Store float) (name unit_ : str) (article : option str)
  (customer_id : option Z) (m : Material float) :
  truthy name = true ->
  truthy unit_ = true ->
  In m (materials st) ->
  exact_match (_clean_material_name name) unit_ m ->
  exists m',
    _match_material sch st (Some name) (Some unit_) article customer_id
    = Some (m', None)
    /\ In m' (materials st)
    /\ exact_match (_clean_material_name name) unit_ m'
    /\ get_material_by_name st (_clean_material_name name) unit_ = Some m'
    /\ forall (sch' : Schema float) (st' : Store float),
         materials st' = materials st ->
         _match_material sch' st' (Some name) (Some unit_) article customer_id
         = Some (m', None).
Proof.
  intros Hn Hu Hin Hex.
  destruct (get_material_by_name_found st Hin Hex) as [m' Hm'].
  exists m'. destruct (get_material_by_name_some _ _ _ Hm') as [Hin' Hex'].
  unfold _match_material. rewrite Hn, Hu. simpl. rewrite Hm'.
  repeat split; try assumption; try apply Hex'.
  intros sch' st' Hst. unfold get_material_by_name in *.
  rewrite Hst, Hm'. reflexivity.
Qed.

(** In the sample catalogue the name [Цемент] with unit [кг] has both an
    exact match and aliases; the exact match is returned. *)
Lemma exact_match_wins_sample :
  exists m',
    _match_material (sample_schema AliasesOuter) alias_store
      (Some (u "Цемент")) (Some (u "кг")) None (Some 7%Z)
    = Some (m', None)
    /\ In m' (materials alias_store)
    /\ exact_match (_clean_material_name (u "Цемент")) (u "кг") m'
    /\ get_material_by_name alias_store (_clean_material_name (u "Цемент"))
         (u "кг") = Some m'
    /\ forall (sch' : Schema Z) (st' : Store Z),
         materials st' = materials alias_store ->
         _match_material sch' st' (Some (u "Цемент")) (Some (u "кг")) None
           (Some 7%Z)
         = Some (m', None).
Proof.
  apply (@exact_match_wins Z (sample_schema AliasesOuter) alias_store
           (u "Цемент") (u "кг") None (Some 7%Z) cement).
  - reflexivity.
  - reflexivity.
  - simpl. left. reflexivity.
  - vm_compute. repeat split; reflexivity.
Defined.

(** Refutation of C4 as stated: in the sample catalogue the name [цемент]
    is matched by an alias of customer 7 and by a global alias of another
    active material, and for customer 7 the resolver returns the material of
    the global alias, under either plan of the join. *)
Lemma scoped_alias_not_preferred :
  In alias_of_7 (material_aliases alias_store)
  /\ In alias_global (material_aliases alias_store)
  /\ a_customer_id alias_of_7 = Some 7%Z
  /\ a_customer_id alias_global = None
  /\ alias_name alias_of_7 = _clean_material_name (u "цемент")
  /\ alias_name alias_global = _clean_material_name (u "цемент")
  /\ In sand (materials alias_store) /\ In cement_white (materials alias_store)
  /\ joins alias_of_7 sand = true /\ joins alias_global cement_white = true
  /\ sand <> cement_white
  /\ forall plan,
       _match_material (sample_schema plan) alias_store (Some (u "цемент"))
         None None (Some 7%Z)
       = Some (cement_white, Some (u "цемент"))
       /\ _match_material (sample_schema plan) alias_store (Some (u "цемент"))
            None None (Some 7%Z)
          <> Some (sand, Some (u "цемент")).
Proof.
  repeat match goal with |- _ /\ _ => split end;
    try (simpl; tauto); try reflexivity; try discriminate.
  intros plan; split; destruct plan; vm_compute;
    first [reflexivity | discriminate].
Qed.

(** C4, amended.  In alias lookup with a customer context, where the exact
    lookup gave nothing, the resolver returns the first row that the store
    yields for the normalised name; the rows are those of the aliases with
    that text that are the customer's or global and point at an active
    material, and the scope of an alias gives it no precedence.  When both
    a customer-scoped and a global alias match, a material is returned and
    it is the one of the first row. *)
Theorem alias_match_is_first_row (float : Type) (sch : Schema float)
  (st : Store float) (name : str) (unit_ article : option str) (c : Z)
  (scoped global : Alias) (m1 m2 : Material float) :
  truthy name = true ->
  c <> 0%Z ->
  match unit_ with
  | Some un =>
      truthy un = false
      \/ get_material_by_name st (_clean_material_name name) un = None
  | None => True
  end ->
  In scoped (material_aliases st) -> In global (material_aliases st) ->
  alias_name scoped = _clean_material_name name ->
  alias_name global = _clean_material_name name ->
  a_customer_id scoped = Some c -> a_customer_id global = None ->
  In m1 (materials st) -> In m2 (materials st) ->
  joins scoped m1 = true -> joins global m2 = true ->
  let yielded :=
    find_material_by_alias sch st (_clean_material_name name) (Some c) in
  (forall m t, In (m, t) yielded <->
     exists a, In a (material_aliases st) /\ In m (materials st)
               /\ alias_name a = _clean_material_name name
               /\ (a_customer_id a = Some c \/ a_customer_id a = None)
               /\ m_id m = a_material_id a /\ active m = 1%Z
               /\ t = alias_name a)
  /\ In (m1, alias_name scoped) yielded
  /\ In (m2, alias_name global) yielded
  /\ exists m t rest,
       yielded = (m, t) :: rest
       /\ _match_material sch st (Some name) unit_ article (Some c)
          = Some (m, Some t).
Proof.
  intros Hn Hc Hex Hs Hg Hsn Hgn Hsc Hgc Hm1 Hm2 Hj1 Hj2 yielded.
  assert (Hrows : forall m t, In (m, t) yielded <->
     exists a, In a (material_aliases st) /\ In m (materials st)
               /\ alias_name a = _clean_material_name name
               /\ (a_customer_id a = Some c \/ a_customer_id a = None)
               /\ m_id m = a_material_id a /\ active m = 1%Z
               /\ t = alias_name a).
  { intros m t. unfold yielded. rewrite find_material_by_alias_in.
    split; intros (a & Ha & Hm & H).
    - destruct H as (Hv & Hj & ->). apply (alias_visible_scoped _ _ Hc) in Hv.
      unfold joins in Hj. apply andb_true_iff in Hj as [Hid Hact].
      apply eqb_eq in Hid. apply Z.eqb_eq in Hact.
      exists a. intuition.
    - destruct H as (Hna & Hsc' & Hid & Hact & ->).
      exists a. repeat split; try assumption.
      + apply (alias_visible_scoped _ _ Hc). auto.
      + unfold joins. rewrite Hid, eqb_refl, Hact. reflexivity. }
  assert (H1 : In (m1, alias_name scoped) yielded).
  { apply Hrows. exists scoped. unfold joins in Hj1.
    apply andb_true_iff in Hj1 as [Hid Hact].
    apply eqb_eq in Hid. apply Z.eqb_eq in Hact. intuition. }
  assert (H2 : In (m2, alias_name global) yielded).
  { apply Hrows. exists global. unfold joins in Hj2.
    apply andb_true_iff in Hj2 as [Hid Hact].
    apply eqb_eq in Hid. apply Z.eqb_eq in Hact. intuition. }
  repeat split; try assumption; try (apply Hrows).
  destruct yielded as [|[m t] rest] eqn:Ey; [destruct H1|].
  exists m, t, rest. split; [reflexivity|].
  unfold _match_material. rewrite Hn. simpl.
  assert (Hnone : match unit_ with
                  | Some un =>
                      if truthy un
                      then get_material_by_name st (_clean_material_name name) un
                      else None
                  | None => None
                  end = None).
  { destruct unit_ as [un|]; [|reflexivity].
    destruct Hex as [Hex|Hex]; [rewrite Hex; reflexivity|].
    rewrite Hex. destruct (truthy un); reflexivity. }
  rewrite Hnone. unfold yielded in Ey. rewrite Ey. reflexivity.
Qed.

(** The hypotheses of the amended C4 hold in the sample catalogue. *)
Lemma alias_match_is_first_row_sample :
  exists m t rest,
    find_material_by_alias (sample_schema AliasesOuter) alias_store
      (_clean_material_name (u "цемент")) (Some 7%Z) = (m, t) :: rest
    /\ _match_material (sample_schema AliasesOuter) alias_store
         (Some (u "цемент")) None None (Some 7%Z) = Some (m, Some t).
Proof.
  apply (@alias_match_is_first_row Z (sample_schema AliasesOuter)
           alias_store (u "цемент") None None 7%Z alias_of_7 alias_global
           sand cement_white).
  - reflexivity.
  - discriminate.
  - exact I.
  - simpl; tauto.
  - simpl; tauto.
  - reflexivity.
  - reflexivity.
  - reflexivity.
  - reflexivity.
  - simpl; tauto.
  - simpl; tauto.
  - reflexivity.
  - reflexivity.
Defined.

End ResolverSpec.

Module ScopingSpec.
Import Catalog PyStrFacts Importer Samples ResolverFacts.

(** An alias scoped to [a]. *)
Lemma not_of_visible (alias : str) (a b : Z) (al : Alias) :
  b <> 0%Z -> a <> b ->
  alias_visible alias (Some b) al = true ->
  negb (oZ_eqb (a_customer_id al) a) = true.
Proof.
  intros Hb Hab Hv. apply (alias_visible_scoped _ _ Hb) in Hv as [_ [E|E]];
    rewrite E; simpl; [|reflexivity].
  destruct (Z.eqb_spec b a); [congruence | reflexivity].
Qed.

(** C5.  Alias lookups are isolated across customers.  For distinct
    customers [a] and [b], a lookup in the context of [b] never yields a
    row through an alias scoped to [a]; two stores with the same materials
    whose alias tables differ only in the aliases scoped to [a] give the
    same result for [b]; and when every alias with the looked-up text is
    scoped to [a], so that no global alias exists for it, the lookup for
    [b] finds nothing. *)
Theorem alias_lookup_isolated (float : Type) (sch : Schema float)
  (st1 st2 : Store float) (alias : str) (a b : Z) :
  b <> 0%Z ->
  a <> b ->
  materials st1 = materials st2 ->
  filter (fun al => negb (oZ_eqb (a_customer_id al) a)) (material_aliases st1)
  = filter (fun al => negb (oZ_eqb (a_customer_id al) a)) (material_aliases st2) ->
  find_material_by_alias sch st1 alias (Some b)
  = find_material_by_alias sch st2 alias (Some b)
  /\ (forall m t,
        In (m, t) (find_material_by_alias sch st1 alias (Some b)) ->
        exists al, In al (material_aliases st1)
                   /\ a_customer_id al <> Some a
                   /\ alias_name al = alias /\ t = alias_name al
                   /\ m_id m = a_material_id al)
  /\ ((forall al, In al (material_aliases st1) -> alias_name al = alias ->
         a_customer_id al = Some a) ->
      find_material_by_alias sch st1 alias (Some b) = []).
Proof.
  intros Hb Hab Hm Ha.
  set (notA := fun al : Alias => negb (oZ_eqb (a_customer_id al) a)) in *.
  assert (Hvis : forall al, alias_visible alias (Some b) al = true ->
                            notA al = true)
    by (intros al; apply not_of_visible; assumption).
  split; [|split].
  - unfold find_material_by_alias. destruct (alias_join sch).
    + rewrite <- (filter_narrow _ notA (material_aliases st1) Hvis).
      rewrite <- (filter_narrow _ notA (material_aliases st2) Hvis).
      rewrite Ha, Hm. reflexivity.
    + rewrite Hm. apply flat_map_ext. intros m. f_equal.
      assert (Hvis' : forall al,
                 alias_visible alias (Some b) al && joins al m = true ->
                 notA al = true).
      { intros al H. apply andb_true_iff in H as [H _]. auto. }
      rewrite <- (filter_narrow _ notA (material_aliases st1) Hvis').
      rewrite <- (filter_narrow _ notA (material_aliases st2) Hvis').
      rewrite Ha. reflexivity.
  - intros m t Hin. apply find_material_by_alias_in in Hin
      as (al & Hal & _ & Hv & Hj & ->).
    exists al. pose proof (Hvis al Hv) as Hn.
    apply (alias_visible_scoped _ _ Hb) in Hv as [Hname _].
    unfold joins in Hj. apply andb_true_iff in Hj as [Hid _].
    apply eqb_eq in Hid. repeat split; try assumption.
    intros E. unfold notA in Hn. rewrite E in Hn. simpl in Hn.
    rewrite Z.eqb_refl in Hn. discriminate.
  - intros Hall.
    destruct (find_material_by_alias sch st1 alias (Some b))
      as [|[m t] rest] eqn:E; [reflexivity|].
    assert (Hin : In (m, t) (find_material_by_alias sch st1 alias (Some b)))
      by (rewrite E; left; reflexivity).
    apply find_material_by_alias_in in Hin as (al & Hal & _ & Hv & _ & _).
    pose proof (Hvis al Hv) as Hn.
    apply (alias_visible_scoped _ _ Hb) in Hv as [Hname _].
    unfold notA in Hn. rewrite (Hall al Hal Hname) in Hn. simpl in Hn.
    rewrite Z.eqb_refl in Hn. discriminate.
Qed.

(** The sample catalogue with and without the alias of customer 7, looked
    up for customer 8. *)
Lemma alias_lookup_isolated_sample :
  find_material_by_alias (sample_schema MaterialsOuter) alias_store
    (u "цемент") (Some 8%Z)
  = find_material_by_alias (sample_schema MaterialsOuter) alias_store_without_7
      (u "цемент") (Some 8%Z).
Proof.
  apply (@alias_lookup_isolated Z (sample_schema MaterialsOuter) alias_store
           alias_store_without_7 (u "цемент") 7%Z 8%Z).
  - discriminate.
  - discriminate.
  - reflexivity.
  - reflexivity.
Defined.

End ScopingSpec.

(** ** Column detection *)
Module ColumnSpec.
Import Catalog Py PyStrFacts Importer Re.

Lemma find_append (A : Type) (p : A -> bool) (l1 l2 : list A) :
  find p (l1 ++ l2)
  = match find p l1 with Some x => Some x | None => find p l2 end.
Proof.
  induction l1 as [|x t IH]; simpl; [reflexivity|].
  destruct (p x); [reflexivity | exact IH].
Qed.

Lemma detect_column_field (mapping : ColumnMapping) (col : str) (f : Field) :
  column_of (detect_column mapping col) f
  = if detects f col then Some col else column_of mapping f.
Proof.
  unfold detects, field_of, detect_column. cbn [find patterns_of].
  destruct (any_search name_patterns (strip (lower col)));
    [destruct f; reflexivity|].
  destruct (any_search price_patterns (strip (lower col)));
    [destruct f; reflexivity|].
  destruct (any_search unit_patterns (strip (lower col)));
    [destruct f; reflexivity|].
  destruct (any_search article_patterns (strip (lower col)));
    destruct f; reflexivity.
Qed.

Lemma detect_columns_from (columns : list str) (mapping : ColumnMapping)
  (f : Field) :
  column_of (fold_left detect_column columns mapping) f
  = match find (detects f) (rev columns) with
    | Some col => Some col
    | None => column_of mapping f
    end.
Proof.
  revert mapping; induction columns as [|c t IH]; intros mapping; simpl;
    [reflexivity|].
  rewrite IH, find_append. destruct (find (detects f) (rev t)); [reflexivity|].
  simpl. rewrite detect_column_field. destruct (detects f c); reflexivity.
Qed.

(** *** Labels *)

Lemma detect_labels_raise (columns : list label) (e : exn) :
  fold_left detect_label columns (Raise e) = Raise e.
Proof. induction columns as [|c t IH]; simpl; [reflexivity | exact IH]. Qed.

Lemma detect_labels_text (columns : list str) (mapping : ColumnMapping) :
  fold_left detect_label (map LText columns) (Ok mapping)
  = Ok (fold_left detect_column columns mapping).
Proof.
  revert mapping; induction columns as [|c t IH]; intros mapping; simpl;
    [reflexivity | apply IH].
Qed.

(** Header detection returns exactly when every label is a text, and it
    then returns what the loop over the texts leaves. *)
Lemma detect_columns_ok (columns : list label) (mapping : ColumnMapping) :
  _detect_columns columns = Ok mapping <->
  exists texts,
    columns = map LText texts
    /\ mapping = fold_left detect_column texts
                   (mkColumnMapping None None None None).
Proof.
  unfold _detect_columns.
  generalize (mkColumnMapping None None None None) as m0.
  induction columns as [|c t IH]; intros m0; simpl.
  - split.
    + intros E. injection E as <-. exists []. split; reflexivity.
    + intros (texts & E & ->). destruct texts; [reflexivity|discriminate].
  - destruct c as [x|].
    + rewrite IH. split.
      * intros (texts & -> & ->). exists (x :: texts). split; reflexivity.
      * intros (texts & E & ->). destruct texts as [|y l]; [discriminate|].
        injection E as -> ->. exists l. split; reflexivity.
    + rewrite detect_labels_raise. split; [discriminate|].
      intros (texts & E & _). destruct texts; discriminate.
Qed.

Lemma detect_columns_raise (columns : list label) (e : exn) :
  _detect_columns columns = Raise e <->
  e = AttributeError /\ In LOther columns.
Proof.
  unfold _detect_columns.
  generalize (mkColumnMapping None None None None) as m0.
  induction columns as [|c t IH]; intros m0; simpl.
  - split; [discriminate | intros [_ []]].
  - destruct c as [x|].
    + rewrite IH. split; intros [-> H]; split; auto.
      destruct H as [H|H]; [discriminate | exact H].
    + rewrite detect_labels_raise. split.
      * intros E. injection E as <-. auto.
      * intros [-> _]. reflexivity.
Qed.

(** Refutation of C6 as stated: the third header of the sample row holds
    the word for material, so it is taken for the name and replaces the
    first column there, and no column is left for the price; and with two
    name headers the later one replaces the earlier. *)
Lemma later_column_overwrites :
  _detect_columns [LText (u "Материал"); LText (u "Единица измерения");
                   LText (u "Цена материала, за единицу")]
  = Ok (mkColumnMapping (Some (u "Цена материала, за единицу"))
                        None (Some (u "Единица измерения")) None)
  /\ _detect_columns [LText (u "Материал"); LText (u "Единица измерения");
                      LText (u "Цена материала, за единицу")]
     <> Ok (mkColumnMapping (Some (u "Материал"))
                            (Some (u "Цена материала, за единицу"))
                            (Some (u "Единица измерения")) None)
  /\ _detect_columns [LText (u "Материал"); LText (u "Наименование")]
     = Ok (mkColumnMapping (Some (u "Наименование")) None None None).
Proof.
  split; [|split].
  - vm_compute. reflexivity.
  - vm_compute. discriminate.
  - vm_compute. reflexivity.
Qed.

(** C6, amended.  Column detection assigns each header column to the first
    logical field in the order name, price, unit, article whose pattern set
    matches the lowercased, trimmed header, and to that field only; a later
    column that is assigned a field replaces the column assigned to it
    before, so that each field ends with the last column detected for it,
    or with none.  That is what the detection returns for headers that are
    all texts; a header that is no text makes it raise.  The sample header
    row maps to name: column 3, unit: column 2, with no price and no
    article entry. *)
Theorem detect_columns_last_wins :
  (forall (mapping : ColumnMapping) (col : str) (f : Field),
      column_of (detect_column mapping col) f
      = if detects f col then Some col else column_of mapping f)
  /\ (forall (col : str) (f g : Field),
        detects f col = true -> detects g col = true -> f = g)
  /\ (forall (columns : list str),
        exists mapping,
          _detect_columns (map LText columns) = Ok mapping
          /\ forall f : Field,
               column_of mapping f = find (detects f) (rev columns))
  /\ (forall (columns : list label),
        In LOther columns -> _detect_columns columns = Raise AttributeError)
  /\ _detect_columns [LText (u "Материал"); LText (u "Единица измерения");
                      LText (u "Цена материала, за единицу")]
     = Ok (mkColumnMapping (Some (u "Цена материала, за единицу"))
                           None (Some (u "Единица измерения")) None).
Proof.
  split; [exact detect_column_field|]. split; [|split; [|split]].
  - intros col f g. unfold detects. destruct (field_of col) as [h|];
      [|discriminate].
    destruct h, f, g; simpl; congruence.
  - intros columns. eexists. split.
    + unfold _detect_columns. apply detect_labels_text.
    + intros f. rewrite detect_columns_from.
      destruct (find (detects f) (rev columns)); [reflexivity|].
      destruct f; reflexivity.
  - intros columns H. apply detect_columns_raise. auto.
  - vm_compute. reflexivity.
Qed.

(** A header row whose second label is a number. *)
Lemma detect_columns_sample :
  _detect_columns [LText (u "Материал"); LOther] = Raise AttributeError.
Proof.
  apply (proj1 (proj2 (proj2 (proj2 detect_columns_last_wins)))).
  right. left. reflexivity.
Defined.

End ColumnSpec.

(** ** What a computation leaves untouched *)
Module KeepsFacts.
Import Py Py.Notations.

Section Keeps.
Variables S X : Type.
Variable view : S -> X.

Lemma keeps_ret (A : Type) (a : A) : keeps view (ret (S:=S) a).
Proof. intros s. reflexivity. Qed.

Lemma keeps_raise (A : Type) (e : exn) : keeps view (raise (S:=S) (A:=A) e).
Proof. intros s. reflexivity. Qed.

Lemma keeps_gets (A : Type) (f : S -> A) : keeps view (gets f).
Proof. intros s. reflexivity. Qed.

Lemma keeps_bind (A B : Type) (c : M S A) (k : A -> M S B) :
  keeps view c -> (forall a, keeps view (k a)) -> keeps view (bind c k).
Proof.
  intros Hc Hk s. unfold bind. specialize (Hc s).
  destruct (c s) as [[a|e] s']; simpl in *; [|exact Hc].
  rewrite (Hk a s'). exact Hc.
Qed.

Lemma keeps_try (A : Type) (c : M S A) (h : exn -> M S A) :
  keeps view c -> (forall e, keeps view (h e)) -> keeps view (try_except c h).
Proof.
  intros Hc Hh s. unfold try_except. specialize (Hc s).
  destruct (c s) as [[a|e] s']; simpl in *; [exact Hc|].
  rewrite (Hh e s'). exact Hc.
Qed.

Lemma keeps_modify (f : S -> S) :
  (forall s, view (f s) = view s) -> keeps view (modify f).
Proof. intros H s. apply H. Qed.
End Keeps.

Lemma keeps_on_fst (S T A X : Type) (view : S -> X) (c : M S A) :
  keeps view c -> keeps (fun st : S * T => view (fst st)) (on_fst c).
Proof.
  intros H st. unfold on_fst. specialize (H (fst st)).
  destruct (c (fst st)) as [r s']. exact H.
Qed.

Lemma keeps_on_snd (S T A X : Type) (view : S -> X) (c : M T A) :
  keeps (fun st : S * T => view (fst st)) (on_snd c).
Proof.
  intros st. unfold on_snd. destruct (c (snd st)) as [r t']. reflexivity.
Qed.

End KeepsFacts.

(** ** The import loop *)
Module ImportFacts.
Import Catalog Py Py.Notations Db Importer PyStrFacts KeepsFacts.

Section Loop.
Variable float : Type.
Variable w : World float.
Variable sch : Schema float.
Variable X : Type.
Variable view : Store float -> X.

(** A view that no insert into the tables of prices, sources, sessions and
    unmatched lines changes. *)
Hypothesis view_prices :
  forall st l, view (set_material_prices st l) = view st.
Hypothesis view_sources :
  forall st l, view (set_price_sources st l) = view st.
Hypothesis view_sessions :
  forall st l, view (set_import_sessions st l) = view st.
Hypothesis view_unmatched :
  forall st l, view (set_unmatched_imports st l) = view st.

Lemma keeps_insert (row : Insert float) (id : Z)
  (put : Store float -> Store float) :
  (forall st, view (put st) = view st) -> keeps view (insert sch row id put).
Proof.
  intros H st. unfold insert. destruct (accepts sch st row); simpl; auto.
Qed.

Lemma keeps_add_material_price material_id price_ price_date_ source_id_ :
  keeps view (add_material_price sch material_id price_ price_date_ source_id_).
Proof.
  intros st. unfold add_material_price.
  apply keeps_insert. intros st'. apply view_prices.
Qed.

Lemma keeps_add_unmatched_import session_id raw_name_ raw_price_ raw_unit_
  raw_article_ :
  keeps view (add_unmatched_import sch session_id raw_name_ raw_price_
                raw_unit_ raw_article_).
Proof.
  intros st. unfold add_unmatched_import.
  apply keeps_insert. intros st'. apply view_unmatched.
Qed.

Lemma keeps_add_price_source type_ name customer_id vendor_id doc_date_ meta_ :
  keeps view (add_price_source sch type_ name customer_id vendor_id doc_date_
                meta_).
Proof.
  intros st. unfold add_price_source.
  apply keeps_insert. intros st'. apply view_sources.
Qed.

Lemma keeps_create_import_session source_file customer_id vendor_id :
  keeps view (create_import_session sch source_file customer_id vendor_id).
Proof.
  intros st. unfold create_import_session.
  apply keeps_insert. intros st'. apply view_sessions.
Qed.

Lemma keeps_update_import_session session_id status_ processed_rows_
  error_rows_ :
  keeps view (update_import_session (float:=float) session_id status_
                processed_rows_ error_rows_).
Proof. apply keeps_modify. intros st. apply view_sessions. Qed.

Lemma keeps_add_alias material_id alias customer_id source :
  keeps view (_add_alias_if_not_exists sch material_id alias customer_id source).
Proof.
  unfold _add_alias_if_not_exists. apply keeps_bind; [apply keeps_gets|].
  intros [|? ?]; apply keeps_ret.
Qed.

Lemma keeps_row_body cols column_mapping source_id session_id customer_id row :
  keeps (fun s : Store float * Tally float => view (fst s))
        (row_body w sch cols column_mapping source_id session_id customer_id
                  row).
Proof.
  unfold row_body.
  destruct (_extract_material_data w cols row column_mapping) as [md|e];
    [|apply keeps_raise].
  destruct (md_name md) as [name|]; [|apply keeps_on_snd].
  destruct (negb (truthy name)); [apply keeps_on_snd|].
  apply keeps_bind; [apply keeps_on_fst, keeps_gets|].
  intros [[m a]|].
  - apply keeps_bind; [apply keeps_on_fst, keeps_add_material_price|].
    intros _. apply keeps_bind; [apply keeps_on_snd|]. intros _.
    destruct (negb (PyStr.eqb name (name_canonical m)));
      [apply keeps_on_fst, keeps_add_alias | apply keeps_ret].
  - apply keeps_bind; [apply keeps_on_fst, keeps_add_unmatched_import|].
    intros _. apply keeps_bind; [apply keeps_on_snd|]. intros _.
    apply keeps_on_snd.
Qed.

Lemma keeps_row_step cols column_mapping source_id session_id customer_id row :
  keeps (fun s : Store float * Tally float => view (fst s))
        (row_step w sch cols column_mapping source_id session_id customer_id
                  row).
Proof.
  unfold row_step. apply keeps_try; [apply keeps_row_body|].
  intros _. apply keeps_on_snd.
Qed.

Lemma keeps_rows_loop cols column_mapping source_id session_id customer_id rs :
  keeps (fun s : Store float * Tally float => view (fst s))
        (rows_loop w sch cols column_mapping source_id session_id customer_id
                   rs).
Proof.
  induction rs as [|row rest IH]; simpl; [apply keeps_ret|].
  apply keeps_bind; [apply keeps_row_step | intros _; exact IH].
Qed.

Lemma keeps_process_dataframe df source_id session_id customer_id :
  keeps view (_process_dataframe w sch df source_id session_id customer_id).
Proof.
  intros st. unfold _process_dataframe.
  destruct (_detect_columns (columns df)) as [column_mapping|e];
    [|reflexivity].
  pose proof (keeps_rows_loop (columns df) column_mapping
                source_id session_id customer_id (rows df)
                (st, mkTally 0 0 [])) as H.
  destruct (rows_loop _ _ _ _ _ _ _ _ _) as [[[]|e] [st' t]]; exact H.
Qed.

Lemma keeps_import_from_file file_path customer_id vendor_id doc_date_ :
  keeps view (import_from_file w sch file_path customer_id vendor_id doc_date_).
Proof.
  unfold import_from_file.
  destruct (negb (path_exists w file_path)); [apply keeps_raise|].
  apply keeps_bind; [apply keeps_create_import_session|]. intros session_id.
  apply keeps_try.
  - apply keeps_bind; [intros st; reflexivity|]. intros df.
    apply keeps_bind; [apply keeps_add_price_source|]. intros source_id.
    apply keeps_bind; [apply keeps_process_dataframe|]. intros results.
    apply keeps_bind; [apply keeps_update_import_session|]. intros _.
    apply keeps_ret.
  - intros e. apply keeps_bind; [apply keeps_update_import_session|].
    intros _. apply keeps_raise.
Qed.

End Loop.

End ImportFacts.

Module ImportSteps.
Import Catalog Py Py.Notations Db Importer PyStrFacts KeepsFacts ImportFacts.

Section Steps.
Variable float : Type.
Variable w : World float.
Variable sch : Schema float.
Variables (cols : list label) (column_mapping : ColumnMapping).
Variables (source_id session_id : Z) (customer_id : option Z).
Variable row : list (cell float).

Let step := row_step w sch cols column_mapping source_id session_id
                     customer_id row.

(** A line whose extraction raises is counted as an error. *)
Lemma row_step_raises (e : exn) (st : Store float) (t : Tally float) :
  _extract_material_data w cols row column_mapping = Raise e ->
  step (st, t) = (Ok tt, (st, error_counted t)).
Proof.
  intros He. unfold step, row_step, row_body, try_except. rewrite He.
  reflexivity.
Qed.

Section Extracted.
Variable md : MaterialData float.
Hypothesis extracted :
  _extract_material_data w cols row column_mapping = Ok md.

(** A line without a name is counted as an error. *)
Lemma row_step_nameless (st : Store float) (t : Tally float) :
  otruthy (md_name md) = false ->
  step (st, t) = (Ok tt, (st, error_counted t)).
Proof.
  unfold step, row_step, row_body, try_except. rewrite extracted.
  destruct (md_name md) as [name|]; simpl; [|reflexivity].
  intros ->. reflexivity.
Qed.

(** A matched line whose price the schema lets in. *)
Lemma row_step_priced (st : Store float) (t : Tally float) (name : str)
  (m : Material float) (a : option str) :
  md_name md = Some name -> truthy name = true ->
  _match_material sch st (md_name md) (md_unit md) (md_article md) customer_id
  = Some (m, a) ->
  accepts sch st (InsPrice (imported_price w st source_id m md)) = true ->
  step (st, t)
  = (Ok tt,
     (set_material_prices st
        (material_prices st ++ [imported_price w st source_id m md]),
      mkTally (processed t + 1) (errors t) (unmatched t))).
Proof.
  intros Hname Htr Hmatch Hacc.
  unfold step, row_step, row_body, try_except. rewrite extracted.
  rewrite Hname, Htr. cbn [negb]. unfold bind at 1.
  unfold on_fst at 1, gets. cbn [fst snd]. rewrite <- Hname, Hmatch.
  unfold bind at 1. unfold on_fst at 1, add_material_price, insert.
  cbn [fst snd]. unfold imported_price in Hacc. rewrite Hacc.
  unfold bind at 1. unfold on_snd at 1, incr_processed, modify. cbn [fst snd].
  destruct (negb (PyStr.eqb name (name_canonical m))); [|reflexivity].
  unfold on_fst, _add_alias_if_not_exists, bind, gets. cbn [fst snd].
  destruct (find_material_by_alias _ _ _ _); reflexivity.
Qed.

(** A matched line whose price the schema rejects. *)
Lemma row_step_rejected (st : Store float) (t : Tally float) (name : str)
  (m : Material float) (a : option str) :
  md_name md = Some name -> truthy name = true ->
  _match_material sch st (md_name md) (md_unit md) (md_article md) customer_id
  = Some (m, a) ->
  accepts sch st (InsPrice (imported_price w st source_id m md)) = false ->
  step (st, t) = (Ok tt, (st, error_counted t)).
Proof.
  intros Hname Htr Hmatch Hacc.
  unfold step, row_step, row_body, try_except. rewrite extracted.
  rewrite Hname, Htr. cbn [negb]. unfold bind at 1.
  unfold on_fst at 1, gets. cbn [fst snd]. rewrite <- Hname, Hmatch.
  unfold bind at 1. unfold on_fst at 1, add_material_price, insert.
  cbn [fst snd]. unfold imported_price in Hacc. rewrite Hacc. reflexivity.
Qed.

(** An unmatched line that the schema lets into [unmatched_imports]. *)
Lemma row_step_unmatched (st : Store float) (t : Tally float) (name : str) :
  md_name md = Some name -> truthy name = true ->
  _match_material sch st (md_name md) (md_unit md) (md_article md) customer_id
  = None ->
  accepts sch st (InsUnmatched (unmatched_row sch st session_id name md))
  = true ->
  step (st, t)
  = (Ok tt,
     (set_unmatched_imports st
        (unmatched_imports st ++ [unmatched_row sch st session_id name md]),
      mkTally (processed t) (errors t + 1) (unmatched t ++ [md]))).
Proof.
  intros Hname Htr Hmatch Hacc.
  unfold step, row_step, row_body, try_except. rewrite extracted.
  rewrite Hname, Htr. cbn [negb]. unfold bind at 1.
  unfold on_fst at 1, gets. cbn [fst snd]. rewrite <- Hname, Hmatch.
  unfold bind at 1. unfold on_fst at 1, add_unmatched_import, insert.
  cbn [fst snd]. unfold unmatched_row in Hacc. rewrite Hacc. reflexivity.
Qed.

(** An unmatched line that the schema rejects. *)
Lemma row_step_unmatched_rejected (st : Store float) (t : Tally float)
  (name : str) :
  md_name md = Some name -> truthy name = true ->
  _match_material sch st (md_name md) (md_unit md) (md_article md) customer_id
  = None ->
  accepts sch st (InsUnmatched (unmatched_row sch st session_id name md))
  = false ->
  step (st, t) = (Ok tt, (st, error_counted t)).
Proof.
  intros Hname Htr Hmatch Hacc.
  unfold step, row_step, row_body, try_except. rewrite extracted.
  rewrite Hname, Htr. cbn [negb]. unfold bind at 1.
  unfold on_fst at 1, gets. cbn [fst snd]. rewrite <- Hname, Hmatch.
  unfold bind at 1. unfold on_fst at 1, add_unmatched_import, insert.
  cbn [fst snd]. unfold unmatched_row in Hacc. rewrite Hacc. reflexivity.
Qed.

End Extracted.

Lemma row_step_turn (st : Store float) (t : Tally float) :
  exists s',
    step (st, t) = (Ok tt, s')
    /\ turn w sch cols column_mapping source_id session_id customer_id row
            st t s'.
Proof.
  destruct (_extract_material_data w cols row column_mapping) as [md|e]
    eqn:Hmd.
  2:{ eexists. split; [apply (row_step_raises st t Hmd) | constructor]. }
  destruct (otruthy (md_name md)) eqn:Hn.
  2:{ eexists. split; [apply (row_step_nameless Hmd st t Hn) | constructor]. }
  destruct (md_name md) as [name|] eqn:Hname; [|discriminate]. simpl in Hn.
  destruct (_match_material sch st (md_name md) (md_unit md) (md_article md)
              customer_id) as [[m a]|] eqn:Hmatch.
  - destruct (accepts sch st (InsPrice (imported_price w st source_id m md)))
      eqn:Hacc.
    + eexists. split.
      * apply (row_step_priced Hmd st t Hname Hn Hmatch Hacc).
      * apply (@turn_priced _ w sch cols column_mapping source_id session_id
                 customer_id row st t md name m a Hmd Hname Hn Hmatch Hacc).
    + eexists. split; [|constructor].
      apply (row_step_rejected Hmd st t Hname Hn Hmatch Hacc).
  - destruct (accepts sch st
                (InsUnmatched (unmatched_row sch st session_id name md)))
      eqn:Hacc.
    + eexists. split.
      * apply (row_step_unmatched Hmd st t Hname Hn Hmatch Hacc).
      * apply (@turn_unmatched _ w sch cols column_mapping source_id session_id
                 customer_id row st t md name Hmd Hname Hn Hmatch Hacc).
    + eexists. split; [|constructor].
      apply (row_step_unmatched_rejected Hmd st t Hname Hn Hmatch Hacc).
Qed.

(** Every turn of the loop returns, and counts its line once: as processed
    or as an error. *)
Lemma row_step_counts (st : Store float) (t : Tally float) :
  exists st' t',
    step (st, t) = (Ok tt, (st', t'))
    /\ (processed t' + errors t' = processed t + errors t + 1)%Z.
Proof.
  destruct (row_step_turn st t) as ([st' t'] & Hstep & Hturn).
  exists st', t'. split; [exact Hstep|].
  inversion Hturn; subst; simpl; lia.
Qed.

End Steps.

End ImportSteps.

Module ImportLoop.
Import Catalog Py Py.Notations Db Importer PyStrFacts KeepsFacts ImportFacts
       ImportSteps.

Lemma match_material_catalogue (float : Type) (sch : Schema float)
  (st1 st2 : Store float) name unit_ article customer_id :
  catalogue st1 = catalogue st2 ->
  _match_material sch st1 name unit_ article customer_id
  = _match_material sch st2 name unit_ article customer_id.
Proof.
  unfold catalogue. intros E. injection E as Hm Ha.
  unfold _match_material, get_material_by_name, find_material_by_alias.
  rewrite Hm, Ha. reflexivity.
Qed.

Lemma next_id_above (ids : list Z) (z : Z) : In z ids -> (z < next_id ids)%Z.
Proof.
  unfold next_id. induction ids as [|x t IH]; simpl; [tauto|].
  intros [->|H]; [lia|]. specialize (IH H). lia.
Qed.

Section Batch.
Variable float : Type.
Variable w : World float.
Variable sch : Schema float.
Variables (cols : list label) (column_mapping : ColumnMapping).
Variables (source_id session_id : Z) (customer_id : option Z).

Let loop := rows_loop w sch cols column_mapping source_id session_id
                      customer_id.

(** The loop returns, and its two counters account for every line. *)
Lemma rows_loop_counts (rs : list (list (cell float))) (st : Store float)
  (t : Tally float) :
  exists st' t',
    loop rs (st, t) = (Ok tt, (st', t'))
    /\ (processed t' + errors t'
        = processed t + errors t + Z.of_nat (length rs))%Z.
Proof.
  revert st t; induction rs as [|row rest IH]; intros st t.
  - exists st, t. split; [reflexivity|]. simpl. lia.
  - destruct (row_step_counts w sch cols column_mapping
                source_id session_id customer_id row st t)
      as (st1 & t1 & Hstep & Hc).
    destruct (IH st1 t1) as (st' & t' & Hloop & Hc').
    exists st', t'. split.
    + unfold loop. simpl. unfold bind. rewrite Hstep. exact Hloop.
    + rewrite Hc', Hc. simpl length. lia.
Qed.


Lemma rows_loop_app (rs1 rs2 : list (list (cell float)))
  (s : Store float * Tally float) :
  loop (rs1 ++ rs2) s
  = match loop rs1 s with
    | (Ok _, s') => loop rs2 s'
    | (Raise e, s') => (Raise e, s')
    end.
Proof.
  revert s; induction rs1 as [|row rest IH]; intros s; [reflexivity|].
  unfold loop in *. simpl. unfold bind.
  destruct (row_step _ _ _ _ _ _ _ _ s) as [[[]|e] s1]; [apply IH|reflexivity].
Qed.

Lemma grows_refl (s : Store float * Tally float) : grows s s.
Proof.
  repeat split; try (exists []; rewrite app_nil_r; reflexivity). lia.
Qed.

Lemma grows_trans (s1 s2 s3 : Store float * Tally float) :
  grows s1 s2 -> grows s2 s3 -> grows s1 s3.
Proof.
  intros (Hc & [l1 Hu] & [m1 Ht] & He) (Hc' & [l2 Hu'] & [m2 Ht'] & He').
  repeat split.
  - congruence.
  - exists (l1 ++ l2). rewrite Hu', Hu, app_assoc. reflexivity.
  - exists (m1 ++ m2). rewrite Ht', Ht, app_assoc. reflexivity.
  - lia.
Qed.

Lemma row_step_grows (row : list (cell float)) (st : Store float)
  (t : Tally float) :
  exists s',
    row_step w sch cols column_mapping source_id session_id customer_id row
             (st, t) = (Ok tt, s')
    /\ grows (st, t) s'.
Proof.
  destruct (row_step_turn w sch cols column_mapping source_id session_id
              customer_id row st t) as (s' & Hstep & Hturn).
  exists s'. split; [exact Hstep|].
  inversion Hturn; subst;
    repeat split; try (exists []; rewrite app_nil_r; reflexivity);
    try (eexists; reflexivity); simpl; lia.
Qed.

Lemma rows_loop_grows (rs : list (list (cell float)))
  (s : Store float * Tally float) :
  exists s', loop rs s = (Ok tt, s') /\ grows s s'.
Proof.
  revert s; induction rs as [|row rest IH]; intros s.
  - exists s. split; [reflexivity | apply grows_refl].
  - destruct s as [st t].
    destruct (row_step_grows row st t) as (s1 & Hstep & Hg1).
    destruct (IH s1) as (s2 & Hloop & Hg2).
    exists s2. split; [|exact (grows_trans Hg1 Hg2)].
    unfold loop. simpl. unfold bind. rewrite Hstep. exact Hloop.
Qed.

End Batch.

End ImportLoop.

Module ImportSpec.
Import Catalog Py Py.Notations Db Importer PyStrFacts KeepsFacts ImportFacts
       ColumnSpec ImportSteps ImportLoop Samples.



Lemma row_data_ok (float : Type) (w : World float) (df : DataFrame float)
  (row : list (cell float)) (md : MaterialData float) :
  row_data w df row = Ok md ->
  exists column_mapping,
    _detect_columns (columns df) = Ok column_mapping
    /\ _extract_material_data w (columns df) row column_mapping = Ok md.
Proof.
  unfold row_data. destruct (_detect_columns (columns df)) as [cm|e];
    [|discriminate].
  intros H. exists cm. split; [reflexivity | exact H].
Qed.

(** Refutation of C7 as stated: the one line of the sample list names a
    material that the catalogue does not know; the import files it as
    unmatched and the error count of the batch is 1, not 0. *)
Lemma unmatched_line_raises_error_count :
  let w := sample_world (u "prices.csv") (Some df_unknown) in
  let sch := sample_schema AliasesOuter in
  let md := mkMaterialData (Some (u "Гвозди")) (Some 50%Z) (Some (u "кг")) None in
  map (row_data w df_unknown) (rows df_unknown) = [Ok md]
  /\ _match_material sch alias_store (md_name md) (md_unit md) (md_article md)
       None = None
  /\ exists st',
       _process_dataframe w sch df_unknown 1 1 None alias_store
       = (Ok (mkTally 0 1 [md]), st')
       /\ unmatched_imports st'
          = [mkUnmatchedImport 1 1 (u "Гвозди") (Some 50%Z) (Some (u "кг"))
               None None (u "pending")]
       /\ errors (mkTally 0 1 [md]) <> 0%Z.
Proof.
  cbv zeta. split; [vm_compute; reflexivity|]. split; [vm_compute; reflexivity|].
  eexists. split; [vm_compute; reflexivity|].
  split; [reflexivity | discriminate].
Qed.

(** C7, amended.  For every data row with a non-empty name that the
    resolver fails to match, and whose unmatched record the schema lets in,
    the turn of the loop returns normally, adds an unmatched-import record
    for the session with the raw name, price, unit and article, appends the
    raw row to the list of unmatched rows, leaves the processed count as it
    is, and increments the error count of the batch by one.  At the end of
    the batch the raw row is in the returned unmatched list, its record is
    in the store, and the error count is at least one. *)
Theorem unmatched_line_is_filed_and_counted :
  (forall (float : Type) (w : World float) (sch : Schema float)
          (cols : list label) (column_mapping : ColumnMapping)
          (source_id session_id : Z) (customer_id : option Z)
          (row : list (cell float)) (st : Store float) (t : Tally float)
          (md : MaterialData float) (name : str),
      _extract_material_data w cols row column_mapping = Ok md ->
      md_name md = Some name ->
      truthy name = true ->
      _match_material sch st (md_name md) (md_unit md) (md_article md)
        customer_id = None ->
      accepts sch st (InsUnmatched (unmatched_row sch st session_id name md))
      = true ->
      exists st' t',
        row_step w sch cols column_mapping source_id session_id customer_id
                 row (st, t)
        = (Ok tt, (st', t'))
        /\ unmatched_imports st'
           = unmatched_imports st ++ [unmatched_row sch st session_id name md]
        /\ import_session_id (unmatched_row sch st session_id name md)
           = session_id
        /\ raw_name (unmatched_row sch st session_id name md) = name
        /\ unmatched t' = unmatched t ++ [md]
        /\ processed t' = processed t
        /\ errors t' = (errors t + 1)%Z)
  /\ (forall (float : Type) (w : World float) (sch : Schema float)
             (df : DataFrame float) (source_id session_id : Z)
             (customer_id : option Z) (st : Store float)
             (before after : list (list (cell float)))
             (row : list (cell float)) (md : MaterialData float)
             (name : str),
        row_data w df row = Ok md ->
        rows df = before ++ row :: after ->
        md_name md = Some name ->
        truthy name = true ->
        _match_material sch st (md_name md) (md_unit md) (md_article md)
          customer_id = None ->
        (forall st' r, accepts sch st' (InsUnmatched r) = true) ->
        exists t st',
          _process_dataframe w sch df source_id session_id customer_id st
          = (Ok t, st')
          /\ In md (unmatched t)
          /\ (exists r, In r (unmatched_imports st')
                        /\ import_session_id r = session_id
                        /\ raw_name r = name
                        /\ raw_price r = md_price md
                        /\ raw_unit r = md_unit md
                        /\ raw_article r = md_article md)
          /\ (1 <= errors t)%Z).
Proof.
  split.
  - intros float w sch cols column_mapping source_id session_id customer_id
           row st t md name Hmd Hname Htr Hmatch Hacc.
    eexists _, _. split.
    + apply (@row_step_unmatched _ w sch cols column_mapping source_id
               session_id customer_id row md Hmd st t name Hname Htr Hmatch
               Hacc).
    + repeat split.
  - intros float w sch df source_id session_id customer_id st before after row
           md name Hdata Hrows Hname Htr Hmatch Hacc.
    apply row_data_ok in Hdata as (cm & Hcm & Hmd).
    unfold _process_dataframe. rewrite Hcm, Hrows.
    rewrite (rows_loop_app w sch (columns df) cm source_id session_id
               customer_id before (row :: after)).
    destruct (rows_loop_grows w sch (columns df) cm source_id session_id
                customer_id before (st, mkTally 0 0 []))
      as ([st1 t1] & Hl1 & (Hc1 & _ & _ & He1)).
    cbv zeta in Hl1. rewrite Hl1. simpl in Hc1, He1.
    rewrite <- (match_material_catalogue sch _ _ _ _ Hc1) in Hmatch.
    pose proof (@row_step_unmatched _ w sch (columns df) cm source_id
                  session_id customer_id row md Hmd st1 t1 name Hname Htr
                  Hmatch (Hacc _ _)) as Hstep.
    cbn [rows_loop]. unfold bind at 1. cbv zeta in Hstep. rewrite Hstep.
    match type of Hstep with _ = (_, ?s2) =>
      destruct (rows_loop_grows w sch (columns df) cm source_id session_id
                  customer_id after s2)
        as ([st3 t3] & Hl3 & (_ & [l Hu] & [m Ht] & He3))
    end.
    cbv zeta in Hl3. rewrite Hl3. simpl in Hu, Ht, He3.
    exists t3, st3. split; [reflexivity|]. split; [|split].
    + rewrite Ht. apply in_or_app. left. apply in_or_app. right.
      left. reflexivity.
    + exists (unmatched_row sch st1 session_id name md). split.
      * rewrite Hu. apply in_or_app. left. apply in_or_app. right.
        left. reflexivity.
      * repeat split.
    + lia.
Qed.

(** The unknown material of the sample list. *)
Lemma unmatched_line_sample :
  exists t st',
    _process_dataframe (sample_world (u "prices.csv") (Some df_unknown))
      (sample_schema AliasesOuter) df_unknown 1 1 None alias_store
    = (Ok t, st')
    /\ In (mkMaterialData (Some (u "Гвозди")) (Some 50%Z) (Some (u "кг")) None)
          (unmatched t)
    /\ (1 <= errors t)%Z.
Proof.
  destruct (proj2 unmatched_line_is_filed_and_counted Z
              (sample_world (u "prices.csv") (Some df_unknown))
              (sample_schema AliasesOuter) df_unknown 1%Z 1%Z None alias_store
              [] [] [CText Z (u "Гвозди"); CText Z (u "кг"); CNum 50%Z]
              (mkMaterialData (Some (u "Гвозди")) (Some 50%Z) (Some (u "кг"))
                 None)
              (u "Гвозди") eq_refl eq_refl eq_refl eq_refl eq_refl
              (fun _ _ => eq_refl))
    as (t & st' & Hrun & Hin & _ & He).
  exists t, st'. split; [exact Hrun|]. split; [exact Hin | exact He].
Defined.

(** C10.  For a path that does not exist, [import_from_file] raises
    [FileNotFoundError] and leaves the whole store as it was: no session is
    inserted and none is marked failed.  A session is marked failed only
    after it exists: when the path exists, the session is let in and the
    reader raises, the exception is passed on and the session that was just
    created is the one whose status becomes failed. *)
Theorem missing_file_raises_before_session :
  (forall (float : Type) (w : World float) (sch : Schema float)
          (file_path : str) (customer_id vendor_id : option Z)
          (doc_date_ : option str) (st : Store float),
      path_exists w file_path = false ->
      import_from_file w sch file_path customer_id vendor_id doc_date_ st
      = (Raise (FileNotFoundError file_path), st))
  /\ (forall (float : Type) (w : World float) (sch : Schema float)
             (file_path : str) (customer_id vendor_id : option Z)
             (doc_date_ : option str) (st : Store float) (e : exn),
        let id := next_id (map s_id (import_sessions st)) in
        let session status_ :=
          mkImportSession id file_path customer_id vendor_id status_
            (default_session_rows sch) (default_session_rows sch) in
        path_exists w file_path = true ->
        accepts sch st (InsSession float (session (default_session_status sch)))
        = true ->
        (if endswith file_path (u ".csv") then read_csv w file_path
         else read_excel w file_path) = Raise e ->
        import_from_file w sch file_path customer_id vendor_id doc_date_ st
        = (Raise e,
           set_import_sessions st
             (import_sessions st ++ [session (u "failed")]))).
Proof.
  split.
  - intros float w sch file_path customer_id vendor_id doc_date_ st Hex.
    unfold import_from_file. rewrite Hex. reflexivity.
  - intros float w sch file_path customer_id vendor_id doc_date_ st e id
           session Hex Hacc Hread.
    unfold import_from_file. rewrite Hex. cbn [negb].
    unfold bind at 1. unfold create_import_session, insert.
    fold id. fold (session (default_session_status sch)). rewrite Hacc.
    unfold try_except. unfold bind at 1. rewrite Hread.
    unfold bind, update_import_session, modify, raise. f_equal.
    unfold set_import_sessions. cbn [import_sessions materials
      material_aliases customers price_sources material_prices
      unmatched_imports].
    f_equal. rewrite map_app. f_equal.
    + rewrite <- (map_id (import_sessions st)) at 2. apply map_ext_in.
      intros s Hs. destruct (Z.eqb_spec (s_id s) id) as [E|]; [|reflexivity].
      pose proof (next_id_above (map s_id (import_sessions st)) (s_id s)
                    (in_map s_id _ _ Hs)) as Hlt.
      fold id in Hlt. lia.
    + cbn [map]. unfold session at 1. cbn [s_id]. rewrite Z.eqb_refl.
      reflexivity.
Qed.

(** A path that is not there, in the sample world without files. *)
Lemma missing_file_sample :
  import_from_file (sample_world (u "prices.csv") None)
    (sample_schema AliasesOuter) (u "prices.csv") None None None alias_store
  = (Raise (FileNotFoundError (u "prices.csv")), alias_store).
Proof.
  apply (proj1 missing_file_raises_before_session Z
           (sample_world (u "prices.csv") None) (sample_schema AliasesOuter)
           (u "prices.csv") None None None alias_store).
  reflexivity.
Defined.





(** A price that is a number beyond the range of floating point makes
    its line an error even where the schema lets every price in. *)
Example overflowing_price_is_an_error :
  exists st',
    _process_dataframe (sample_world (u "prices.csv") (Some df_ten_huge))
      (lenient_schema AliasesOuter) df_ten_huge 1 1 None alias_store
    = (Ok (mkTally 9 1 []), st')
    /\ length (material_prices st') = 9.
Proof. eexists. split; vm_compute; reflexivity. Qed.

(** C9, at the input where it fails.  Importing the sample line [Цемент],
    which resolves to the material whose canonical name is [цемент],
    records its price and leaves the alias table as it was: the raw name is
    not an alias after the import.  No import changes the alias table. *)
Theorem import_registers_no_alias :
  (forall (float : Type) (w : World float) (sch : Schema float)
          (file_path : str) (customer_id vendor_id : option Z)
          (doc_date_ : option str) (st : Store float),
      material_aliases
        (snd (import_from_file w sch file_path customer_id vendor_id
                doc_date_ st))
      = material_aliases st)
  /\ (let w := sample_world (u "prices.csv") (Some df_capital) in
      let sch := sample_schema AliasesOuter in
      let run := import_from_file w sch (u "prices.csv") (Some 7%Z) None None
                   alias_store in
      map (row_data w df_capital) (rows df_capital)
      = [Ok (mkMaterialData (Some (u "Цемент")) (Some 480%Z)
               (Some (u "кг")) None)]
      /\ _match_material sch alias_store (Some (u "Цемент")) (Some (u "кг"))
           None (Some 7%Z) = Some (cement, None)
      /\ name_canonical cement <> u "Цемент"
      /\ fst run = Ok (mkImportResult 1 1 1 0 [] 1)
      /\ material_aliases (snd run) = [alias_global; alias_of_7]
      /\ find_material_by_alias sch (snd run) (u "Цемент") (Some 7%Z) = []
      /\ find_material_by_alias sch (snd run) (u "Цемент") None = []).
Proof.
  split.
  - intros float w sch file_path customer_id vendor_id doc_date_ st.
    apply (keeps_import_from_file w sch (@material_aliases float));
      intros; reflexivity.
  - cbv zeta. repeat split; try (vm_compute; reflexivity).
    vm_compute. discriminate.
Qed.

End ImportSpec.

(** ** Name normalisation *)
Module CleanFacts.
Import Re TextFacts ReFacts Importer.

Lemma tidy_suffix (pre s : str) : tidy (pre ++ s) -> tidy (lstrip s).
Proof.
  intros (Hl & Hs & _). destruct (lstrip_split s) as (ws & E & _).
  apply spaced_suffix in Hs. unfold lowered in Hl.
  apply Forall_app in Hl as [_ Hl]. rewrite E in Hs, Hl.
  apply spaced_suffix in Hs. apply Forall_app in Hl as [_ Hl].
  repeat split; try assumption. apply lstrip_head.
Qed.

(** *** The generic-noun prefix *)

Lemma prefix_later (len0 : nat) (s : str) :
  length s < len0 -> search_from len0 prefix_re s = false.
Proof.
  induction s as [|c t IH]; intros H.
  - unfold prefix_re. cbn [search_from match_at].
    destruct (Nat.eqb_spec (length (@nil cp)) len0) as [E|_];
      [simpl in *; lia | reflexivity].
  - unfold prefix_re. cbn [search_from match_at].
    destruct (Nat.eqb_spec (length (c :: t)) len0) as [E|_]; [lia|].
    cbn [flat_map]. apply IH. simpl in H. lia.
Qed.

Lemma prefix_match_head (len0 : nat) (s rem : str) (l : list str) :
  match_at len0 prefix_re s = rem :: l ->
  exists pre z, s = pre ++ z /\ rem = lstrip z.
Proof.
  unfold prefix_re. cbn [match_at].
  set (W := words (u "товар") [u "материал"; u "продукт"]).
  destruct (length s =? len0); cbn [flat_map]; [|discriminate].
  rewrite app_nil_r.
  destruct (match_at len0 W s) as [|z zs] eqn:Hz; cbn [flat_map];
    [discriminate|].
  destruct (spaces_star_head z) as [l' Hl']. rewrite Hl'. simpl.
  intros E. injection E as <- _.
  destruct (match_at_suffix len0 W s z) as [pre Hpre];
    [rewrite Hz; left; reflexivity|].
  exists pre, z. auto.
Qed.

Lemma sub_prefix_tidy (s : str) : tidy s -> tidy (sub prefix_re [] s).
Proof.
  intros Ht. unfold sub.
  destruct s as [|c t]; [exact Ht|].
  assert (Hrest : forall y, length y < length (c :: t) ->
            sub_go (length (c :: t)) prefix_re [] 0 y = y)
    by (intros y Hy; apply sub_go_copy, prefix_later, Hy).
  destruct (match_at (length (c :: t)) prefix_re (c :: t)) as [|rem l] eqn:Hm.
  - rewrite sub_go_cons, Hm, Hrest by (simpl; lia). exact Ht.
  - destruct (@prefix_match_head _ _ _ _ Hm) as (pre & z & Ez & Erem).
    destruct (lstrip_split z) as (ws & Ews & _).
    assert (Elen : length (c :: t) = length pre + length ws + length rem).
    { rewrite Ez, Ews, <- Erem, !length_app. lia. }
    destruct (Nat.eq_dec (length rem) (length (c :: t))) as [Eq|Hne].
    + rewrite sub_go_cons, Hm, Eq, Nat.sub_diag, Hrest by (simpl; lia).
      exact Ht.
    + rewrite (@sub_go_match _ _ [] _ _ _ Hm) by lia.
      rewrite Hrest by lia. simpl. rewrite Erem.
      apply tidy_suffix with pre. rewrite <- Ez. exact Ht.
Qed.

(** *** The unit-like suffix *)

Lemma lit_consumes (len0 : nat) (w z z' : str) :
  w <> [] -> In z' (match_at len0 (Lit w) z) -> length z' < length z.
Proof.
  intros Hw H. simpl in H. destruct (startswith z w) eqn:E; [|destruct H].
  destruct H as [<-|[]]. apply startswith_split in E.
  rewrite E at 2. rewrite length_app. destruct w; [congruence|simpl; lia].
Qed.

Lemma words_consume (len0 : nat) (ws : list str) (w z z' : str) :
  w <> [] -> Forall (fun x => x <> []) ws ->
  In z' (match_at len0 (words w ws) z) -> length z' < length z.
Proof.
  revert w; induction ws as [|w' rest IH]; intros w Hw Hws H.
  - apply (@lit_consumes len0 w z z' Hw H).
  - cbn [words match_at] in H. inversion Hws; subst.
    apply in_app_or in H as [H|H]; [apply (@lit_consumes len0 w z z' Hw H)|].
    apply (IH w'); assumption.
Qed.

Lemma sub_prefix_shorter (s : str) :
  search prefix_re s = true -> length (sub prefix_re [] s) < length s.
Proof.
  unfold sub, search. intros Hs.
  destruct s as [|c t]; [vm_compute in Hs; discriminate|].
  assert (Hrest : forall y, length y < length (c :: t) ->
            sub_go (length (c :: t)) prefix_re [] 0 y = y)
    by (intros y Hy; apply sub_go_copy, prefix_later, Hy).
  cbn [search_from] in Hs.
  destruct (match_at (length (c :: t)) prefix_re (c :: t)) as [|rem l] eqn:Hm.
  - rewrite prefix_later in Hs by (simpl; lia). discriminate.
  - assert (Hlen : length rem < length (c :: t)).
    { revert Hm. unfold prefix_re. cbn [match_at].
      rewrite Nat.eqb_refl. cbn [flat_map]. rewrite app_nil_r.
      set (W := words (u "товар") [u "материал"; u "продукт"]).
      destruct (match_at (length (c :: t)) W (c :: t)) as [|z zs] eqn:Hz;
        cbn [flat_map]; [discriminate|].
      destruct (spaces_star_head z) as [l' Hl']. rewrite Hl'. simpl app.
      intros E. injection E as <- _.
      assert (Hz' : length z < length (c :: t)).
      { apply (@words_consume (length (c :: t)) [u "материал"; u "продукт"]
                 (u "товар") (c :: t) z); [discriminate| |].
        - repeat constructor; discriminate.
        - fold W. rewrite Hz. left. reflexivity. }
      pose proof (lstrip_length z). lia. }
    rewrite (@sub_go_match _ _ [] _ _ _ Hm Hlen). rewrite Hrest by exact Hlen.
    exact Hlen.
Qed.

Lemma suffix_re_rem (len0 : nat) (s rem : str) :
  In rem (match_at len0 suffix_re s) ->
  (rem = [] \/ rem = [10%N]) /\ length rem < length s.
Proof.
  unfold suffix_re. cbn [match_at].
  set (W := words (u "упаковка")
                  [u "штука"; u "кг"; u "м"; u "м²"; u "м³"]).
  intros H. apply in_flat_map in H as (z & Hz & H).
  apply in_flat_map in H as (z' & Hz' & H).
  apply spaces_star_suffix in Hz as [pre ->].
  assert (Hlen : length z' < length z).
  { apply (@words_consume len0 [u "штука"; u "кг"; u "м"; u "м²"; u "м³"]
             (u "упаковка") z z'); [discriminate| |exact Hz'].
    repeat constructor; discriminate. }
  rewrite length_app.
  destruct z' as [|a [|b l]]; simpl in H.
  - destruct H as [<-|[]]. split; [auto | simpl in *; lia].
  - destruct (N.eqb_spec a 10); [|destruct H]. destruct H as [<-|[]].
    subst a. split; [auto | simpl in *; lia].
  - destruct H.
Qed.

Lemma suffix_re_blank (len0 : nat) (c : cp) (t : str) :
  isspace c = true ->
  match_at len0 suffix_re t <> [] -> match_at len0 suffix_re (c :: t) <> [].
Proof.
  unfold suffix_re. cbn [match_at spaces_star]. intros -> H.
  rewrite flat_map_app. intros E. apply app_eq_nil in E as [E _]. auto.
Qed.

Lemma sub_suffix_spaced (len0 : nat) (s : str) :
  spaced s = true ->
  (exists post, s = sub_go len0 suffix_re [] 0 s ++ post)
  /\ spaced (sub_go len0 suffix_re [] 0 s) = true
  /\ (search_from len0 suffix_re s = true ->
      length (sub_go len0 suffix_re [] 0 s) < length s).
Proof.
  induction s as [|c t IH]; intros Hs.
  - split; [exists []; reflexivity|]. split; [reflexivity|].
    intros H. vm_compute in H. discriminate.
  - destruct (match_at len0 suffix_re (c :: t)) as [|rem l] eqn:Hm.
    + destruct (IH (@spaced_tail _ _ Hs)) as ([post Hpost] & Hout & Hshort).
      cbn [search_from]. rewrite sub_go_cons, Hm. split; [|split].
      * exists post. simpl. congruence.
      * destruct (isspace c) eqn:Ec; [|simpl; rewrite Ec; exact Hout].
        destruct (@spaced_space _ _ Hs Ec) as (-> & Hh & Hne).
        destruct t as [|c' t']; [congruence|]. simpl in Hh.
        rewrite sub_go_cons in *.
        destruct (match_at len0 suffix_re (c' :: t')) as [|rem' l'] eqn:Hm'.
        -- simpl in Hout. rewrite Hh in Hout. simpl. rewrite Hh. exact Hout.
        -- exfalso. apply (@suffix_re_blank len0 32%N (c' :: t') eq_refl);
             [rewrite Hm'; discriminate | exact Hm].
      * intros H. specialize (Hshort H). simpl. lia.
    + destruct (@suffix_re_rem len0 (c :: t) rem) as [Hrem Hlen];
        [rewrite Hm; left; reflexivity|].
      rewrite (@sub_go_match _ _ [] _ _ _ Hm Hlen).
      destruct Hrem as [->| ->].
      * split; [exists (c :: t); reflexivity|]. split; [reflexivity|].
        intros _. simpl. lia.
      * exfalso. apply (@spaced_no_newline _ Hs).
        destruct (match_at_suffix len0 suffix_re (c :: t) [10%N])
          as [pre E]; [rewrite Hm; left; reflexivity|].
        rewrite E. apply in_or_app. right. left. reflexivity.
Qed.

Lemma sub_suffix_tidy (s : str) : tidy s -> tidy (sub suffix_re [] s).
Proof.
  intros (Hl & Hs & Hh). unfold sub.
  destruct (@sub_suffix_spaced (length s) s Hs) as ([post E] & Hout & _).
  repeat split.
  - unfold lowered in *. rewrite E in Hl. apply Forall_app in Hl. tauto.
  - exact Hout.
  - destruct (sub_go (length s) suffix_re [] 0 s) as [|x l] eqn:Eo;
      [reflexivity|].
    rewrite E in Hh. exact Hh.
Qed.

(** *** The text after one pass *)

Lemma first_stage_tidy (s : str) : tidy (sub Spaces1 (u " ") (lower (strip s))).
Proof.
  unfold sub. change (u " ") with [32%N].
  set (y := lower (strip s)).
  assert (Hl : last_space y = false)
    by (unfold y; rewrite last_space_lower; apply last_space_strip).
  destruct (@collapse_spaced (length y) (length y) y (le_n _) Hl)
    as (Hs & Hh & _).
  repeat split.
  - apply sub_go_forall; [apply lowered_lower | repeat constructor].
  - exact Hs.
  - rewrite Hh. unfold y. rewrite head_space_lower. apply head_space_strip.
Qed.

Lemma clean_tidy (s : str) : tidy (_clean_material_name s).
Proof.
  unfold _clean_material_name. destruct (negb (truthy s)).
  - repeat split. constructor.
  - apply sub_suffix_tidy, sub_prefix_tidy, first_stage_tidy.
Qed.

End CleanFacts.

Module CleanSpec.
Import Re TextFacts ReFacts Importer CleanFacts.

(** Refutation of C3 as stated: one pass over [товар товар] removes one
    generic noun and leaves the other, which a second pass removes; a
    unit-like suffix left after one pass behaves alike. *)
Lemma normalisation_not_idempotent :
  _clean_material_name (u "товар товар") = u "товар"
  /\ _clean_material_name (_clean_material_name (u "товар товар")) = []
  /\ _clean_material_name (_clean_material_name (u "товар товар"))
     <> _clean_material_name (u "товар товар")
  /\ _clean_material_name (u "цемент кг кг") = u "цемент кг"
  /\ _clean_material_name (_clean_material_name (u "цемент кг кг"))
     = u "цемент"
  /\ _clean_material_name (_clean_material_name (u "цемент кг кг"))
     <> _clean_material_name (u "цемент кг кг").
Proof.
  repeat split; try (vm_compute; reflexivity); vm_compute; discriminate.
Qed.

(** C3, amended.  Normalising a normalised name returns it unchanged
    exactly when the normalised name has no generic-noun prefix at its head
    and no unit-like suffix at its tail, that is, when neither of the two
    removal patterns matches it; a name that one pass leaves with such a
    prefix or suffix is shortened by the next pass. *)
Theorem normalisation_idempotent_when_stripped (s : str) :
  _clean_material_name (_clean_material_name s) = _clean_material_name s
  <-> search prefix_re (_clean_material_name s) = false
      /\ search suffix_re (_clean_material_name s) = false.
Proof.
  destruct (clean_tidy s) as (Hl & Hs & Hh).
  set (c := _clean_material_name s) in *.
  assert (Hclean : _clean_material_name c
                   = sub suffix_re [] (sub prefix_re [] c)).
  { unfold _clean_material_name. destruct (truthy c) eqn:Ec; simpl.
    - rewrite (@strip_id _ Hs Hh), (@lower_id _ Hl).
      unfold sub at 3. change (u " ") with [32%N].
      rewrite (@collapse_id _ _ Hs). reflexivity.
    - destruct c; [reflexivity | discriminate]. }
  rewrite Hclean. split.
  - intros E.
    assert (Hle : length (sub suffix_re [] (sub prefix_re [] c))
                  <= length (sub prefix_re [] c)).
    { destruct (sub_prefix_tidy (conj Hl (conj Hs Hh))) as (_ & Hs' & _).
      unfold sub at 1.
      destruct (@sub_suffix_spaced (length (sub prefix_re [] c)) _ Hs')
        as ([post Ep] & _ & _).
      apply (f_equal (@length cp)) in Ep. rewrite length_app in Ep. lia. }
    destruct (search prefix_re c) eqn:Hp.
    + pose proof (sub_prefix_shorter c Hp) as Hlt. rewrite E in Hle. lia.
    + split; [reflexivity|].
      unfold sub at 2 in E. unfold search in Hp.
      rewrite (@sub_go_copy _ _ _ _ Hp) in E.
      destruct (search suffix_re c) eqn:Hx; [|reflexivity].
      destruct (@sub_suffix_spaced (length c) c Hs) as (_ & _ & Hshort).
      unfold search in Hx. specialize (Hshort Hx).
      unfold sub in E. rewrite E in Hshort. lia.
  - intros [Hp Hx]. unfold sub at 2. rewrite (@sub_go_copy _ _ _ _ Hp).
    unfold sub. rewrite (@sub_go_copy _ _ _ _ Hx). reflexivity.
Qed.

(** A name that one pass leaves without prefix and suffix. *)
Lemma normalisation_idempotent_sample :
  _clean_material_name (_clean_material_name (u "  Товар   Цемент  М500  кг "))
  = _clean_material_name (u "  Товар   Цемент  М500  кг ").
Proof.
  apply normalisation_idempotent_when_stripped.
  split; vm_compute; reflexivity.
Defined.

End CleanSpec.

(* ===================================================================== *)
(** * Further properties of the code                                      *)
(* ===================================================================== *)

(** ** Price selection *)
Module SelectorMore.
Import Catalog Py Db PyStrFacts SelectorFacts SelectorSpec Samples Samples2.

Lemma leb_antisym (a b : str) :
  PyStr.leb a b = true -> PyStr.leb b a = true -> a = b.
Proof.
  revert b; induction a as [|x a IH]; intros [|y b]; simpl; try congruence.
  rewrite (N.eqb_sym y x).
  destruct (N.ltb_spec x y), (N.ltb_spec y x), (N.eqb_spec x y);
    try lia; try (intros; discriminate).
  subst y. intros H1 H2. f_equal. auto.
Qed.

Lemma type_rank_least (p ty : option str) : (1 <= type_rank p ty)%Z.
Proof.
  unfold type_rank. destruct ty as [t|]; [|lia].
  destruct (ostr_eqb p t); [lia|].
  destruct (PyStr.eqb t (u "invoice")); [lia|].
  destruct (PyStr.eqb t (u "website")); [lia|].
  destruct (PyStr.eqb t (u "manual")); lia.
Qed.

Lemma type_rank_first (p ty : option str) :
  type_rank p ty = 1%Z <-> exists t, ty = Some t /\ p = Some t.
Proof.
  unfold type_rank. destruct ty as [t|].
  - destruct (ostr_eqb p t) eqn:E.
    + apply ostr_eqb_eq in E. split; eauto.
    + split.
      * destruct (PyStr.eqb t (u "invoice")); [discriminate|].
        destruct (PyStr.eqb t (u "website")); [discriminate|].
        destruct (PyStr.eqb t (u "manual")); discriminate.
      * intros (t' & Et & Ep). injection Et as <-.
        apply ostr_eqb_eq in Ep. congruence.
  - split; [discriminate|]. intros (t & Et & _). discriminate.
Qed.

(** The selected row: a candidate that precedes all candidates, and there
    is one as soon as there is a candidate. *)
Lemma selected_least (float : Type) (today : str) (st : Store float)
  (material_id : str) (calculation_date : option str) (customer_id : option Z)
  (c : PriceRow float) :
  In c (price_candidates st material_id (as_of today calculation_date)) ->
  exists r,
    get_current_price today st material_id calculation_date customer_id = Some r
    /\ In r (price_candidates st material_id (as_of today calculation_date))
    /\ price_order (preferred_type_of st customer_id) r c = true.
Proof.
  intros Hc. unfold get_current_price.
  set (pref := preferred_type_of st customer_id).
  set (cands := price_candidates st material_id (as_of today calculation_date))
    in *.
  destruct (order_by (price_order pref) cands) as [|r l] eqn:E.
  - apply order_by_nil in E. rewrite E in Hc. destruct Hc.
  - exists r. split; [reflexivity|]. split.
    + apply (order_by_in (price_order pref)). rewrite E. left. reflexivity.
    + apply (@order_by_hd_least _ (price_order pref)
               (@price_order_total float pref) (@price_order_trans float pref)
               cands r); [rewrite E; reflexivity | exact Hc].
Qed.

(** Among the candidates, one of the preferred type wins, and the winner
    is at least as recent as the candidate at hand. *)
Lemma preferred_type_outranks_more (float : Type) (today : str)
  (st : Store float) (material_id : str) (calculation_date : option str)
  (customer_id : option Z) (t : str) (c : PriceRow float) :
  preferred_type_of st customer_id = Some t ->
  In c (price_candidates st material_id (as_of today calculation_date)) ->
  pr_type c = Some t ->
  exists r,
    get_current_price today st material_id calculation_date customer_id = Some r
    /\ In r (price_candidates st material_id (as_of today calculation_date))
    /\ pr_type r = Some t
    /\ PyStr.leb (price_date (pr_price c)) (price_date (pr_price r)) = true.
Proof.
  intros Hp Hc Ht.
  assert (Hrank : type_rank (preferred_type_of st customer_id) (pr_type c)
                  = 1%Z)
    by (apply type_rank_first; exists t; auto).
  destruct (selected_least today st material_id calculation_date customer_id
              c Hc) as (r & Hsel & Hin & Hle).
  unfold price_order in Hle. rewrite Hrank in Hle.
  pose proof (type_rank_least (preferred_type_of st customer_id) (pr_type r))
    as Hge.
  assert (Hr : type_rank (preferred_type_of st customer_id) (pr_type r) = 1%Z).
  { apply orb_true_iff in Hle as [Hle|Hle].
    - apply Z.ltb_lt in Hle. lia.
    - apply andb_true_iff in Hle as [Hle _]. apply Z.eqb_eq, Hle. }
  rewrite Hr in Hle. simpl in Hle.
  exists r. split; [exact Hsel|]. split; [exact Hin|]. split; [|exact Hle].
  apply type_rank_first in Hr as (t' & Et & Ep). congruence.
Qed.

(** X1.  The preferred source type outranks recency: when some candidate
    price comes from a source of the customer's preferred type, the price
    selected is of that type, however old it is, and it is at least as
    recent as every candidate of that type. *)
Theorem preferred_type_outranks_recency (float : Type) (today : str)
  (st : Store float) (material_id : str) (calculation_date : option str)
  (customer_id : option Z) (t : str) (c : PriceRow float) :
  preferred_type_of st customer_id = Some t ->
  In c (price_candidates st material_id (as_of today calculation_date)) ->
  pr_type c = Some t ->
  exists r,
    get_current_price today st material_id calculation_date customer_id = Some r
    /\ pr_type r = Some t
    /\ forall c', In c' (price_candidates st material_id
                           (as_of today calculation_date)) ->
                  pr_type c' = Some t ->
                  PyStr.leb (price_date (pr_price c'))
                            (price_date (pr_price r)) = true.
Proof.
  intros Hp Hc Ht.
  assert (Hrank : forall c' : PriceRow float, pr_type c' = Some t ->
            type_rank (preferred_type_of st customer_id) (pr_type c') = 1%Z)
    by (intros c' E; apply type_rank_first; exists t; auto).
  destruct (selected_least today st material_id calculation_date customer_id
              c Hc) as (r & Hsel & Hin & Hle).
  assert (Hr : type_rank (preferred_type_of st customer_id) (pr_type r) = 1%Z).
  { unfold price_order in Hle. rewrite (Hrank c Ht) in Hle.
    pose proof (type_rank_least (preferred_type_of st customer_id) (pr_type r)).
    apply orb_true_iff in Hle as [Hle|Hle].
    - apply Z.ltb_lt in Hle. lia.
    - apply andb_true_iff in Hle as [Hle _]. apply Z.eqb_eq, Hle. }
  exists r. split; [exact Hsel|]. split.
  - apply type_rank_first in Hr as (t' & Et & Ep). congruence.
  - intros c' Hc' Ht'.
    destruct (selected_least today st material_id calculation_date
                customer_id c' Hc') as (r' & Hsel' & _ & Hle').
    rewrite Hsel in Hsel'. injection Hsel' as <-.
    unfold price_order in Hle'. rewrite Hr, (Hrank c' Ht') in Hle'.
    simpl in Hle'. exact Hle'.
Qed.

(** For the customer who prefers prices entered by hand, the price of
    February is selected although an invoice price is more recent. *)
Lemma preferred_type_sample :
  exists r,
    get_current_price (u "2024-06-01") price_store_5 (u "cement")
      (Some (u "2024-03-15")) (Some 5%Z) = Some r
    /\ pr_type r = Some (u "manual")
    /\ price (pr_price r) = Some 90%Z.
Proof.
  destruct (@preferred_type_outranks_recency Z (u "2024-06-01") price_store_5
              (u "cement") (Some (u "2024-03-15")) (Some 5%Z) (u "manual")
              (mkPriceRow price_feb (Some (u "manual")) None))
    as (r & Hsel & Ht & _).
  - reflexivity.
  - vm_compute. tauto.
  - reflexivity.
  - exists r. split; [exact Hsel|]. split; [exact Ht|].
    assert (E : get_current_price (u "2024-06-01") price_store_5 (u "cement")
                  (Some (u "2024-03-15")) (Some 5%Z)
                = Some (mkPriceRow price_feb (Some (u "manual")) None))
      by (vm_compute; reflexivity).
    rewrite E in Hsel. injection Hsel as Hr. rewrite <- Hr. reflexivity.
Defined.

(** X2.  A customer id that the table does not hold selects as no
    customer does, and so does the id 0. *)
Theorem unknown_customer_selects_as_none (float : Type) (today : str)
  (st : Store float) (material_id : str) (calculation_date : option str)
  (c : Z) :
  (forall k, In k (customers st) -> c_id k <> c) ->
  get_current_price today st material_id calculation_date (Some c)
  = get_current_price today st material_id calculation_date None
  /\ get_current_price today st material_id calculation_date (Some 0%Z)
     = get_current_price today st material_id calculation_date None.
Proof.
  intros Hc. unfold get_current_price.
  assert (E : preferred_type_of st (Some c) = preferred_type_of st None).
  { unfold preferred_type_of. destruct (ztruthy (Some c)); [|reflexivity].
    destruct (find (fun k => (c_id k =? c)%Z) (customers st)) as [k|] eqn:Ef;
      [|reflexivity].
    apply find_some in Ef as [Hk Hid]. apply Z.eqb_eq in Hid.
    destruct (Hc k Hk Hid). }
  rewrite E. split; reflexivity.
Qed.

Lemma unknown_customer_sample :
  get_current_price (u "2024-06-01") price_store_5 (u "cement")
    (Some (u "2024-03-15")) (Some 6%Z)
  = get_current_price (u "2024-06-01") price_store_5 (u "cement")
      (Some (u "2024-03-15")) None.
Proof.
  apply (@unknown_customer_selects_as_none Z (u "2024-06-01") price_store_5
           (u "cement") (Some (u "2024-03-15")) 6%Z).
  intros k [<-|[]]. discriminate.
Defined.

End SelectorMore.

(** ** Price history *)
Module HistoryMore.
Import Catalog Py Db PyStrFacts SelectorFacts SelectorSpec SelectorMore
       Samples Samples2.

Lemma add_material_price_ok (float : Type) (sch : Schema float)
  (material_id : str) (price_ : option float) (price_date_ : str)
  (source_id_ : Z) (st st' : Store float) (id : Z) :
  add_material_price sch material_id price_ price_date_ source_id_ st
  = (Ok id, st') ->
  st' = set_material_prices st
          (material_prices st
           ++ [mkMaterialPrice id material_id price_ (u "RUB") price_date_
                 source_id_ 1])
  /\ id = next_id (map (@mp_id float) (material_prices st)).
Proof.
  unfold add_material_price, insert.
  destruct (accepts sch st _); intros E; inversion E; subst. auto.
Qed.

Lemma price_candidates_app (float : Type) (st : Store float)
  (l : list (MaterialPrice float)) (material_id day : str) :
  price_candidates (set_material_prices st (material_prices st ++ l))
                   material_id day
  = price_candidates st material_id day
    ++ price_candidates (set_material_prices st l) material_id day.
Proof. unfold price_candidates. simpl. apply flat_map_app. Qed.

(** X3.  Recording a price for another material, or a price dated after
    the date asked for, leaves the selection as it was: what was the
    current price as of a day stays so when later prices are appended. *)
Theorem later_price_leaves_selection (float : Type) (sch : Schema float)
  (today : str) (st st' : Store float) (material_id other : str)
  (price_ : option float) (price_date_ : str) (source_id_ id : Z)
  (calculation_date : option str) (customer_id : option Z) :
  add_material_price sch other price_ price_date_ source_id_ st = (Ok id, st') ->
  other <> material_id
  \/ PyStr.leb price_date_ (as_of today calculation_date) = false ->
  get_current_price today st' material_id calculation_date customer_id
  = get_current_price today st material_id calculation_date customer_id.
Proof.
  intros Hadd Hcase. apply add_material_price_ok in Hadd as [-> _].
  unfold get_current_price. rewrite price_candidates_app.
  assert (E : price_candidates
                (set_material_prices st
                   [mkMaterialPrice id other price_ (u "RUB") price_date_
                      source_id_ 1])
                material_id (as_of today calculation_date) = []).
  { unfold price_candidates. simpl.
    destruct Hcase as [Hne|Hd].
    - apply eqb_neq in Hne. rewrite Hne. reflexivity.
    - rewrite Hd, andb_false_r. reflexivity. }
  rewrite E, app_nil_r. reflexivity.
Qed.

(** A price of June does not change the selection as of March. *)
Lemma later_price_sample :
  exists st',
    add_material_price (sample_schema AliasesOuter) (u "cement") (Some 120%Z)
      (u "2024-06-01") 1 price_store = (Ok 4%Z, st')
    /\ get_current_price (u "2024-06-01") st' (u "cement")
         (Some (u "2024-03-15")) None
       = get_current_price (u "2024-06-01") price_store (u "cement")
           (Some (u "2024-03-15")) None.
Proof.
  eexists. split; [reflexivity|].
  apply (@later_price_leaves_selection Z (sample_schema AliasesOuter)
           (u "2024-06-01") price_store _ (u "cement") (u "cement")
           (Some 120%Z) (u "2024-06-01") 1%Z 4%Z (Some (u "2024-03-15")) None).
  - reflexivity.
  - right. reflexivity.
Defined.

(** X4.  A price that has just been recorded is found again: after
    [add_material_price] for a source of the preferred type, the selection
    for that material as of the date of the price returns a price of the
    preferred type that is dated that very day. *)
Theorem recorded_price_is_current (float : Type) (sch : Schema float)
  (today : str) (st st' : Store float) (material_id : str)
  (price_ : option float) (price_date_ : str) (source_id_ id : Z)
  (customer_id : option Z) (t : str) (ps : PriceSource) :
  add_material_price sch material_id price_ price_date_ source_id_ st
  = (Ok id, st') ->
  truthy price_date_ = true ->
  In ps (price_sources st) -> ps_id ps = source_id_ -> ps_type ps = Some t ->
  preferred_type_of st customer_id = Some t ->
  exists r,
    get_current_price today st' material_id (Some price_date_) customer_id
    = Some r
    /\ pr_type r = Some t
    /\ price_date (pr_price r) = price_date_
    /\ mp_material_id (pr_price r) = material_id
    /\ is_active (pr_price r) = 1%Z.
Proof.
  intros Hadd Htr Hps Hid Hty Hpref.
  apply add_material_price_ok in Hadd as [-> _].
  set (row := mkMaterialPrice id material_id price_ (u "RUB") price_date_
                source_id_ 1).
  set (st' := set_material_prices st (material_prices st ++ [row])).
  assert (Hday : as_of today (Some price_date_) = price_date_)
    by (unfold as_of; rewrite Htr; reflexivity).
  assert (Hc : In (mkPriceRow row (ps_type ps) (ps_customer_id ps))
                  (price_candidates st' material_id
                     (as_of today (Some price_date_)))).
  { apply price_candidates_in. exists row, ps. rewrite Hday.
    repeat split; try reflexivity; auto.
    - simpl. apply in_or_app. right. left. reflexivity.
    - apply leb_refl. }
  assert (Hpref' : preferred_type_of st' customer_id = Some t) by exact Hpref.
  destruct (@preferred_type_outranks_more float today st' material_id
              (Some price_date_) customer_id t _ Hpref' Hc Hty)
    as (r & Hsel & Hin & Hrt & Hle).
  exists r. split; [exact Hsel|]. split; [exact Hrt|].
  apply price_candidates_in in Hin
    as (mp & ps' & _ & _ & _ & Hm & Hd & Ha & ->).
  simpl in *. rewrite Hday in Hd. repeat split; try assumption.
  apply leb_antisym; assumption.
Qed.

(** A price of April recorded against the invoice source. *)
Lemma recorded_price_sample :
  exists st' r,
    add_material_price (sample_schema AliasesOuter) (u "cement") (Some 115%Z)
      (u "2024-04-01") 1 price_store = (Ok 4%Z, st')
    /\ get_current_price (u "2024-06-01") st' (u "cement")
         (Some (u "2024-04-01")) None = Some r
    /\ pr_type r = Some (u "invoice")
    /\ price_date (pr_price r) = u "2024-04-01".
Proof.
  eexists.
  destruct (@recorded_price_is_current Z (sample_schema AliasesOuter)
              (u "2024-06-01") price_store _ (u "cement") (Some 115%Z)
              (u "2024-04-01") 1%Z 4%Z None (u "invoice") invoices
              eq_refl eq_refl (or_introl eq_refl) eq_refl eq_refl eq_refl)
    as (r & Hsel & Ht & Hd & _).
  exists r. split; [reflexivity|]. split; [exact Hsel|].
  split; [exact Ht | exact Hd].
Defined.

End HistoryMore.

(** ** The resolver *)
Module ResolverMore.
Import Catalog Py Db Re PyStrFacts TextFacts ReFacts ResolverFacts Importer
       CleanFacts Samples Samples2.

Lemma alias_visible_name (alias : str) (customer_id : option Z) (a : Alias) :
  alias_visible alias customer_id a = true ->
  alias_name a = alias
  /\ (ztruthy customer_id = true ->
      a_customer_id a = customer_id \/ a_customer_id a = None).
Proof.
  unfold alias_visible. destruct (ztruthy customer_id) eqn:Ez.
  - intros H. apply andb_true_iff in H as [Hn Hs]. apply eqb_eq in Hn.
    split; [exact Hn|]. intros _.
    destruct customer_id as [c|]; [|discriminate].
    apply orb_true_iff in Hs as [Hs|Hs].
    + left. destruct (a_customer_id a) as [k|]; [|discriminate].
      simpl in Hs. apply Z.eqb_eq in Hs. congruence.
    + right. destruct (a_customer_id a); [discriminate | reflexivity].
  - intros H. apply eqb_eq in H. split; [exact H | discriminate].
Qed.

(** X5.  Every answer of the resolver is justified by the store: the raw
    name was not empty, the material is a row of [materials] and is
    active, and either it was found by its canonical name, which equals the
    normalised raw name, together with the raw unit, or through an alias
    whose text equals the normalised raw name, which points at the material
    and, in a customer context, is that customer's or global. *)
Theorem resolver_answers_are_justified (float : Type) (sch : Schema float)
  (st : Store float) (name unit_ article : option str) (customer_id : option Z)
  (m : Material float) (a : option str) :
  _match_material sch st name unit_ article customer_id = Some (m, a) ->
  exists n,
    name = Some n /\ truthy n = true
    /\ In m (materials st) /\ active m = 1%Z
    /\ match a with
       | None =>
           exists un, unit_ = Some un /\ truthy un = true
                      /\ name_canonical m = _clean_material_name n
                      /\ m_unit m = un
       | Some t =>
           t = _clean_material_name n
           /\ exists al, In al (material_aliases st)
                         /\ alias_name al = t
                         /\ a_material_id al = m_id m
                         /\ (ztruthy customer_id = true ->
                             a_customer_id al = customer_id
                             \/ a_customer_id al = None)
       end.
Proof.
  unfold _match_material. destruct name as [n|]; [|discriminate].
  destruct (truthy n) eqn:Hn; simpl; [|discriminate].
  intros H. exists n. split; [reflexivity|]. split; [exact Hn|].
  destruct (match unit_ with
            | Some un =>
                if truthy un
                then get_material_by_name st (_clean_material_name n) un
                else None
            | None => None
            end) as [m0|] eqn:Ex.
  - injection H as <- <-.
    destruct unit_ as [un|]; [|discriminate].
    destruct (truthy un) eqn:Hu; [|discriminate].
    apply get_material_by_name_some in Ex as (Hin & Hc & Hun & Ha).
    repeat split; try assumption. exists un. auto.
  - destruct (find_material_by_alias sch st (_clean_material_name n)
                customer_id) as [|[m0 t] rest] eqn:Ef; [discriminate|].
    injection H as <- <-.
    assert (Hin : In (m0, t) (find_material_by_alias sch st
                                (_clean_material_name n) customer_id))
      by (rewrite Ef; left; reflexivity).
    apply find_material_by_alias_in in Hin as (al & Hal & Hm & Hv & Hj & ->).
    apply alias_visible_name in Hv as [Hname Hscope].
    unfold joins in Hj. apply andb_true_iff in Hj as [Hid Hact].
    apply eqb_eq in Hid. apply Z.eqb_eq in Hact.
    repeat split; try assumption. exists al. auto.
Qed.

Lemma resolver_answer_sample :
  exists n,
    Some (u "Цемент") = Some n /\ truthy n = true
    /\ In cement (materials alias_store) /\ active cement = 1%Z
    /\ exists un, Some (u "кг") = Some un /\ truthy un = true
                  /\ name_canonical cement = _clean_material_name n
                  /\ m_unit cement = un.
Proof.
  apply (@resolver_answers_are_justified Z (sample_schema AliasesOuter)
           alias_store (Some (u "Цемент")) (Some (u "кг")) None (Some 7%Z)
           cement None).
  reflexivity.
Defined.

Lemma spaced_blank_only (s : str) :
  spaced s = true -> forall x, In x s -> isspace x = true -> x = 32%N.
Proof.
  induction s as [|y t IH]; intros Hs x Hin Hx; [destruct Hin|].
  destruct Hin as [<-|Hin].
  - apply (@spaced_space _ _ Hs Hx).
  - apply (IH (@spaced_tail _ _ Hs) x Hin Hx).
Qed.

(** X6.  The normalised name is in normal form: it is trimmed and
    lowercased, its only white space is single blanks between other
    characters, and each of the three clean-up steps leaves it as it is. *)
Theorem clean_name_is_normal (s : str) :
  let c := _clean_material_name s in
  strip c = c
  /\ lower c = c
  /\ sub Spaces1 (u " ") c = c
  /\ head_space c = false /\ last_space c = false
  /\ (forall x, In x c -> isspace x = true -> x = 32%N)
  /\ ~ In 10%N c.
Proof.
  intros c. destruct (clean_tidy s) as (Hl & Hs & Hh). fold c in Hl, Hs, Hh.
  repeat split.
  - apply (@strip_id _ Hs Hh).
  - apply (@lower_id _ Hl).
  - unfold sub. change (u " ") with [32%N]. apply (@collapse_id _ _ Hs).
  - exact Hh.
  - apply (@spaced_last _ Hs).
  - apply (@spaced_blank_only _ Hs).
  - apply (@spaced_no_newline _ Hs).
Qed.

(** X7.  A material is only ever resolved through text in normal form: a
    material whose canonical name is not a text that [str.lower] returns as
    it is, trimmed and single-spaced, and whose aliases, if it has any, are
    not either, is returned for no raw name, unit, article and customer. *)
Theorem untidy_material_is_never_resolved (float : Type) (sch : Schema float)
  (st : Store float) (m0 : Material float) :
  ~ (lower (name_canonical m0) = name_canonical m0
     /\ spaced (name_canonical m0) = true
     /\ head_space (name_canonical m0) = false) ->
  (forall al, In al (material_aliases st) -> a_material_id al = m_id m0 ->
              ~ (lower (alias_name al) = alias_name al
                 /\ spaced (alias_name al) = true
                 /\ head_space (alias_name al) = false)) ->
  forall name unit_ article customer_id a,
    _match_material sch st name unit_ article customer_id <> Some (m0, a).
Proof.
  intros Hname Halias name unit_ article customer_id a.
  assert (Hclean : forall n,
            lower (_clean_material_name n) = _clean_material_name n
            /\ spaced (_clean_material_name n) = true
            /\ head_space (_clean_material_name n) = false).
  { intros n. destruct (clean_tidy n) as (Hl & Hs & Hh).
    split; [apply lowered_iff; exact Hl | split; assumption]. }
  unfold _match_material. destruct name as [n|]; [|discriminate].
  destruct (truthy n); simpl; [|discriminate].
  destruct (match unit_ with
            | Some un =>
                if truthy un
                then get_material_by_name st (_clean_material_name n) un
                else None
            | None => None
            end) as [m|] eqn:Ex.
  - intros H. injection H as -> <-.
    destruct unit_ as [un|]; [|discriminate].
    destruct (truthy un); [|discriminate].
    apply get_material_by_name_some in Ex as (_ & Hc & _).
    apply Hname. rewrite Hc. apply Hclean.
  - destruct (find_material_by_alias sch st (_clean_material_name n)
                customer_id) as [|[m t] rest] eqn:Ef; [discriminate|].
    intros H. injection H as -> <-.
    assert (Hin : In (m0, t) (find_material_by_alias sch st
                                (_clean_material_name n) customer_id))
      by (rewrite Ef; left; reflexivity).
    apply find_material_by_alias_in in Hin as (al & Hal & _ & Hv & Hj & _).
    apply alias_visible_name in Hv as [Hn _].
    unfold joins in Hj. apply andb_true_iff in Hj as [Hid _].
    apply eqb_eq in Hid. apply (Halias al Hal (eq_sym Hid)).
    rewrite Hn. apply Hclean.
Qed.

(** The material entered as [Ґрунт], with the capital letter of the
    Ukrainian alphabet, is not found under that very spelling. *)
Lemma untidy_material_sample :
  _match_material (sample_schema AliasesOuter) soil_store
    (Some (u "Ґрунт")) (Some (u "м3")) None None
  <> Some (soil, None).
Proof.
  refine (@untidy_material_is_never_resolved Z (sample_schema AliasesOuter)
            soil_store soil _ _ (Some (u "Ґрунт"))
            (Some (u "м3")) None None None).
  - intros (Hl & _). vm_compute in Hl. discriminate.
  - intros al [].
Defined.

(** Lowercasing beyond the Russian alphabet: the Ukrainian [Ґ], the
    Kelvin sign, which becomes the letter [k], the capital I with a dot,
    which becomes two code points, and the capital sigma, whose lowercase
    depends on its place in the word. *)
Example lowercase_of_other_alphabets :
  _clean_material_name (u "Ґрунт") = u "ґрунт"
  /\ _clean_material_name [8490%N; 50%N] = u "k2"
  /\ lower [304%N] = [105%N; 775%N]
  /\ lower (u "ΟΔΟΣ ΣΟΦΟΣ") = u "οδος σοφος"
  /\ _match_material (sample_schema AliasesOuter) soil_store
       (Some (u "Ґрунт")) (Some (u "м3")) None None = None.
Proof. repeat split; vm_compute; reflexivity. Qed.

(** White space in a text is put out as it is, and the rule for the
    capital sigma takes it for the end of a word. *)
Lemma lower_go_space (before : bool) (c : cp) (t : str) :
  isspace c = true -> lower_go before (c :: t) = c :: lower_go false t.
Proof.
  intros Hc. apply lower_space in Hc as (Hl & H304 & H931 & Hci & Hca).
  cbn [lower_go]. apply N.eqb_neq in H931. rewrite H931.
  unfold lower_full. apply N.eqb_neq in H304. rewrite H304, Hl, Hci, Hca.
  reflexivity.
Qed.

Lemma lower_go_spaces (before : bool) (ws : str) :
  Forall (fun c => isspace c = true) ws -> lower_go before ws = ws.
Proof.
  intros H. revert before. induction H as [|c t Hc _ IH]; intros before;
    [reflexivity|].
  rewrite (@lower_go_space before c t Hc), IH. reflexivity.
Qed.

Lemma final_after_spaces (x ws : str) :
  Forall (fun c => isspace c = true) ws ->
  final_after (x ++ ws) = final_after x.
Proof.
  intros H. induction x as [|c t IH]; cbn [app final_after].
  - destruct H as [|w l Hw _]; [reflexivity|]. cbn [final_after].
    apply lower_space in Hw as (_ & _ & _ & -> & ->). reflexivity.
  - rewrite IH. reflexivity.
Qed.

Lemma lower_go_app_spaces (before : bool) (x ws : str) :
  Forall (fun c => isspace c = true) ws ->
  lower_go before (x ++ ws) = lower_go before x ++ ws.
Proof.
  intros H. revert before. induction x as [|c t IH]; intros before.
  - apply (@lower_go_spaces before ws H).
  - cbn [app lower_go]. rewrite IH, (@final_after_spaces t ws H), <- app_assoc.
    reflexivity.
Qed.

Lemma lstrip_lower (s : str) : lstrip (lower s) = lower (lstrip s).
Proof.
  unfold lower. induction s as [|c t IH]; [reflexivity|].
  destruct (isspace c) eqn:Ec.
  - rewrite (@lower_go_space false c t Ec). cbn [lstrip]. rewrite Ec.
    exact IH.
  - cbn [lstrip]. rewrite Ec. apply lstrip_id.
    rewrite head_space_lower_go. exact Ec.
Qed.

Lemma lstrip_spaces (ws x : str) :
  Forall (fun c => isspace c = true) ws -> lstrip (ws ++ x) = lstrip x.
Proof. induction 1 as [|c t Hc _ IH]; simpl; [|rewrite Hc]; auto. Qed.

Lemma rstrip_split (s : str) :
  exists ws, s = rstrip s ++ ws /\ Forall (fun c => isspace c = true) ws.
Proof.
  unfold rstrip. destruct (lstrip_split (rev s)) as (pre & E & F).
  exists (rev pre). split.
  - rewrite <- rev_app_distr, <- E, rev_involutive. reflexivity.
  - apply Forall_forall. intros x Hx. rewrite <- in_rev in Hx.
    revert x Hx. apply Forall_forall, F.
Qed.

Lemma rstrip_spaces (x ws : str) :
  last_space x = false -> Forall (fun c => isspace c = true) ws ->
  rstrip (x ++ ws) = x.
Proof.
  intros Hx H. unfold rstrip. rewrite rev_app_distr, lstrip_spaces.
  - rewrite lstrip_id by exact Hx. apply rev_involutive.
  - apply Forall_forall. intros c Hc. rewrite <- in_rev in Hc.
    revert c Hc. apply Forall_forall, H.
Qed.

Lemma rstrip_lower (s : str) : rstrip (lower s) = lower (rstrip s).
Proof.
  unfold lower. destruct (rstrip_split s) as (ws & E & F).
  rewrite E at 1. rewrite (@lower_go_app_spaces false (rstrip s) ws F).
  apply rstrip_spaces; [|exact F].
  rewrite last_space_lower_go. apply last_space_rstrip.
Qed.

Lemma strip_lower (s : str) : strip (lower s) = lower (strip s).
Proof. unfold strip. rewrite lstrip_lower, rstrip_lower. reflexivity. Qed.

Lemma lower_lower (s : str) : lower (lower s) = lower s.
Proof. apply lower_id, lowered_lower. Qed.

Lemma strip_strip (s : str) : strip (strip s) = strip s.
Proof.
  unfold strip at 1. rewrite (@lstrip_id _ (head_space_strip s)).
  unfold rstrip. rewrite lstrip_id; [apply rev_involutive|].
  apply (last_space_strip s).
Qed.

Lemma truthy_lower (s : str) : truthy (lower s) = truthy s.
Proof.
  destruct s as [|c t]; [reflexivity|].
  destruct (lower (c :: t)) as [|x l] eqn:E; [|reflexivity].
  apply lower_go_nil in E. discriminate.
Qed.

(** X8.  Letter case and white space around the raw name do not matter:
    the lowercased name and the trimmed name normalise to the same text as
    the name itself, and the resolver gives the same answer for a name and
    for its lowercased form, and for its trimmed form when that is not
    empty. *)
Theorem resolver_ignores_case_and_margins (s : str) :
  _clean_material_name (lower s) = _clean_material_name s
  /\ _clean_material_name (strip s) = _clean_material_name s
  /\ (forall (float : Type) (sch : Schema float) (st : Store float)
             (unit_ article : option str) (customer_id : option Z),
        _match_material sch st (Some (lower s)) unit_ article customer_id
        = _match_material sch st (Some s) unit_ article customer_id
        /\ (truthy (strip s) = true ->
            _match_material sch st (Some (strip s)) unit_ article customer_id
            = _match_material sch st (Some s) unit_ article customer_id)).
Proof.
  assert (Hlow : _clean_material_name (lower s) = _clean_material_name s).
  { unfold _clean_material_name. rewrite truthy_lower.
    destruct (truthy s); simpl; [|reflexivity].
    rewrite strip_lower, lower_lower. reflexivity. }
  assert (Hstrip : _clean_material_name (strip s) = _clean_material_name s).
  { unfold _clean_material_name.
    destruct (truthy s) eqn:Es; simpl.
    - rewrite strip_strip. destruct (truthy (strip s)) eqn:Et; simpl;
        [reflexivity|].
      destruct (strip s); [reflexivity | discriminate].
    - destruct s; [reflexivity | discriminate]. }
  split; [exact Hlow|]. split; [exact Hstrip|].
  intros float sch st unit_ article customer_id. split.
  - unfold _match_material. rewrite truthy_lower, Hlow. reflexivity.
  - intros Ht. unfold _match_material. rewrite Ht, Hstrip.
    destruct s as [|c t]; [discriminate|]. reflexivity.
Qed.

(** The name of cement with a capital letter and blanks around it. *)
Lemma resolver_margins_sample :
  _match_material (sample_schema AliasesOuter) alias_store
    (Some (strip (u "  Цемент "))) (Some (u "кг")) None None
  = _match_material (sample_schema AliasesOuter) alias_store
      (Some (u "  Цемент ")) (Some (u "кг")) None None.
Proof.
  apply (proj2 (proj2 (proj2 (resolver_ignores_case_and_margins
                                (u "  Цемент ")))
                  Z (sample_schema AliasesOuter) alias_store
                  (Some (u "кг")) None None)).
  reflexivity.
Defined.

(** The blank left in the normalised name of white cement. *)
Lemma clean_name_sample :
  In 32%N (_clean_material_name (u " Товар  Цемент   белый "))
  /\ isspace 32%N = true /\ 32%N = 32%N.
Proof.
  assert (Hin : In 32%N (_clean_material_name (u " Товар  Цемент   белый ")))
    by (vm_compute; tauto).
  split; [exact Hin|]. split; [reflexivity|].
  apply (proj1 (proj2 (proj2 (proj2 (proj2 (proj2
           (clean_name_is_normal (u " Товар  Цемент   белый ")))))))
           32%N Hin).
  reflexivity.
Defined.

End ResolverMore.

(** ** Columns and rows *)
Module ColumnMore.
Import Catalog Py Py.Notations Db Re PyStrFacts TextFacts Importer ColumnSpec
       ImportSteps Samples Samples2.

Lemma row_get_in (float : Type) (cols : list label) (row : list (cell float))
  (text : str) :
  In (LText text) cols -> length cols <= length row ->
  In (row_get cols row text) row.
Proof.
  revert row; induction cols as [|c cs IH]; intros row Hin Hlen;
    [destruct Hin|].
  destruct row as [|v vs]; [simpl in Hlen; lia|].
  assert (Hrest : In (LText text) cs -> In (row_get cs vs text) (v :: vs))
    by (intros H; right; apply IH; [exact H | simpl in Hlen; lia]).
  destruct c as [x|]; cbn [row_get].
  - destruct (PyStr.eqb x text) eqn:E; [left; reflexivity|].
    apply Hrest. destruct Hin as [Hin|Hin]; [|exact Hin].
    injection Hin as ->. rewrite eqb_refl in E. discriminate.
  - apply Hrest. destruct Hin as [Hin|Hin]; [discriminate | exact Hin].
Qed.

(** What the detection returns, field by field. *)
Lemma detected_column (columns : list label) (mapping : ColumnMapping) :
  _detect_columns columns = Ok mapping ->
  exists texts,
    columns = map LText texts
    /\ forall f, column_of mapping f = find (detects f) (rev texts).
Proof.
  intros H. apply detect_columns_ok in H as (texts & -> & ->).
  exists texts. split; [reflexivity|]. intros f.
  rewrite detect_columns_from.
  destruct (find (detects f) (rev texts)); [reflexivity|].
  destruct f; reflexivity.
Qed.

(** X9.  The column that [_detect_columns] maps a field to is one of the
    headers, one that is detected for that field, so that the lookup of the
    cell in a row as long as the header finds a cell of the row; and a
    field is left unmapped exactly when no header is detected for it. *)
Theorem mapped_column_is_a_header (columns : list label)
  (mapping : ColumnMapping) (f : Field) :
  _detect_columns columns = Ok mapping ->
  (forall text,
      column_of mapping f = Some text ->
      In (LText text) columns /\ detects f text = true
      /\ forall (float : Type) (row : list (cell float)),
           length columns <= length row ->
           In (row_get columns row text) row)
  /\ (column_of mapping f = None <->
      forall c, In (LText c) columns -> detects f c = false).
Proof.
  intros H. apply detected_column in H as (texts & -> & E).
  assert (Hin : forall c, In (LText c) (map LText texts) <-> In c texts).
  { intros c. rewrite in_map_iff. split.
    - intros (x & Ex & Hx). injection Ex as ->. exact Hx.
    - intros Hc. exists c. auto. }
  rewrite E. split.
  - intros text H. apply find_some in H as [Ht Hd].
    rewrite <- in_rev in Ht. apply Hin in Ht.
    split; [exact Ht|]. split; [exact Hd|].
    intros float row Hlen. apply row_get_in; assumption.
  - split.
    + intros H c Hc. apply (find_none _ _ H). rewrite <- in_rev.
      apply Hin. exact Hc.
    + intros H. destruct (find (detects f) (rev texts)) as [c|] eqn:Ef;
        [|reflexivity].
      apply find_some in Ef as [Hc Hd]. rewrite <- in_rev in Hc.
      apply Hin in Hc. rewrite (H c Hc) in Hd. discriminate.
Qed.

Lemma lstrip_all (s : str) :
  Forall (fun c => isspace c = true) s -> lstrip s = [].
Proof. induction 1 as [|c t Hc _ IH]; simpl; [|rewrite Hc]; auto. Qed.

Lemma strip_all (s : str) :
  Forall (fun c => isspace c = true) s -> strip s = [].
Proof. intros H. unfold strip. rewrite (lstrip_all H). reflexivity. Qed.

(** X10.  A row without a name is an error and nothing else: when no
    column was detected for the name, or the name cell of the row is
    missing, or it holds only white space, the turn of the loop adds one to
    the error count and leaves the store, the processed count and the
    unmatched rows as they were. *)
Theorem nameless_row_is_only_an_error (float : Type) (w : World float)
  (sch : Schema float) (cols : list label) (column_mapping : ColumnMapping)
  (source_id session_id : Z) (customer_id : option Z)
  (row : list (cell float)) (st : Store float) (t : Tally float) :
  col_name column_mapping = None
  \/ (exists text,
        col_name column_mapping = Some text
        /\ (row_get cols row text = CNull float
            \/ exists s, row_get cols row text = CText float s
                         /\ Forall (fun c => isspace c = true) s)) ->
  row_step w sch cols column_mapping source_id session_id customer_id row
           (st, t)
  = (Ok tt, (st, mkTally (processed t) (errors t + 1) (unmatched t))).
Proof.
  intros H.
  destruct (_extract_material_data w cols row column_mapping) as [md|e]
    eqn:Hmd.
  2:{ apply (@row_step_raises _ w sch cols column_mapping source_id
               session_id customer_id row e st t Hmd). }
  apply (@row_step_nameless _ w sch cols column_mapping source_id session_id
           customer_id row md Hmd st t).
  unfold _extract_material_data in Hmd.
  destruct (safe_get_numeric w cols row (col_price column_mapping));
    [|discriminate].
  injection Hmd as <-. unfold safe_get. cbn [md_name].
  destruct H as [->|(text & -> & [->|(s & -> & Hs)])]; try reflexivity.
  rewrite (strip_all Hs). reflexivity.
Qed.

Lemma nameless_row_sample :
  row_step (sample_world (u "prices.csv") None) (sample_schema AliasesOuter)
           (map LText headers)
           (mkColumnMapping (Some (u "Наименование")) (Some (u "Цена"))
              (Some (u "Ед. изм")) None)
           1 1 None blank_line (alias_store, mkTally 3 0 [])
  = (Ok tt, (alias_store, mkTally 3 1 [])).
Proof.
  apply (@nameless_row_is_only_an_error Z
           (sample_world (u "prices.csv") None) (sample_schema AliasesOuter)
           (map LText headers)
           (mkColumnMapping (Some (u "Наименование")) (Some (u "Цена"))
              (Some (u "Ед. изм")) None)
           1%Z 1%Z None blank_line alias_store (mkTally 3 0 [])).
  right. exists (u "Наименование"). split; [reflexivity|].
  right. exists (u "   "). split; [reflexivity|].
  repeat constructor.
Defined.

(** X11.  A list without a name column imports nothing: when every header
    is a text and none is detected as the name, [_process_dataframe]
    reports no row as processed or unmatched, every row as an error, and
    leaves the store as it was. *)
Theorem sheet_without_name_column (float : Type) (w : World float)
  (sch : Schema float) (df : DataFrame float) (source_id session_id : Z)
  (customer_id : option Z) (st : Store float) :
  (forall c, In c (columns df) ->
             exists text, c = LText text /\ detects FName text = false) ->
  _process_dataframe w sch df source_id session_id customer_id st
  = (Ok (mkTally 0 (Z.of_nat (length (rows df))) []), st).
Proof.
  intros Hno.
  destruct (_detect_columns (columns df)) as [cm|e] eqn:Hcm.
  2:{ apply detect_columns_raise in Hcm as [_ Hin].
      destruct (Hno _ Hin) as (text & E & _). discriminate. }
  assert (Hmap : col_name cm = None).
  { destruct (@detected_column (columns df) cm Hcm) as (texts & Et & E).
    change (column_of cm FName = None). rewrite E.
    destruct (find (detects FName) (rev texts)) as [c|] eqn:Ef;
      [|reflexivity].
    apply find_some in Ef as [Hin Hd]. rewrite <- in_rev in Hin.
    destruct (Hno (LText c)) as (text & Ec & Hc);
      [rewrite Et; apply in_map; exact Hin|].
    injection Ec as <-. rewrite Hc in Hd. discriminate. }
  unfold _process_dataframe. rewrite Hcm.
  assert (Hstep : forall row t,
            row_step w sch (columns df) cm source_id session_id customer_id
                     row (st, t) = (Ok tt, (st, error_counted t))).
  { intros row t.
    destruct (_extract_material_data w (columns df) row cm) as [md|e]
      eqn:Hmd.
    - apply (@row_step_nameless _ w sch (columns df) cm source_id
               session_id customer_id row md Hmd st t).
      unfold _extract_material_data in Hmd.
      destruct (safe_get_numeric w (columns df) row (col_price cm));
        [|discriminate].
      injection Hmd as <-. unfold safe_get. cbn [md_name].
      rewrite Hmap. reflexivity.
    - apply (@row_step_raises _ w sch (columns df) cm source_id session_id
               customer_id row e st t Hmd). }
  assert (Hloop : forall rs t,
            rows_loop w sch (columns df) cm
                      source_id session_id customer_id rs (st, t)
            = (Ok tt, (st, mkTally (processed t)
                                   (errors t + Z.of_nat (length rs))
                                   (unmatched t)))).
  { induction rs as [|row rest IH]; intros t.
    - simpl. unfold ret. rewrite Z.add_0_r. destruct t; reflexivity.
    - cbn [rows_loop]. unfold bind at 1. rewrite Hstep, IH.
      unfold error_counted. cbn [processed errors unmatched].
      replace (errors t + Z.of_nat (length (row :: rest)))%Z
        with (errors t + 1 + Z.of_nat (length rest))%Z
        by (cbn [length]; lia).
      reflexivity. }
  rewrite Hloop. reflexivity.
Qed.

Lemma sheet_without_name_sample :
  _process_dataframe (sample_world (u "prices.csv") (Some df_no_name))
    (sample_schema AliasesOuter) df_no_name 1 1 None alias_store
  = (Ok (mkTally 0 2 []), alias_store).
Proof.
  apply (@sheet_without_name_column Z
           (sample_world (u "prices.csv") (Some df_no_name))
           (sample_schema AliasesOuter) df_no_name 1%Z 1%Z None alias_store).
  intros c [<-|[<-|[]]]; eexists; split; try reflexivity;
    vm_compute; reflexivity.
Defined.

(** The name column of the sample headers. *)
Lemma mapped_column_sample :
  In (LText (u "Наименование")) (map LText headers)
  /\ detects FName (u "Наименование") = true.
Proof.
  destruct (proj1 (@mapped_column_is_a_header (map LText headers)
                     (mkColumnMapping (Some (u "Наименование"))
                        (Some (u "Цена")) (Some (u "Ед. изм")) None)
                     FName eq_refl)
              (u "Наименование") eq_refl) as (Hin & Hd & _).
  split; [exact Hin | exact Hd].
Defined.

Lemma detects_one (c : str) (f g : Field) :
  detects f c = true -> detects g c = true -> f = g.
Proof.
  unfold detects. destruct (field_of c) as [h|]; [|discriminate].
  destruct h, f; try discriminate; destruct g; try discriminate; reflexivity.
Qed.

(** X12.  No header serves two fields: when [_detect_columns] maps two
    fields to the same header, they are the same field. *)
Theorem no_header_serves_two_fields (columns : list label)
  (mapping : ColumnMapping) (f g : Field) (text : str) :
  _detect_columns columns = Ok mapping ->
  column_of mapping f = Some text ->
  column_of mapping g = Some text ->
  f = g.
Proof.
  intros H. apply detected_column in H as (texts & _ & E).
  rewrite !E. intros Hf Hg.
  apply find_some in Hf as [_ Hf]. apply find_some in Hg as [_ Hg].
  exact (detects_one _ _ _ Hf Hg).
Qed.

(** The header of the prices in the sample list. *)
Lemma no_header_sample :
  _detect_columns (map LText headers)
  = Ok (mkColumnMapping (Some (u "Наименование")) (Some (u "Цена"))
          (Some (u "Ед. изм")) None)
  /\ FPrice = FPrice.
Proof.
  split; [reflexivity|].
  apply (@no_header_serves_two_fields (map LText headers)
           (mkColumnMapping (Some (u "Наименование")) (Some (u "Цена"))
              (Some (u "Ед. изм")) None)
           FPrice FPrice (u "Цена"));
    reflexivity.
Defined.

(** X13.  The texts taken from a row are trimmed: the name, the unit and
    the article that [_extract_material_data] returns have no white space
    at either end, whatever the cells hold. *)
Theorem extracted_texts_are_trimmed (float : Type) (w : World float)
  (cols : list label) (row : list (cell float))
  (column_mapping : ColumnMapping) (md : MaterialData float) (t : str) :
  _extract_material_data w cols row column_mapping = Ok md ->
  md_name md = Some t \/ md_unit md = Some t \/ md_article md = Some t ->
  strip t = t.
Proof.
  intros Hmd H.
  assert (Hs : forall column, safe_get w cols row column = Some t ->
                              strip t = t).
  { intros column Hc. unfold safe_get in Hc.
    destruct column as [text|]; [|discriminate].
    destruct (row_get cols row text); [discriminate| |];
      injection Hc as <-; apply ResolverMore.strip_strip. }
  unfold _extract_material_data in Hmd.
  destruct (safe_get_numeric w cols row (col_price column_mapping));
    [|discriminate].
  injection Hmd as <-. cbn [md_name md_unit md_article] in H.
  destruct H as [H|[H|H]]; exact (Hs _ H).
Qed.

(** The name of a line written with blanks around it. *)
Lemma extracted_texts_sample :
  strip (u "Гвозди") = u "Гвозди".
Proof.
  apply (@extracted_texts_are_trimmed Z mixed_world (map LText headers)
           (line (u "  Гвозди ") (u "кг") (CNum 50%Z))
           (mkColumnMapping (Some (u "Наименование")) (Some (u "Цена"))
              (Some (u "Ед. изм")) None)
           (mkMaterialData (Some (u "Гвозди")) (Some 50%Z) (Some (u "кг"))
              None)
           (u "Гвозди")).
  - reflexivity.
  - left. reflexivity.
Defined.

End ColumnMore.

(** ** What a batch leaves in the store *)
Module LedgerFacts.
Import Catalog Py Py.Notations Db Re PyStrFacts ResolverFacts Importer
       ImportSteps ImportLoop Bookkeeping.

Lemma match_material_active (float : Type) (sch : Schema float)
  (st : Store float) (name unit_ article : option str)
  (customer_id : option Z) (m : Material float) (a : option str) :
  _match_material sch st name unit_ article customer_id = Some (m, a) ->
  In m (materials st) /\ active m = 1%Z.
Proof.
  unfold _match_material. destruct name as [n|]; [|discriminate].
  destruct (negb (truthy n)); [discriminate|].
  destruct (match unit_ with
            | Some un =>
                if truthy un
                then get_material_by_name st (_clean_material_name n) un
                else None
            | None => None
            end) as [m0|] eqn:Ex.
  - intros H. injection H as <- <-.
    destruct unit_ as [un|]; [|discriminate].
    destruct (truthy un); [|discriminate].
    apply get_material_by_name_some in Ex as (Hin & _ & _ & Ha). auto.
  - destruct (find_material_by_alias sch st (_clean_material_name n)
                customer_id) as [|[m0 t] rest] eqn:Ef; [discriminate|].
    intros H. injection H as <- <-.
    assert (Hin : In (m0, t) (find_material_by_alias sch st
                                (_clean_material_name n) customer_id))
      by (rewrite Ef; left; reflexivity).
    apply find_material_by_alias_in in Hin as (al & _ & Hm & _ & Hj & _).
    unfold joins in Hj. apply andb_true_iff in Hj as [_ Hact].
    apply Z.eqb_eq in Hact. auto.
Qed.

Section Ledger.
Variable float : Type.
Variable w : World float.
Variable sch : Schema float.
Variables (cols : list label) (column_mapping : ColumnMapping).
Variables (source_id session_id : Z) (customer_id : option Z).

Let step := row_step w sch cols column_mapping source_id session_id
                     customer_id.
Let loop := rows_loop w sch cols column_mapping source_id session_id
                      customer_id.

Lemma ledger_refl (s : Store float * Tally float) :
  ledger w sch source_id session_id s s.
Proof.
  exists [], [], [].
  repeat match goal with |- _ /\ _ => split end;
    try (simpl; rewrite ?app_nil_r; reflexivity);
    try (simpl; lia); constructor.
Qed.

Lemma ledger_error (st : Store float) (t : Tally float) :
  ledger w sch source_id session_id (st, t) (st, error_counted t).
Proof.
  exists [], [], [].
  repeat match goal with |- _ /\ _ => split end;
    try (simpl; rewrite ?app_nil_r; reflexivity);
    try (simpl; lia); constructor.
Qed.

Lemma ledger_trans (s1 s2 s3 : Store float * Tally float) :
  ledger w sch source_id session_id s1 s2 ->
  ledger w sch source_id session_id s2 s3 ->
  ledger w sch source_id session_id s1 s3.
Proof.
  intros (lp & lu & lm & Hp & Fp & Hc & Hu & Hm & Ff & He & Hms & Ha & Hcu
          & Hs & Hse)
         (lp' & lu' & lm' & Hp' & Fp' & Hc' & Hu' & Hm' & Ff' & He' & Hms'
          & Ha' & Hcu' & Hs' & Hse').
  exists (lp ++ lp'), (lu ++ lu'), (lm ++ lm').
  rewrite Hms in Fp'.
  repeat match goal with |- _ /\ _ => split end; try congruence.
  - rewrite Hp', Hp, app_assoc. reflexivity.
  - apply Forall_app. split; assumption.
  - rewrite Hc', Hc, length_app. lia.
  - rewrite Hu', Hu, app_assoc. reflexivity.
  - rewrite Hm', Hm, app_assoc. reflexivity.
  - apply Forall2_app; assumption.
  - rewrite length_app. lia.
Qed.

Lemma step_ledger (row : list (cell float)) (st : Store float)
  (t : Tally float) :
  exists s', step row (st, t) = (Ok tt, s')
             /\ ledger w sch source_id session_id (st, t) s'.
Proof.
  destruct (@row_step_turn float w sch cols column_mapping source_id
              session_id customer_id row st t) as (s' & Hstep & Hturn).
  exists s'. split; [exact Hstep|].
  destruct Hturn as [|md name m a Hmd Hname Hn Hmatch Hacc
                     |md name Hmd Hname Hn Hmatch Hacc].
  - apply ledger_error.
  - exists [imported_price w st source_id m md], [], [].
    destruct (@match_material_active _ _ _ _ _ _ _ _ _ Hmatch)
      as [Hin Hact].
    repeat match goal with |- _ /\ _ => split end;
      try (simpl; rewrite ?app_nil_r; reflexivity);
      try (simpl; lia); try (constructor; fail).
    constructor; [|constructor].
    unfold batch_price, imported_price. simpl.
    repeat split. exists m. auto.
  - exists [], [unmatched_row sch st session_id name md], [md].
    repeat match goal with |- _ /\ _ => split end;
      try (simpl; rewrite ?app_nil_r; reflexivity);
      try (simpl; lia); try (constructor; fail).
    constructor; [|constructor].
    unfold files, unmatched_row. simpl.
    repeat split. exact Hname.
Qed.

Lemma loop_ledger (rs : list (list (cell float)))
  (s : Store float * Tally float) :
  exists s', loop rs s = (Ok tt, s')
             /\ ledger w sch source_id session_id s s'.
Proof.
  revert s; induction rs as [|row rest IH]; intros s.
  - exists s. split; [reflexivity | apply ledger_refl].
  - destruct s as [st t].
    destruct (step_ledger row st t) as (s1 & Hstep & H1).
    destruct (IH s1) as (s2 & Hloop & H2).
    exists s2. split; [|exact (ledger_trans H1 H2)].
    unfold loop. simpl. unfold bind. fold (step row). rewrite Hstep.
    exact Hloop.
Qed.

End Ledger.

End LedgerFacts.

(* ===================================================================== *)
(** * The whole import                                                     *)
(* ===================================================================== *)

Module BatchFacts.
Import Catalog Py Py.Notations Db Re Importer ImportSteps ImportLoop
       Bookkeeping LedgerFacts.

Lemma filter_keeps (A : Type) (p : A -> bool) (l : list A) :
  (forall x, In x l -> p x = true) -> filter p l = l.
Proof.
  induction l as [|x t IH]; simpl; intros H; [reflexivity|].
  rewrite (H x (or_introl eq_refl)), IH; auto.
Qed.

Lemma filter_drops (A : Type) (p : A -> bool) (l : list A) :
  (forall x, In x l -> p x = false) -> filter p l = [].
Proof.
  induction l as [|x t IH]; simpl; intros H; [reflexivity|].
  rewrite (H x (or_introl eq_refl)), IH; auto.
Qed.

Section Whole.
Variable float : Type.
Variable w : World float.
Variable sch : Schema float.

(** [_process_dataframe] raises when a header label is not a text, before
    any line is read; otherwise it returns, and what it leaves is on the
    ledger. *)
Lemma process_dataframe_ledger (df : DataFrame float)
  (source_id session_id : Z) (customer_id : option Z) (st : Store float) :
  (In LOther (columns df)
   /\ _process_dataframe w sch df source_id session_id customer_id st
      = (Raise AttributeError, st))
  \/ (~ In LOther (columns df)
      /\ exists t st',
           _process_dataframe w sch df source_id session_id customer_id st
           = (Ok t, st')
           /\ ledger w sch source_id session_id (st, mkTally 0 0 []) (st', t)
           /\ (processed t + errors t = Z.of_nat (length (rows df)))%Z).
Proof.
  destruct (_detect_columns (columns df)) as [cm|e] eqn:Hcm.
  2:{ left. apply ColumnSpec.detect_columns_raise in Hcm as [-> Hin].
      split; [exact Hin|]. unfold _process_dataframe.
      rewrite (proj2 (ColumnSpec.detect_columns_raise (columns df)
                        AttributeError) (conj eq_refl Hin)).
      reflexivity. }
  right. split.
  { intros Hin.
    rewrite (proj2 (ColumnSpec.detect_columns_raise (columns df)
                      AttributeError) (conj eq_refl Hin)) in Hcm.
    discriminate. }
  destruct (@loop_ledger float w sch (columns df) cm source_id session_id
              customer_id (rows df) (st, mkTally 0 0 []))
    as ([st' t] & Hloop & Hl).
  destruct (@rows_loop_counts float w sch (columns df) cm source_id
              session_id customer_id (rows df) st (mkTally 0 0 []))
    as (st2 & t2 & Hloop2 & Hc).
  cbv zeta in Hloop, Hloop2. rewrite Hloop in Hloop2.
  injection Hloop2 as <- <-.
  exists t, st'. unfold _process_dataframe. rewrite Hcm. cbv zeta.
  rewrite Hloop.
  split; [reflexivity|]. split; [exact Hl|]. simpl in Hc. lia.
Qed.

(** The update of the session that was created last changes that row
    alone. *)
Lemma update_last_session (st0 st : Store float) (s : ImportSession)
  (status_ : str) (p e : option Z) :
  import_sessions st = import_sessions st0 ++ [s] ->
  s_id s = next_id (map s_id (import_sessions st0)) ->
  update_import_session (s_id s) status_ p e st
  = (Ok tt,
     with_session st0 st
       (mkImportSession (s_id s) (source_file s) (s_customer_id s)
          (s_vendor_id s) status_
          (match p with Some n => Some n | None => processed_rows s end)
          (match e with Some n => Some n | None => error_rows s end))).
Proof.
  intros Hs Hid. unfold update_import_session, modify, with_session.
  f_equal. f_equal. rewrite Hs, map_app. f_equal.
  - rewrite <- (map_id (import_sessions st0)) at 2. apply map_ext_in.
    intros x Hx. destruct (Z.eqb_spec (s_id x) (s_id s)) as [E|]; [|reflexivity].
    pose proof (next_id_above (map s_id (import_sessions st0)) (s_id x)
                  (in_map s_id _ _ Hx)) as Hlt.
    lia.
  - cbn [map]. rewrite Z.eqb_refl. reflexivity.
Qed.

(** The six ways in which [import_from_file] ends. *)
Lemma import_outcome (file_path : str) (customer_id vendor_id : option Z)
  (doc_date_ : option str) (st : Store float) :
  let opened := opened_row sch st file_path customer_id vendor_id in
  let failed := session_row st file_path customer_id vendor_id (u "failed")
                  (default_session_rows sch) (default_session_rows sch) in
  let st1 := with_session st st opened in
  let src := batch_source w st file_path customer_id vendor_id doc_date_ in
  let st2 := set_price_sources st1 (price_sources st ++ [src]) in
  let r := import_from_file w sch file_path customer_id vendor_id doc_date_
             st in
  (path_exists w file_path = false
   /\ r = (Raise (FileNotFoundError file_path), st))
  \/ (path_exists w file_path = true
      /\ accepts sch st (InsSession float opened) = false
      /\ r = (Raise IntegrityError, st))
  \/ (path_exists w file_path = true
      /\ accepts sch st (InsSession float opened) = true
      /\ ((exists e, read_file w file_path = Raise e
                     /\ r = (Raise e, with_session st st failed))
          \/ (exists df, read_file w file_path = Ok df
                         /\ accepts sch st1 (InsSource float src) = false
                         /\ r = (Raise IntegrityError,
                                 with_session st st failed))
          \/ (exists df, read_file w file_path = Ok df
                         /\ accepts sch st1 (InsSource float src) = true
                         /\ In LOther (columns df)
                         /\ r = (Raise AttributeError,
                                 with_session st st2 failed))
          \/ (exists df t st3,
                read_file w file_path = Ok df
                /\ accepts sch st1 (InsSource float src) = true
                /\ ~ In LOther (columns df)
                /\ _process_dataframe w sch df (ps_id src) (s_id opened)
                     customer_id st2 = (Ok t, st3)
                /\ ledger w sch (ps_id src) (s_id opened)
                     (st2, mkTally 0 0 []) (st3, t)
                /\ (processed t + errors t
                    = Z.of_nat (length (rows df)))%Z
                /\ r = (Ok (mkImportResult (s_id opened)
                              (Z.of_nat (length (rows df))) (processed t)
                              (errors t) (unmatched t) (ps_id src)),
                        with_session st st3
                          (session_row st file_path customer_id vendor_id
                             (u "completed") (Some (processed t))
                             (Some (errors t))))))).
Proof.
  intros opened failed st1 src st2 r.
  destruct (path_exists w file_path) eqn:Hex.
  2:{ left. split; [reflexivity|]. subst r. unfold import_from_file.
      rewrite Hex. reflexivity. }
  right.
  destruct (accepts sch st (InsSession float opened)) eqn:Hacc.
  2:{ left. split; [reflexivity|]. split; [reflexivity|]. subst r.
      unfold import_from_file. rewrite Hex. cbn [negb].
      unfold bind at 1. unfold create_import_session, insert.
      fold (session_row st file_path customer_id vendor_id
              (default_session_status sch) (default_session_rows sch)
              (default_session_rows sch)).
      fold (opened_row sch st file_path customer_id vendor_id). fold opened.
      rewrite Hacc. reflexivity. }
  right. split; [reflexivity|]. split; [reflexivity|].
  assert (Hr : r = try_except
                 (df <- (fun st => (read_file w file_path, st)) ;;
                  source_id <-
                    add_price_source sch (u "invoice") (ps_name src)
                      customer_id vendor_id (doc_date src) None ;;
                  results <- _process_dataframe w sch df source_id
                               (s_id opened) customer_id ;;
                  update_import_session (s_id opened) (u "completed")
                    (Some (processed results)) (Some (errors results)) ;;;
                  ret (mkImportResult (s_id opened)
                         (Z.of_nat (length (rows df)))
                         (processed results) (errors results)
                         (unmatched results) source_id))
                 (fun e =>
                    update_import_session (s_id opened) (u "failed")
                      None None ;;;
                    raise e) st1).
  { subst r. unfold import_from_file. rewrite Hex. cbn [negb].
    unfold bind at 1. unfold create_import_session, insert.
    fold (session_row st file_path customer_id vendor_id
            (default_session_status sch) (default_session_rows sch)
            (default_session_rows sch)).
    fold (opened_row sch st file_path customer_id vendor_id). fold opened.
    rewrite Hacc. reflexivity. }
  assert (Hs1 : import_sessions st1 = import_sessions st ++ [opened])
    by reflexivity.
  assert (Hfail : forall e,
            (update_import_session (s_id opened) (u "failed") None None ;;;
             @raise (Store float) (ImportResult float) e) st1
            = (Raise e, with_session st st failed)).
  { intros e. unfold bind.
    rewrite (@update_last_session st st1 opened (u "failed") None None Hs1
               eq_refl).
    reflexivity. }
  destruct (read_file w file_path) as [df|e] eqn:Hread.
  2:{ left. exists e. split; [reflexivity|]. rewrite Hr.
      unfold try_except. unfold bind at 1. apply Hfail. }
  right.
  destruct (accepts sch st1 (InsSource float src)) eqn:Hsrc.
  2:{ left. exists df. split; [reflexivity|]. split; [reflexivity|].
      rewrite Hr. unfold try_except. unfold bind at 1.
      unfold bind at 1. unfold add_price_source, insert.
      change (mkPriceSource (next_id (map ps_id (price_sources st1)))
                (Some (u "invoice")) (ps_name src) customer_id vendor_id
                (doc_date src) None) with src.
      rewrite Hsrc. apply Hfail. }
  right.
  destruct (process_dataframe_ledger df (ps_id src) (s_id opened) customer_id
              st2) as [[Hin Hproc]|(Hnot & t & st3 & Hproc & Hl & Hc)].
  { left. exists df. split; [reflexivity|]. split; [reflexivity|].
    split; [exact Hin|].
    rewrite Hr. unfold try_except.
    unfold bind at 1. unfold bind at 1. unfold add_price_source, insert.
    change (mkPriceSource (next_id (map ps_id (price_sources st1)))
              (Some (u "invoice")) (ps_name src) customer_id vendor_id
              (doc_date src) None) with src.
    rewrite Hsrc. cbv beta iota.
    change (next_id (map ps_id (price_sources st1))) with (ps_id src).
    change (set_price_sources st1 (price_sources st1 ++ [src])) with st2.
    unfold bind at 1. rewrite Hproc.
    unfold bind.
    rewrite (@update_last_session st st2 opened (u "failed") None None
               eq_refl eq_refl).
    reflexivity. }
  right.
  exists df, t, st3. split; [reflexivity|]. split; [reflexivity|].
  split; [exact Hnot|].
  split; [exact Hproc|]. split; [exact Hl|]. split; [exact Hc|].
  rewrite Hr. unfold try_except.
  unfold bind at 1. unfold bind at 1. unfold add_price_source, insert.
  change (mkPriceSource (next_id (map ps_id (price_sources st1)))
            (Some (u "invoice")) (ps_name src) customer_id vendor_id
            (doc_date src) None) with src.
  rewrite Hsrc. cbv beta iota.
  change (next_id (map ps_id (price_sources st1))) with (ps_id src).
  change (set_price_sources st1 (price_sources st1 ++ [src])) with st2.
  unfold bind at 1. rewrite Hproc. unfold bind at 1.
  assert (Hs3 : import_sessions st3 = import_sessions st ++ [opened]).
  { destruct Hl as (lp & lu & lm & _ & _ & _ & _ & _ & _ & _ & _ & _ & _ & _
                    & Hse).
    exact Hse. }
  rewrite (@update_last_session st st3 opened (u "completed")
             (Some (processed t)) (Some (errors t)) Hs3 eq_refl).
  reflexivity.
Qed.

End Whole.

End BatchFacts.

Module BatchMore.
Import Catalog Py Py.Notations Db Re PyStrFacts Importer ImportLoop
       Registry Bookkeeping LedgerFacts BatchFacts Samples Samples2.

(** X14.  The prices [_process_dataframe] leaves are the ones it counts.
    When a header label is not a text the call raises [AttributeError]
    before any line is read, and the store is as it was.  Otherwise it
    returns, and the table of prices is the old one followed by exactly
    [processed] new rows, each recorded against the source of the batch,
    active, dated today, in roubles, for an active material of the
    catalogue; materials, aliases, customers, sources and sessions are as
    they were. *)
Theorem batch_writes_one_price_per_processed_line (float : Type)
  (w : World float) (sch : Schema float) (df : DataFrame float)
  (source_id session_id : Z) (customer_id : option Z) (st : Store float) :
  (In LOther (columns df)
   /\ _process_dataframe w sch df source_id session_id customer_id st
      = (Raise AttributeError, st))
  \/ (~ In LOther (columns df)
      /\ exists t st' lp,
           _process_dataframe w sch df source_id session_id customer_id st
           = (Ok t, st')
           /\ material_prices st' = material_prices st ++ lp
           /\ processed t = Z.of_nat (length lp)
           /\ Forall (batch_price w (materials st) source_id) lp
           /\ materials st' = materials st
           /\ material_aliases st' = material_aliases st
           /\ customers st' = customers st
           /\ price_sources st' = price_sources st
           /\ import_sessions st' = import_sessions st).
Proof.
  destruct (process_dataframe_ledger w sch df source_id session_id
              customer_id st)
    as [H|(Hnot & t & st' & Hproc
           & (lp & lu & lm & Hp & Fp & Hc & _ & _ & _ & _ & Hm & Ha & Hcu
              & Hs & Hse) & _)];
    [left; exact H|].
  right. split; [exact Hnot|].
  exists t, st', lp. cbn [fst snd processed] in *.
  repeat match goal with |- _ /\ _ => split end; try assumption; lia.
Qed.

(** X15.  The unmatched list of the result and the table of unmatched
    imports go together.  Unless a header label is not a text, in which
    case the call raises [AttributeError] with the store as it was,
    [_process_dataframe] returns, and the table is the old one followed by
    one record for each line of the list, in the same order, with the
    session of the batch, the name, price, unit and article of the line, no
    suggestion and the default status; and every line of the list is among
    the errors counted. *)
Theorem unmatched_records_mirror_result (float : Type) (w : World float)
  (sch : Schema float) (df : DataFrame float) (source_id session_id : Z)
  (customer_id : option Z) (st : Store float) :
  (In LOther (columns df)
   /\ _process_dataframe w sch df source_id session_id customer_id st
      = (Raise AttributeError, st))
  \/ (~ In LOther (columns df)
      /\ exists t st' lu,
           _process_dataframe w sch df source_id session_id customer_id st
           = (Ok t, st')
           /\ unmatched_imports st' = unmatched_imports st ++ lu
           /\ Forall2 (files sch session_id) lu (unmatched t)
           /\ (Z.of_nat (length (unmatched t)) <= errors t)%Z).
Proof.
  destruct (process_dataframe_ledger w sch df source_id session_id
              customer_id st)
    as [H|(Hnot & t & st' & Hproc
           & (lp & lu & lm & _ & _ & _ & Hu & Hm & Ff & He & _) & _)];
    [left; exact H|].
  right. split; [exact Hnot|].
  exists t, st', lu. cbn [fst snd unmatched errors app] in *.
  rewrite Hm. repeat match goal with |- _ /\ _ => split end;
    try assumption; lia.
Qed.

(** X16.  What a completed import leaves.  When [import_from_file]
    returns, the file exists, its two counters add up to the number of
    rows, the session it reports is the row appended to the sessions, with
    the file, the customer and the vendor of the call, the status
    [completed] and the two counters of the result, and the source it
    reports is the row appended to the price sources, of type [invoice];
    materials, aliases and customers are as they were. *)
Theorem completed_import_is_recorded (float : Type) (w : World float)
  (sch : Schema float) (file_path : str) (customer_id vendor_id : option Z)
  (doc_date_ : option str) (st st' : Store float) (r : ImportResult float) :
  import_from_file w sch file_path customer_id vendor_id doc_date_ st
  = (Ok r, st') ->
  path_exists w file_path = true
  /\ (r_processed r + r_errors r = total_rows r)%Z
  /\ import_sessions st'
     = import_sessions st
       ++ [mkImportSession (r_session_id r) file_path customer_id vendor_id
             (u "completed") (Some (r_processed r)) (Some (r_errors r))]
  /\ r_session_id r = next_id (map s_id (import_sessions st))
  /\ price_sources st'
     = price_sources st
       ++ [batch_source w st file_path customer_id vendor_id doc_date_]
  /\ price_source_id r = next_id (map ps_id (price_sources st))
  /\ materials st' = materials st
  /\ material_aliases st' = material_aliases st
  /\ customers st' = customers st.
Proof.
  intros Himp.
  destruct (import_outcome w sch file_path customer_id vendor_id doc_date_ st)
    as [[_ H]|[(_ & _ & H)
              |(Hex & _ & [(e & _ & H)
                          |[(df & _ & _ & H)|[(df & _ & _ & _ & H)|H]]])]];
    cbv zeta in H; try (rewrite Himp in H; discriminate).
  destruct H as (df & t & st3 & _ & _ & _ & _ & Hl & Hc & H).
  rewrite Himp in H. injection H as -> ->.
  destruct Hl as (lp & lu & lm & _ & _ & _ & _ & _ & _ & _ & Hm & Ha & Hcu
                  & Hs & _).
  cbn [fst snd] in *.
  repeat match goal with |- _ /\ _ => split end;
    try assumption; try reflexivity.
Qed.

(** The list of two lines, one known and one unknown, imported into the
    sample catalogue. *)
Lemma completed_import_sample :
  exists r st',
    import_from_file mixed_world (sample_schema AliasesOuter)
      (u "prices.csv") None None None alias_store = (Ok r, st')
    /\ (r_processed r + r_errors r = total_rows r)%Z
    /\ import_sessions st'
       = [mkImportSession (r_session_id r) (u "prices.csv") None None
            (u "completed") (Some (r_processed r)) (Some (r_errors r))].
Proof.
  destruct (import_from_file mixed_world (sample_schema AliasesOuter)
              (u "prices.csv") None None None alias_store)
    as [[r|e] st'] eqn:Himp; [|vm_compute in Himp; discriminate].
  exists r, st'. split; [reflexivity|].
  destruct (@completed_import_is_recorded Z mixed_world
              (sample_schema AliasesOuter) (u "prices.csv") None None None
              alias_store st' r Himp) as (_ & Hc & Hs & _).
  split; [exact Hc | exact Hs].
Defined.

(** X17.  No session is left open.  Either [import_from_file] raises
    with the store as it was, or one session has been appended for the
    file, and it is [completed] when the call returns and [failed] when it
    raises.  A call that raises leaves, apart from that row, no price and
    no unmatched record; it leaves no price source either, except when the
    file was read and its source recorded and a header label then turned
    out not to be a text: the [AttributeError] of that case leaves the
    source of the batch behind, with the [failed] session.  The list
    [df_numbered] is such a file. *)
Theorem session_is_never_left_open :
  (forall (float : Type) (w : World float) (sch : Schema float)
          (file_path : str) (customer_id vendor_id : option Z)
          (doc_date_ : option str) (st : Store float),
     let out := import_from_file w sch file_path customer_id vendor_id
                  doc_date_ st in
     (snd out = st /\ exists e, fst out = Raise e)
     \/ (exists s,
           import_sessions (snd out) = import_sessions st ++ [s]
           /\ s_id s = next_id (map s_id (import_sessions st))
           /\ source_file s = file_path
           /\ match fst out with
              | Ok r => status s = u "completed" /\ r_session_id r = s_id s
              | Raise e =>
                  status s = u "failed"
                  /\ material_prices (snd out) = material_prices st
                  /\ unmatched_imports (snd out) = unmatched_imports st
                  /\ (price_sources (snd out) = price_sources st
                      \/ (e = AttributeError
                          /\ (exists df, read_file w file_path = Ok df
                                         /\ In LOther (columns df))
                          /\ price_sources (snd out)
                             = price_sources st
                               ++ [batch_source w st file_path customer_id
                                     vendor_id doc_date_]))
              end))
  /\ (let out := import_from_file numbered_world (sample_schema AliasesOuter)
                   (u "prices.csv") None None None alias_store in
      fst out = Raise AttributeError
      /\ map status (import_sessions (snd out)) = [u "failed"]
      /\ price_sources (snd out)
         = [batch_source numbered_world alias_store (u "prices.csv") None
              None None]
      /\ material_prices (snd out) = []).
Proof.
  split; [|vm_compute; repeat split].
  intros float w sch file_path customer_id vendor_id doc_date_ st out.
  subst out.
  destruct (import_outcome w sch file_path customer_id vendor_id doc_date_ st)
    as [[_ H]|[(_ & _ & H)
              |(Hex & _ & [(e & _ & H)
                          |[(df & _ & _ & H)
                           |[(df & Hread & _ & Hin & H)|H]]])]];
    cbv zeta in H.
  - left. rewrite H. split; [reflexivity | eexists; reflexivity].
  - left. rewrite H. split; [reflexivity | eexists; reflexivity].
  - right. rewrite H. eexists. split; [reflexivity|].
    repeat split. left. reflexivity.
  - right. rewrite H. eexists. split; [reflexivity|].
    repeat split. left. reflexivity.
  - right. rewrite H. eexists. split; [reflexivity|].
    split; [reflexivity|]. split; [reflexivity|].
    split; [reflexivity|]. split; [reflexivity|]. split; [reflexivity|].
    right. split; [reflexivity|]. split; [|reflexivity].
    exists df. split; [exact Hread | exact Hin].
  - destruct H as (df & t & st3 & _ & _ & _ & _ & _ & _ & H).
    right. rewrite H. eexists. split; [reflexivity|].
    repeat split.
Qed.

(** X18.  The report of a session lists what the import returned as
    unmatched.  In a store whose unmatched records all refer to sessions
    that exist, under a schema whose default resolution status is
    [pending], [get_import_results] for the session of a completed import
    counts as many items as the result has unmatched lines, and its items
    are the records of those lines, in their order. *)
Theorem report_lists_unmatched_lines (float : Type) (w : World float)
  (sch : Schema float) (file_path : str) (customer_id vendor_id : option Z)
  (doc_date_ : option str) (st st' : Store float) (r : ImportResult float) :
  sessions_known st ->
  default_resolution_status sch = u "pending" ->
  import_from_file w sch file_path customer_id vendor_id doc_date_ st
  = (Ok r, st') ->
  unmatched_count (get_import_results st' (r_session_id r))
  = Z.of_nat (length (r_unmatched r))
  /\ Forall2 (files sch (r_session_id r))
             (unmatched_items (get_import_results st' (r_session_id r)))
             (r_unmatched r).
Proof.
  intros Hknown Hdef Himp.
  destruct (import_outcome w sch file_path customer_id vendor_id doc_date_ st)
    as [[_ H]|[(_ & _ & H)
              |(Hex & _ & [(e & _ & H)
                          |[(df & _ & _ & H)|[(df & _ & _ & _ & H)|H]]])]];
    cbv zeta in H; try (rewrite Himp in H; discriminate).
  destruct H as (df & t & st3 & _ & _ & _ & _ & Hl & _ & H).
  rewrite Himp in H. injection H as -> ->.
  destruct Hl as (lp & lu & lm & _ & _ & _ & Hu & Hm & Ff & _).
  cbn [fst snd unmatched app] in Hu, Hm, Ff. subst lm.
  set (sid := next_id (map s_id (import_sessions st))) in *.
  assert (Hitems : get_unmatched_imports
                     (with_session st st3
                        (session_row st file_path customer_id vendor_id
                           (u "completed") (Some (processed t))
                           (Some (errors t)))) sid = lu).
  { unfold get_unmatched_imports.
    change (unmatched_imports (with_session st st3 _))
      with (unmatched_imports st3).
    rewrite Hu, filter_app, filter_drops, filter_keeps; [reflexivity| |].
    - intros x Hx.
      assert (Hf : exists md, files sch sid x md).
      { clear - Ff Hx. induction Ff as [|a b la lb Hab _ IH]; [destruct Hx|].
        destruct Hx as [<-|Hx]; [exists b; exact Hab | exact (IH Hx)]. }
      destruct Hf as (md & Hs & _ & _ & _ & _ & _ & Hst).
      rewrite Hs, Hst, Hdef, Z.eqb_refl. apply eqb_refl.
    - intros x Hx. apply Hknown in Hx.
      pose proof (next_id_above _ _ Hx) as Hlt. fold sid in Hlt.
      destruct (Z.eqb_spec (import_session_id x) sid); [lia|reflexivity]. }
  cbn [r_session_id r_unmatched]. unfold get_import_results.
  cbn [unmatched_count unmatched_items]. rewrite Hitems.
  split; [|exact Ff].
  f_equal. exact (Forall2_length Ff).
Qed.

(** The report for the list of two lines. *)
Lemma report_sample :
  exists r st',
    import_from_file mixed_world (sample_schema AliasesOuter)
      (u "prices.csv") None None None alias_store = (Ok r, st')
    /\ unmatched_count (get_import_results st' (r_session_id r))
       = Z.of_nat (length (r_unmatched r)).
Proof.
  destruct (import_from_file mixed_world (sample_schema AliasesOuter)
              (u "prices.csv") None None None alias_store)
    as [[r|e] st'] eqn:Himp; [|vm_compute in Himp; discriminate].
  exists r, st'. split; [reflexivity|].
  refine (proj1 (@report_lists_unmatched_lines Z mixed_world
                   (sample_schema AliasesOuter) (u "prices.csv") None None
                   None alias_store st' r _ eq_refl Himp)).
  intros x Hx. destruct Hx.
Defined.

End BatchMore.

(** ** Customers, materials and price sources *)
Module RegistryMore.
Import Catalog Py Py.Notations Db Re PyStrFacts ResolverFacts Importer
       ImportLoop Registry Samples Samples2.

Lemma next_id_positive (ids : list Z) : (0 < next_id ids)%Z.
Proof.
  unfold next_id.
  assert (0 <= fold_right Z.max 0 ids)%Z; [|lia].
  induction ids as [|z t IH]; simpl; lia.
Qed.

Lemma find_fresh (A : Type) (p : A -> bool) (l : list A) (x : A) :
  (forall y, In y l -> p y = false) ->
  find p (l ++ [x]) = if p x then Some x else None.
Proof.
  induction l as [|y t IH]; intros H; simpl; [reflexivity|].
  rewrite (H y (or_introl eq_refl)). apply IH. intros z Hz. apply H.
  right. exact Hz.
Qed.

Lemma find_other (A : Type) (p : A -> bool) (l : list A) (x : A) :
  p x = false -> find p (l ++ [x]) = find p l.
Proof.
  intros Hx. induction l as [|y t IH]; simpl; [rewrite Hx; reflexivity|].
  destruct (p y); [reflexivity | exact IH].
Qed.

(** X19.  A customer that has just been added is served by its own
    preference: [add_customer] returns an id that is not zero, under which
    the price selection reads the preferred source type given to the call,
    and the preference of every other customer is as before. *)
Theorem new_customer_preference_is_read (float : Type)
  (es : EntitySchema float) (st st' : Store float) (name preferred : str)
  (id : Z) :
  add_customer es name preferred st = (Ok id, st') ->
  id <> 0%Z
  /\ preferred_type_of st' (Some id) = Some preferred
  /\ (forall c, c <> id ->
        preferred_type_of st' (Some c) = preferred_type_of st (Some c)).
Proof.
  unfold add_customer. destruct (accepts_customer es st _); [|discriminate].
  intros H. injection H as <- <-.
  set (id := next_id (map c_id (customers st))).
  pose proof (next_id_positive (map c_id (customers st))) as Hpos.
  fold id in Hpos.
  split; [lia|]. split.
  - unfold preferred_type_of. cbn [ztruthy customers set_customers].
    destruct (Z.eqb_spec id 0) as [E|_]; [lia|]. cbn [negb].
    rewrite find_fresh.
    + cbn [c_id]. rewrite Z.eqb_refl. reflexivity.
    + intros y Hy.
      pose proof (next_id_above (map c_id (customers st)) (c_id y)
                    (in_map c_id _ _ Hy)) as Hlt.
      fold id in Hlt. destruct (Z.eqb_spec (c_id y) id); [lia|reflexivity].
  - intros c Hc. unfold preferred_type_of.
    cbn [ztruthy customers set_customers].
    destruct (negb (c =? 0)%Z); [|reflexivity].
    rewrite find_other; [reflexivity|].
    cbn [c_id]. destruct (Z.eqb_spec id c); [congruence|reflexivity].
Qed.

(** A second customer, who prefers the prices of web sites. *)
Lemma new_customer_sample :
  exists st',
    add_customer sample_entity_schema (u "Dom") (u "website") price_store_5
    = (Ok 6%Z, st')
    /\ preferred_type_of st' (Some 6%Z) = Some (u "website")
    /\ preferred_type_of st' (Some 5%Z) = Some (u "manual").
Proof.
  eexists. split; [reflexivity|].
  destruct (@new_customer_preference_is_read Z sample_entity_schema
              price_store_5 _ (u "Dom") (u "website") 6%Z eq_refl)
    as (_ & Hnew & Hold).
  split; [exact Hnew|].
  rewrite (Hold 5%Z); [reflexivity | discriminate].
Defined.



(** X21.  A material added under a normalised name is resolved by the
    importer.  When the column [active] defaults to 1 and the name given
    to [add_material] is one that the normalisation leaves as it is, a
    line with that name and the unit of the material is matched exactly,
    to an active material of that name and unit, whatever the customer and
    the aliases. *)
Theorem added_material_is_resolved (float : Type) (es : EntitySchema float)
  (sch : Schema float) (st st' : Store float) (material_id name unit_ : str)
  (work_rate_ : float) (category_ : option str) (vendor : option Z)
  (id : str) (article : option str) (customer_id : option Z) :
  add_material es material_id name unit_ work_rate_ category_ vendor st
  = (Ok id, st') ->
  default_active es = 1%Z ->
  truthy name = true -> truthy unit_ = true ->
  _clean_material_name name = name ->
  id = material_id
  /\ exists m,
       _match_material sch st' (Some name) (Some unit_) article customer_id
       = Some (m, None)
       /\ In m (materials st')
       /\ name_canonical m = name /\ m_unit m = unit_ /\ active m = 1%Z.
Proof.
  unfold add_material. destruct (accepts_material es st _); [|discriminate].
  intros H Hact Hn Hu Hclean. injection H as <- <-.
  split; [reflexivity|].
  set (row := mkMaterial material_id name unit_ work_rate_ category_
                (default_active es) vendor).
  set (st' := set_materials st (materials st ++ [row])).
  destruct (get_material_by_name st' name unit_) as [m|] eqn:Eg.
  - exists m. unfold _match_material. rewrite Hn, Hu, Hclean. cbn [negb].
    rewrite Eg. split; [reflexivity|].
    apply get_material_by_name_some in Eg as (Hin & Hnm & Hun & Ha). auto.
  - exfalso. unfold get_material_by_name in Eg.
    pose proof (find_none _ _ Eg row) as Hrow.
    cbn [materials set_materials st'] in Hrow.
    assert (Hin : In row (materials st ++ [row]))
      by (apply in_or_app; right; left; reflexivity).
    specialize (Hrow Hin).
    cbn [row name_canonical m_unit active] in Hrow.
    rewrite !eqb_refl, Hact in Hrow. discriminate.
Qed.

(** Plaster, added to the sample catalogue and then met in a list. *)
Lemma added_material_sample :
  exists st' m,
    add_material sample_entity_schema (u "plaster") (u "штукатурка") (u "кг")
      0%Z None None alias_store = (Ok (u "plaster"), st')
    /\ _match_material (sample_schema AliasesOuter) st'
         (Some (u "штукатурка")) (Some (u "кг")) None None = Some (m, None)
    /\ name_canonical m = u "штукатурка".
Proof.
  eexists.
  destruct (@added_material_is_resolved Z sample_entity_schema
              (sample_schema AliasesOuter) alias_store _ (u "plaster")
              (u "штукатурка") (u "кг") 0%Z None None (u "plaster") None None
              eq_refl eq_refl eq_refl eq_refl eq_refl)
    as (_ & m & Hm & _ & Hn & _).
  exists m. split; [reflexivity|]. split; [exact Hm | exact Hn].
Defined.

(** X22.  An update of a session that does not exist is silent: for an id
    that no session has, [update_import_session] returns without an error
    and the store is as it was. *)
Theorem update_of_unknown_session_is_silent (float : Type)
  (st : Store float) (session_id : Z) (status_ : str) (p e : option Z) :
  ~ In session_id (map s_id (import_sessions st)) ->
  update_import_session session_id status_ p e st = (Ok tt, st).
Proof.
  intros Hno. unfold update_import_session, modify. f_equal.
  destruct st as [ms al cu ps mp ss um]. unfold set_import_sessions.
  cbn [materials material_aliases customers price_sources material_prices
       import_sessions unmatched_imports] in *.
  f_equal. rewrite <- (map_id ss) at 2. apply map_ext_in. intros s Hs.
  destruct (Z.eqb_spec (s_id s) session_id) as [E|]; [|reflexivity].
  exfalso. apply Hno. rewrite <- E. apply in_map. exact Hs.
Qed.

(** Session 9 in a store without sessions. *)
Lemma update_of_unknown_session_sample :
  update_import_session 9 (u "completed") (Some 3%Z) (Some 0%Z) alias_store
  = (Ok tt, alias_store).
Proof.
  apply (@update_of_unknown_session_is_silent Z alias_store 9%Z
           (u "completed") (Some 3%Z) (Some 0%Z)).
  intros H. destruct H.
Defined.

(** X23.  Without a customer every scope is seen.  A lookup with no
    customer, or with the customer id 0, yields every row that the lookup
    of any customer yields, and the two give the same rows. *)
Theorem anonymous_lookup_sees_every_scope (float : Type) (sch : Schema float)
  (st : Store float) (alias : str) :
  find_material_by_alias sch st alias (Some 0%Z)
  = find_material_by_alias sch st alias None
  /\ forall (c : Z) (x : Material float * str),
       In x (find_material_by_alias sch st alias (Some c)) ->
       In x (find_material_by_alias sch st alias None).
Proof.
  split; [reflexivity|].
  intros c [m t] Hin.
  apply find_material_by_alias_in in Hin as (al & Hal & Hm & Hvis & Hj & Ht).
  apply find_material_by_alias_in. exists al.
  repeat match goal with |- _ /\ _ => split end; try assumption.
  apply ResolverMore.alias_visible_name in Hvis as [Hvis _].
  unfold alias_visible. cbn [ztruthy]. apply eqb_eq. exact Hvis.
Qed.

(** The alias of customer 7 for sand, seen without a customer. *)
Lemma anonymous_lookup_sample :
  In (sand, u "цемент")
     (find_material_by_alias (sample_schema AliasesOuter) alias_store
        (u "цемент") (Some 7%Z))
  /\ In (sand, u "цемент")
        (find_material_by_alias (sample_schema AliasesOuter) alias_store
           (u "цемент") None).
Proof.
  assert (Hin : In (sand, u "цемент")
                   (find_material_by_alias (sample_schema AliasesOuter)
                      alias_store (u "цемент") (Some 7%Z)))
    by (right; left; reflexivity).
  split; [exact Hin|].
  apply (proj2 (@anonymous_lookup_sees_every_scope Z
                  (sample_schema AliasesOuter) alias_store (u "цемент"))
           7%Z (sand, u "цемент") Hin).
Defined.

End RegistryMore.

(* ===================================================================== *)
(** * Price texts                                                          *)
(* ===================================================================== *)

Module ScraperMore.
Import PyStr Importer Scraper Samples Samples2.

Section Texts.
Variable is_digit : cp -> bool.

Lemma split_go_concat (sep : cp) (s acc : str) :
  concat (split_go sep acc s) = acc ++ remove sep s.
Proof.
  revert acc; induction s as [|c t IH]; intros acc; simpl.
  - rewrite !app_nil_r. reflexivity.
  - destruct (c =? sep)%N; simpl.
    + rewrite IH. reflexivity.
    + rewrite IH, <- app_assoc. reflexivity.
Qed.

Lemma split_two (sep : cp) (s p0 p1 : str) :
  split sep s = [p0; p1] -> p0 ++ p1 = remove sep s.
Proof.
  intros H. pose proof (split_go_concat sep s []) as Hc.
  fold (split sep s) in Hc. rewrite H in Hc. simpl in Hc.
  rewrite app_nil_r in Hc. exact Hc.
Qed.

Lemma contains_false (a : cp) (s : str) :
  contains a s = false -> Forall (fun c => c <> a) s.
Proof.
  unfold contains. induction s as [|c t IH]; simpl; intros H; constructor.
  - apply orb_false_iff in H as [H _]. apply N.eqb_neq in H. congruence.
  - apply IH. apply orb_false_iff in H as [_ H]. exact H.
Qed.

Lemma price_chars_class (s : str) :
  Forall (fun c => is_digit c = true \/ c = 46%N \/ c = 44%N)
         (price_chars is_digit s).
Proof.
  apply Forall_forall. intros c Hc. apply filter_In in Hc as [_ Hc].
  apply orb_true_iff in Hc as [Hc|Hc];
    [apply orb_true_iff in Hc as [Hc|Hc]|].
  - left. exact Hc.
  - right. left. apply N.eqb_eq. exact Hc.
  - right. right. apply N.eqb_eq. exact Hc.
Qed.

(** What is left when the commas are taken out of a text of digits, dots
    and commas. *)
Lemma remove_comma_class (s : str) :
  Forall (fun c => is_digit c = true \/ c = 46%N \/ c = 44%N) s ->
  Forall (fun c => is_digit c = true \/ c = 46%N) (remove 44%N s).
Proof.
  intros H. apply Forall_forall. intros c Hc. apply filter_In in Hc as [Hin Hc].
  rewrite Forall_forall in H. destruct (H c Hin) as [Hd|[Hd|Hd]]; auto.
  subst c. discriminate.
Qed.

Lemma filter_digit_remove (a : cp) (s : str) :
  is_digit a = false ->
  filter is_digit (remove a s) = filter is_digit s.
Proof.
  intros Ha. induction s as [|c t IH]; simpl; [reflexivity|].
  destruct (N.eqb_spec c a) as [->|Hne]; simpl.
  - rewrite Ha. exact IH.
  - destruct (is_digit c); [f_equal|]; exact IH.
Qed.

Lemma filter_digit_replace (a b : cp) (s : str) :
  is_digit a = false -> is_digit b = false ->
  filter is_digit (replace a b s) = filter is_digit s.
Proof.
  intros Ha Hb. induction s as [|c t IH]; simpl; [reflexivity|].
  destruct (N.eqb_spec c a) as [->|Hne].
  - rewrite Ha, Hb. exact IH.
  - destruct (is_digit c); [f_equal|]; exact IH.
Qed.

Lemma filter_digit_chars (s : str) :
  filter is_digit (price_chars is_digit s) = filter is_digit s.
Proof.
  induction s as [|c t IH]; simpl; [reflexivity|].
  destruct (is_digit c) eqn:Hc; simpl.
  - rewrite Hc. f_equal. exact IH.
  - destruct ((c =? 46)%N || (c =? 44)%N); simpl; [rewrite Hc|]; exact IH.
Qed.

End Texts.

(** X24.  What [_parse_price] hands to [float] is made of digits and dots
    alone: whatever the price text, no comma, no currency sign and no
    blank is left in it. *)
Theorem decimal_text_has_digits_and_dots (is_digit : cp -> bool)
  (price_text : str) :
  Forall (fun c => is_digit c = true \/ c = 46%N)
         (decimal_text is_digit price_text).
Proof.
  unfold decimal_text. cbv zeta.
  pose proof (price_chars_class is_digit price_text) as Hcl.
  set (cleaned := price_chars is_digit price_text) in *.
  destruct (contains 44%N cleaned) eqn:Hcomma; cbn [andb].
  - destruct (contains 46%N cleaned) eqn:Hdot.
    + apply Forall_forall. intros c Hc. unfold replace in Hc.
      apply in_map_iff in Hc as (x & <- & Hx).
      apply filter_In in Hx as [Hin Hx]. rewrite Forall_forall in Hcl.
      destruct (N.eqb_spec x 44%N) as [->|Hne]; [right; reflexivity|].
      destruct (Hcl x Hin) as [Hd|[Hd|Hd]]; [left; exact Hd | | contradiction].
      subst x. discriminate.
    + pose proof (@remove_comma_class is_digit cleaned Hcl) as Hrm.
      destruct (split 44%N cleaned) as [|p0 [|p1 [|p2 rest]]] eqn:Hs;
        try exact Hrm.
      destruct (length p1 <=? 2)%nat; [|exact Hrm].
      apply split_two in Hs. rewrite <- Hs in Hrm.
      apply Forall_app in Hrm as [H0 H1].
      apply Forall_app. split; [exact H0|].
      constructor; [right; reflexivity | exact H1].
  - apply contains_false in Hcomma. rewrite Forall_forall in *.
    intros c Hc. destruct (Hcl c Hc) as [Hd|[Hd|Hd]]; auto.
    exfalso. apply (Hcomma c Hc Hd).
Qed.

(** X25.  [_parse_price] changes the separators of a price text and
    nothing else: where the comma and the dot are not digits, the digits
    of the text handed to [float] are the digits of the price text, in
    their order. *)
Theorem decimal_text_keeps_the_digits (is_digit : cp -> bool)
  (price_text : str) :
  is_digit 44%N = false -> is_digit 46%N = false ->
  filter is_digit (decimal_text is_digit price_text)
  = filter is_digit price_text.
Proof.
  intros Hc Hd. unfold decimal_text. cbv zeta.
  rewrite <- (filter_digit_chars is_digit price_text).
  set (cleaned := price_chars is_digit price_text).
  destruct (contains 44%N cleaned && contains 46%N cleaned).
  - rewrite filter_digit_replace, filter_digit_remove by assumption.
    reflexivity.
  - destruct (contains 44%N cleaned); [|reflexivity].
    destruct (split 44%N cleaned) as [|p0 [|p1 [|p2 rest]]] eqn:Hs;
      try (apply filter_digit_remove; exact Hc).
    destruct (length p1 <=? 2)%nat; [|apply filter_digit_remove; exact Hc].
    apply split_two in Hs.
    rewrite <- (@filter_digit_remove is_digit 44%N cleaned Hc), <- Hs,
      !filter_app.
    cbn [filter]. rewrite Hd. reflexivity.
Qed.

(** A price with a decimal comma and a currency sign. *)
Lemma decimal_text_sample :
  filter ascii_digit (decimal_text ascii_digit (u "1 234,50 ₽"))
  = filter ascii_digit (u "1 234,50 ₽").
Proof.
  apply (@decimal_text_keeps_the_digits ascii_digit (u "1 234,50 ₽"));
    reflexivity.
Defined.

End ScraperMore.

(* ===================================================================== *)
(** * The JSON catalogue and its two scripts                               *)
(* ===================================================================== *)

Module JsonCatalogFacts.
Import PyStr PyStrFacts JsonCatalog.

Section Entries.
Variables num other : Type.

Lemma same_key_iff (name unit_ : str) (m : Entry num other) :
  same_key name unit_ m = true <-> (e_name m, e_unit m) = (name, unit_).
Proof.
  unfold same_key. rewrite andb_true_iff, !eqb_eq. split.
  - intros [-> ->]. reflexivity.
  - intros H. injection H as -> ->. auto.
Qed.

Lemma same_key_priced (name unit_ : str) (p l : num) (m : Entry num other) :
  same_key name unit_ (priced p l m) = same_key name unit_ m.
Proof. reflexivity. Qed.

Lemma no_match_iff (name unit_ : str) (c : list (Entry num other)) :
  filter (same_key name unit_) c = []
  <-> ~ In (name, unit_) (map (@key num other) c).
Proof.
  induction c as [|m t IH]; simpl; [tauto|].
  destruct (same_key name unit_ m) eqn:E.
  - split; [discriminate|]. intros H. exfalso. apply H. left.
    apply same_key_iff. exact E.
  - rewrite IH. split.
    + intros H [Hk|Hk]; [|exact (H Hk)].
      apply same_key_iff in Hk. congruence.
    + intros H Hk. apply H. right. exact Hk.
Qed.

Lemma one_match (name unit_ : str) (c : list (Entry num other)) :
  unique_keys c ->
  filter (same_key name unit_) c = []
  \/ exists m, filter (same_key name unit_) c = [m].
Proof.
  unfold unique_keys. induction c as [|m t IH]; simpl; intros Hu; [auto|].
  apply NoDup_cons_iff in Hu as [Hm Ht].
  destruct (same_key name unit_ m) eqn:E; [|exact (IH Ht)].
  right. exists m. f_equal. apply no_match_iff.
  apply same_key_iff in E. rewrite <- E. exact Hm.
Qed.

Lemma keys_update_first (name unit_ : str) (p l : num)
  (c : list (Entry num other)) :
  map (@key num other) (update_first name unit_ p l c)
  = map (@key num other) c.
Proof.
  induction c as [|m t IH]; simpl; [reflexivity|].
  destruct (same_key name unit_ m); simpl; [reflexivity|].
  rewrite IH. reflexivity.
Qed.

Lemma filter_update_other (name unit_ n u : str) (p l : num)
  (c : list (Entry num other)) :
  (n, u) <> (name, unit_) ->
  filter (same_key n u) (update_first name unit_ p l c)
  = filter (same_key n u) c.
Proof.
  intros Hne. induction c as [|m t IH]; simpl; [reflexivity|].
  destruct (same_key name unit_ m) eqn:E; simpl.
  - rewrite same_key_priced.
    destruct (same_key n u m) eqn:E'; [|reflexivity].
    apply same_key_iff in E, E'. congruence.
  - rewrite IH. reflexivity.
Qed.

Lemma filter_update_same (name unit_ : str) (p l : num)
  (c : list (Entry num other)) :
  filter (same_key name unit_) (update_first name unit_ p l c)
  = match filter (same_key name unit_) c with
    | [] => []
    | m :: r => priced p l m :: r
    end.
Proof.
  induction c as [|m t IH]; simpl; [reflexivity|].
  destruct (same_key name unit_ m) eqn:E; simpl.
  - rewrite same_key_priced, E. reflexivity.
  - rewrite E. exact IH.
Qed.

Lemma update_first_app (name unit_ : str) (p l : num)
  (c d : list (Entry num other)) :
  filter (same_key name unit_) c = [] ->
  update_first name unit_ p l (c ++ d)
  = c ++ update_first name unit_ p l d.
Proof.
  induction c as [|m t IH]; simpl; intros H; [reflexivity|].
  destruct (same_key name unit_ m); [discriminate|].
  rewrite (IH H). reflexivity.
Qed.

Lemma update_first_twice (name unit_ : str) (p l p' l' : num)
  (c : list (Entry num other)) :
  update_first name unit_ p' l' (update_first name unit_ p l c)
  = update_first name unit_ p' l' c.
Proof.
  induction c as [|m t IH]; simpl; [reflexivity|].
  destruct (same_key name unit_ m) eqn:E; simpl.
  - rewrite same_key_priced, E. reflexivity.
  - rewrite E, IH. reflexivity.
Qed.

End Entries.

End JsonCatalogFacts.

Module JsonCatalogMore.
Import PyStr PyStrFacts JsonCatalog JsonCatalogFacts Samples2.

(** X26.  [add_material.py] keeps the catalogue free of duplicates, and
    [fill_prices.py] then finds what was entered.  In a catalogue where
    no two entries have the same name and unit, after the script has run
    for a name and a unit there are still no two such entries, the look-up
    of [process_excel] for that name and unit finds one entry, with the
    price and the labour cost given to the script, and its answer for any
    other name or unit is what it was. *)
Theorem added_entry_is_found_alone (num other : Type)
  (catalog : list (Entry num other)) (name unit_ : str)
  (price_ labor_cost_ : num) (new_id : str) :
  unique_keys catalog ->
  let catalog' := add_material_script catalog name unit_ price_ labor_cost_
                    new_id in
  unique_keys catalog'
  /\ catalog_lookup catalog' name unit_ = Unique price_ labor_cost_
  /\ forall n u, (n, u) <> (name, unit_) ->
                 catalog_lookup catalog' n u = catalog_lookup catalog n u.
Proof.
  intros Hu catalog'. subst catalog'. unfold add_material_script.
  destruct (filter (same_key name unit_) catalog) as [|m r] eqn:Ef.
  - split; [|split].
    + unfold unique_keys. rewrite map_app. cbn [map key e_name e_unit].
      apply NoDup_app; [exact Hu | repeat constructor; intros [] |].
      intros k Hk [<-|[]]. apply no_match_iff in Ef. exact (Ef Hk).
    + unfold catalog_lookup. rewrite filter_app, Ef. cbn [filter app].
      unfold same_key at 1. cbn [e_name e_unit]. rewrite !eqb_refl.
      reflexivity.
    + intros n u Hne. unfold catalog_lookup. rewrite filter_app.
      cbn [filter]. destruct (same_key n u _) eqn:E.
      * apply same_key_iff in E. cbn [e_name e_unit] in E. congruence.
      * rewrite app_nil_r. reflexivity.
  - split; [|split].
    + unfold unique_keys. rewrite keys_update_first. exact Hu.
    + unfold catalog_lookup. rewrite filter_update_same, Ef.
      destruct (one_match name unit_ Hu) as [H|[m' H]]; rewrite H in Ef;
        [discriminate|].
      injection Ef as -> <-. reflexivity.
    + intros n u Hne. unfold catalog_lookup.
      rewrite filter_update_other by exact Hne. reflexivity.
Qed.

(** Cement at a new price, and plaster as a new entry. *)
Lemma added_entry_sample :
  catalog_lookup
    (add_material_script json_catalog (u "Цемент М500") (u "кг") 7%Z 3%Z
       (u "new"))
    (u "Цемент М500") (u "кг") = Unique 7%Z 3%Z.
Proof.
  refine (proj1 (proj2 (@added_entry_is_found_alone Z Z json_catalog
                          (u "Цемент М500") (u "кг") 7%Z 3%Z (u "new") _))).
  unfold unique_keys.
  repeat constructor; simpl; intros H; repeat destruct H as [H|H];
    try (vm_compute in H; discriminate); exact H.
Defined.

(** X27.  The last run of [add_material.py] for a name and a unit
    decides their price: two runs for the same name and unit leave the
    catalogue that the second alone would leave, but for the id of a new
    entry, which is the one drawn by the first run. *)
Theorem last_run_of_add_material_wins (num other : Type)
  (catalog : list (Entry num other)) (name unit_ : str)
  (price_ labor_cost_ price' labor_cost' : num) (new_id new_id' : str) :
  add_material_script
    (add_material_script catalog name unit_ price_ labor_cost_ new_id)
    name unit_ price' labor_cost' new_id'
  = add_material_script catalog name unit_ price' labor_cost' new_id.
Proof.
  unfold add_material_script at 2 3.
  destruct (filter (same_key name unit_) catalog) as [|m r] eqn:Ef.
  - unfold add_material_script. rewrite filter_app, Ef. cbn [filter app].
    unfold same_key at 1. cbn [e_name e_unit]. rewrite !eqb_refl. cbn [andb].
    rewrite update_first_app by exact Ef. cbn [update_first].
    unfold same_key at 1. cbn [e_name e_unit]. rewrite !eqb_refl.
    reflexivity.
  - unfold add_material_script. rewrite filter_update_same, Ef.
    apply update_first_twice.
Qed.

End JsonCatalogMore.
